(** * vetCheck: a shallow embedding of [app.py]

    The service is a single Flask module.  Its two handlers, [/diagnose]
    and [/veterinary-details], build a prompt, call one external
    chat-completion provider through a retrying wrapper, coerce the
    textual reply into a Python object and reshape it into an HTTP
    response.

    Python objects are embedded as the inductive [pyval]; exceptions as
    values of [exn] carried by [result]; the external provider, the
    sleeps of the retry policy and the [lru_cache] store live in an
    explicit [world] that every effectful function threads. *)

From Stdlib Require Import String Ascii List ZArith Bool Arith Lia.
From Stdlib Require Import Hexadecimal HexadecimalString DecimalString.
From Stdlib Require Import Sorted Permutation.
Import ListNotations.

Local Open Scope string_scope.
Local Open Scope list_scope.

(** ** Python values *)

(** A finite double, by its exact value
    [(-1)^negative * mantissa * 2^exponent]; a zero keeps its sign.
    The values [nan] and [inf], which [json.loads] yields only for the
    tokens [NaN] and [Infinity] and for literals beyond the range of a
    double, are outside this model. *)
Record pyfloat : Type := mkFloat {
  negative : bool;
  mantissa : N;
  exponent : Z
}.

(** The objects [json.loads] can produce, which are also the objects a
    request body can hold.  JSON numbers with a fraction or an exponent
    decode to floats; integers are unbounded, as in Python. *)
#[warnings="-register-all"]
Inductive pyval : Type :=
| PNone
| PBool (b : bool)
| PInt (z : Z)
| PFloat (f : pyfloat)
| PStr (s : string)
| PList (l : list pyval)
| PDict (d : list (string * pyval)).

(** A [dict] keeps insertion order ([user_data.items()] iterates in it);
    keys are unique in every dict a decoder builds, and lookup takes the
    first binding. *)
Definition dict : Type := list (string * pyval).

Fixpoint dict_get (k : string) (d : dict) : option pyval :=
  match d with
  | [] => None
  | (k', v) :: d' => if String.eqb k k' then Some v else dict_get k d'
  end.

Definition dict_mem (k : string) (d : dict) : bool :=
  match dict_get k d with Some _ => true | None => false end.

(** Assignment [d[k] = v]: an existing key keeps its position. *)
Fixpoint dict_set (k : string) (v : pyval) (d : dict) : dict :=
  match d with
  | [] => [(k, v)]
  | (k', v') :: d' =>
      if String.eqb k k' then (k, v) :: d' else (k', v') :: dict_set k v d'
  end.

(** Truth value testing, as [if x:] and [not x] do it. *)
Definition truthy (v : pyval) : bool :=
  match v with
  | PNone => false
  | PBool b => b
  | PInt z => negb (Z.eqb z 0)
  | PFloat f => negb (N.eqb (mantissa f) 0)
  | PStr s => negb (String.eqb s EmptyString)
  | PList l => match l with [] => false | _ => true end
  | PDict d => match d with [] => false | _ => true end
  end.

(** ** Strings *)

(** [sub in s] on two strings. *)
Fixpoint str_contains (sub s : string) : bool :=
  if String.prefix sub s then true
  else match s with
       | EmptyString => false
       | String _ s' => str_contains sub s'
       end.

Fixpoint str_mem (c : ascii) (s : string) : bool :=
  match s with
  | EmptyString => false
  | String a s' => Ascii.eqb a c || str_mem c s'
  end.

(** [', '.join(...)] and friends. *)
Fixpoint str_join (sep : string) (l : list string) : string :=
  match l with
  | [] => EmptyString
  | [x] => x
  | x :: l' => x ++ sep ++ str_join sep l'
  end.

Definition Z_to_string (z : Z) : string := DecimalString.NilZero.string_of_int (Z.to_int z).

(** ** Exceptions *)

(** The classes of the provider SDK's error hierarchy, all subclasses of
    [OpenAIError]. *)
Inductive openai_class : Type :=
| OpenAIErrorBase
| APIError
| APIConnectionError
| APITimeoutError
| APIResponseValidationError
| APIStatusError
| BadRequestError
| AuthenticationError
| PermissionDeniedError
| NotFoundError
| ConflictError
| UnprocessableEntityError
| RateLimitError
| InternalServerError.

Definition openai_class_name (c : openai_class) : string :=
  match c with
  | OpenAIErrorBase => "OpenAIError"
  | APIError => "APIError"
  | APIConnectionError => "APIConnectionError"
  | APITimeoutError => "APITimeoutError"
  | APIResponseValidationError => "APIResponseValidationError"
  | APIStatusError => "APIStatusError"
  | BadRequestError => "BadRequestError"
  | AuthenticationError => "AuthenticationError"
  | PermissionDeniedError => "PermissionDeniedError"
  | NotFoundError => "NotFoundError"
  | ConflictError => "ConflictError"
  | UnprocessableEntityError => "UnprocessableEntityError"
  | RateLimitError => "RateLimitError"
  | InternalServerError => "InternalServerError"
  end.

(** A provider error: its class, the [status_code] attribute when the
    class has one ([getattr(e, 'status_code', None)]) and its message. *)
Record openai_error : Type := mkOpenAIError {
  err_class : openai_class;
  status_code : option Z;
  err_message : string
}.

(** The exceptions that can reach a handler's [except Exception].
    [PyException msg] is a plain [Exception(msg)].  [RetryError] is what
    tenacity's [@retry] raises when it gives up: the decorators of
    [app.py] do not pass [reraise=True], so the last exception is wrapped,
    not re-raised.  [addr] is the [id] of the wrapped attempt, which its
    [repr] prints. *)
Inductive exn : Type :=
| KeyError (key : string)
| TypeError (msg : string)
| AttributeError (msg : string)
| ValueError (msg : string)
| RecursionError (msg : string)
| OpenAIError (e : openai_error)
| PyException (msg : string)
| RetryError (addr : Hexadecimal.uint) (last : exn).

Definition exn_class_name (e : exn) : string :=
  match e with
  | KeyError _ => "KeyError"
  | TypeError _ => "TypeError"
  | AttributeError _ => "AttributeError"
  | ValueError _ => "ValueError"
  | RecursionError _ => "RecursionError"
  | OpenAIError e => openai_class_name (err_class e)
  | PyException _ => "Exception"
  | RetryError _ _ => "RetryError"
  end.

(** [str(e)].  A [KeyError] prints the [repr] of its key (the keys raised
    here are the literals of [app.py], which need no escaping);
    [RetryError.__str__] prints the class name and the [repr] of the
    finished attempt, which names only the class of what it raised. *)
Definition exn_str (e : exn) : string :=
  match e with
  | KeyError k => "'" ++ k ++ "'"
  | TypeError msg => msg
  | AttributeError msg => msg
  | ValueError msg => msg
  | RecursionError msg => msg
  | OpenAIError e => err_message e
  | PyException msg => msg
  | RetryError addr last =>
      "RetryError[<Future at 0x" ++ HexadecimalString.NilZero.string_of_uint addr
        ++ " state=finished raised " ++ exn_class_name last ++ ">]"
  end.

Inductive result (A : Type) : Type :=
| Ok (a : A)
| Raise (e : exn).

Arguments Ok {A} a.
Arguments Raise {A} e.

Definition rbind {A B : Type} (r : result A) (k : A -> result B) : result B :=
  match r with
  | Ok a => k a
  | Raise e => Raise e
  end.

Definition is_ok {A : Type} (r : result A) : bool :=
  match r with Ok _ => true | Raise _ => false end.

Declare Scope result_scope.
Delimit Scope result_scope with result.
Notation "x <- r ;; k" := (rbind r (fun x => k))
  (at level 61, r at next level, right associativity) : result_scope.

(** ** What [json.loads] does with a text *)

(** Besides returning an object or raising [JSONDecodeError],
    [json.loads] raises [RecursionError] on a text nested deeper than
    the interpreter allows, and [ValueError] on an integer literal of
    more digits than [int] converts (4300 by default); neither is a
    [JSONDecodeError]. *)
Inductive json_crash : Type :=
| RecursionDepth (in_object : bool)
| IntDigits (digits : nat).

Inductive json_result : Type :=
| Decoded (v : pyval)
| JSONDecodeError
| Crashed (c : json_crash).

Definition int_max_str_digits : nat := 4300.

Definition nat_to_string (n : nat) : string :=
  DecimalString.NilZero.string_of_uint (Nat.to_uint n).

Definition crash_exn (c : json_crash) : exn :=
  match c with
  | RecursionDepth in_object =>
      RecursionError
        ("maximum recursion depth exceeded while decoding a JSON "
           ++ (if in_object then "object" else "array")
           ++ " from a unicode string")
  | IntDigits digits =>
      ValueError
        ("Exceeds the limit (4300 digits) for integer string conversion: value has "
           ++ nat_to_string digits
           ++ " digits; use sys.set_int_max_str_digits() to increase the limit")
  end.

(** The name of a value's type, as error messages print it. *)
Definition type_name (v : pyval) : string :=
  match v with
  | PNone => "NoneType"
  | PBool _ => "bool"
  | PInt _ => "int"
  | PFloat _ => "float"
  | PStr _ => "str"
  | PList _ => "list"
  | PDict _ => "dict"
  end.

(** ** The pattern [\{[\s\S]*\}] *)

(** The patterns needed are sequences of one-character tests, each
    taken once or under a greedy star. *)
Inductive re_item : Type :=
| One (p : ascii -> bool)
| Many (p : ascii -> bool).

(** Backtracking match of [pat] at the start of [s]; the result is the
    matched prefix.  A starred item first takes a character and goes on;
    only when that fails does it hand over to the rest of the pattern. *)
Fixpoint match_here (pat : list re_item) (s : string) {struct pat}
  : option string :=
  match pat with
  | [] => Some EmptyString
  | One p :: pat' =>
      match s with
      | String c s' =>
          if p c then option_map (String c) (match_here pat' s') else None
      | EmptyString => None
      end
  | Many p :: pat' =>
      (fix star (t : string) : option string :=
         match t with
         | String c t' =>
             if p c then
               match star t' with
               | Some m => Some (String c m)
               | None => match_here pat' t
               end
             else match_here pat' t
         | EmptyString => match_here pat' EmptyString
         end) s
  end.

(** [re.search(pat, s)]: the match at the leftmost position that has
    one; the value is [group(0)]. *)
Fixpoint re_search (pat : list re_item) (s : string) : option string :=
  match match_here pat s with
  | Some m => Some m
  | None =>
      match s with
      | String _ s' => re_search pat s'
      | EmptyString => None
      end
  end.

Definition brace_re : list re_item :=
  [One (Ascii.eqb "{"); Many (fun _ => true); One (Ascii.eqb "}")].

(** What is left of [brace_re] once the opening brace is matched. *)
Definition tail_re : list re_item :=
  [Many (fun _ => true); One (Ascii.eqb "}")].

(** The spec's wording of the fallback: the substring from the first
    opening brace through the last closing brace. *)
Fixpoint find_first (c : ascii) (s : string) : option nat :=
  match s with
  | EmptyString => None
  | String a s' =>
      if Ascii.eqb a c then Some 0 else option_map S (find_first c s')
  end.

Fixpoint find_last (c : ascii) (s : string) : option nat :=
  match s with
  | EmptyString => None
  | String a s' =>
      match find_last c s' with
      | Some j => Some (S j)
      | None => if Ascii.eqb a c then Some 0 else None
      end
  end.

Definition first_to_last_brace (s : string) : option string :=
  match find_first "{" s, find_last "}" s with
  | Some i, Some j =>
      if Nat.ltb i j then Some (substring i (S (j - i)) s) else None
  | _, _ => None
  end.

(** ** Built-in operations on Python values *)

Definition Exn_unavailable : string :=
  "Model temporarily unavailable. Please try again later.".

(** [v[k]] for a string subscript. *)
Definition py_getitem (v : pyval) (k : string) : result pyval :=
  match v with
  | PDict d =>
      match dict_get k d with
      | Some x => Ok x
      | None => Raise (KeyError k)
      end
  | PStr _ => Raise (TypeError "string indices must be integers, not 'str'")
  | PList _ =>
      Raise (TypeError "list indices must be integers or slices, not str")
  | _ => Raise (TypeError ("'" ++ type_name v ++ "' object is not subscriptable"))
  end.

(** [v.get(k, default)]. *)
Definition py_get (v : pyval) (k : string) (default : pyval) : result pyval :=
  match v with
  | PDict d =>
      match dict_get k d with
      | Some x => Ok x
      | None => Ok default
      end
  | _ =>
      Raise (AttributeError
               ("'" ++ type_name v ++ "' object has no attribute 'get'"))
  end.

Definition is_str (k : string) (v : pyval) : bool :=
  match v with
  | PStr s => String.eqb s k
  | _ => false
  end.

(** [k in v] for a string [k]: key membership in a dict, element
    equality in a list, substring in a string. *)
Definition py_in (k : string) (v : pyval) : result bool :=
  match v with
  | PDict d => Ok (dict_mem k d)
  | PList l => Ok (existsb (is_str k) l)
  | PStr s => Ok (str_contains k s)
  | _ => Raise (TypeError
                  ("argument of type '" ++ type_name v ++ "' is not iterable"))
  end.

Fixpoint str_chars (s : string) : list pyval :=
  match s with
  | EmptyString => []
  | String c s' => PStr (String c EmptyString) :: str_chars s'
  end.

(** [for c in v]: the elements of a list, the keys of a dict, the
    characters of a string. *)
Definition py_iter (v : pyval) : result (list pyval) :=
  match v with
  | PList l => Ok l
  | PDict d => Ok (map (fun kv => PStr (fst kv)) d)
  | PStr s => Ok (str_chars s)
  | _ => Raise (TypeError ("'" ++ type_name v ++ "' object is not iterable"))
  end.

(** A list comprehension: elements are evaluated left to right and the
    first exception ends it. *)
Fixpoint map_result {A B : Type} (f : A -> result B) (l : list A)
  : result (list B) :=
  match l with
  | [] => Ok []
  | x :: l' =>
      (y <- f x ;; ys <- map_result f l' ;; Ok (y :: ys))%result
  end.

(** Numbers as the comparison operators see them: [bool] is a subclass
    of [int]. *)
Definition num_of (v : pyval) : option Z :=
  match v with
  | PInt z => Some z
  | PBool b => Some (if b then 1 else 0)%Z
  | _ => None
  end.

(** Numbers by their exact value [n * 2^e], which is how Python
    compares an integer with a float and two floats with each other. *)
Definition dyadic : Type := (Z * Z)%type.

Definition float_num (f : pyfloat) : Z :=
  if negative f then (- Z.of_N (mantissa f))%Z else Z.of_N (mantissa f).

Definition dyadic_of (v : pyval) : option dyadic :=
  match v with
  | PInt z => Some (z, 0%Z)
  | PBool b => Some (if b then 1%Z else 0%Z, 0%Z)
  | PFloat f => Some (float_num f, exponent f)
  | _ => None
  end.

(** Both numbers are brought to the smaller exponent and their
    numerators compared. *)
Definition dyadic_compare (p q : dyadic) : comparison :=
  let e := Z.min (snd p) (snd q) in
  Z.compare (fst p * 2 ^ (snd p - e)) (fst q * 2 ^ (snd q - e)).

Definition dyadic_ltb (p q : dyadic) : bool :=
  match dyadic_compare p q with Lt => true | _ => false end.

Definition dyadic_eqb (p q : dyadic) : bool :=
  match dyadic_compare p q with Eq => true | _ => false end.

Definition not_supported (op : string) (a b : pyval) : exn :=
  TypeError ("'" ++ op ++ "' not supported between instances of '"
               ++ type_name a ++ "' and '" ++ type_name b ++ "'").

(** [a == b].  Numbers compare by value, containers element by
    element (dicts as mappings), values of unrelated types are unequal. *)
Fixpoint py_eq (a b : pyval) {struct a} : bool :=
  match num_of a, num_of b with
  | Some x, Some y => Z.eqb x y
  | _, _ =>
    match dyadic_of a, dyadic_of b with
    | Some p, Some q => dyadic_eqb p q
    | _, _ =>
      match a, b with
      | PNone, PNone => true
      | PStr s, PStr t => String.eqb s t
      | PList l, PList m =>
          (fix all2 (l m : list pyval) {struct l} : bool :=
             match l, m with
             | [], [] => true
             | x :: l', y :: m' => py_eq x y && all2 l' m'
             | _, _ => false
             end) l m
      | PDict d, PDict e =>
          Nat.eqb (List.length d) (List.length e)
          && (fix sub (d : list (string * pyval)) {struct d} : bool :=
                match d with
                | [] => true
                | (k, v) :: d' =>
                    match dict_get k e with
                    | Some v' => py_eq v v' && sub d'
                    | None => false
                    end
                end) d
      | _, _ => false
      end
    end
  end.

(** [a < b] and [a > b].  Numbers and strings are ordered, lists
    lexicographically by their first unequal elements; every other pair
    of types raises [TypeError].  Integers and bools compare as
    integers; once a float takes part the exact values are compared. *)
Fixpoint py_lt (a b : pyval) {struct a} : result bool :=
  match num_of a, num_of b with
  | Some x, Some y => Ok (Z.ltb x y)
  | _, _ =>
    match dyadic_of a, dyadic_of b with
    | Some p, Some q => Ok (dyadic_ltb p q)
    | _, _ =>
      match a, b with
      | PStr s, PStr t => Ok (String.ltb s t)
      | PList l, PList m =>
          (fix lex (l m : list pyval) {struct l} : result bool :=
             match l, m with
             | [], [] => Ok false
             | [], _ :: _ => Ok true
             | _ :: _, [] => Ok false
             | x :: l', y :: m' => if py_eq x y then lex l' m' else py_lt x y
             end) l m
      | _, _ => Raise (not_supported "<" a b)
      end
    end
  end.

Fixpoint py_gt (a b : pyval) {struct a} : result bool :=
  match num_of a, num_of b with
  | Some x, Some y => Ok (Z.ltb y x)
  | _, _ =>
    match dyadic_of a, dyadic_of b with
    | Some p, Some q => Ok (dyadic_ltb q p)
    | _, _ =>
      match a, b with
      | PStr s, PStr t => Ok (String.ltb t s)
      | PList l, PList m =>
          (fix lex (l m : list pyval) {struct l} : result bool :=
             match l, m with
             | [], [] => Ok false
             | [], _ :: _ => Ok false
             | _ :: _, [] => Ok true
             | x :: l', y :: m' => if py_eq x y then lex l' m' else py_gt x y
             end) l m
      | _, _ => Raise (not_supported ">" a b)
      end
    end
  end.

(** [str(v)], which is what an f-string field without a format spec
    prints.  Floats and containers print through [repr], taken as a
    parameter. *)
Definition py_str_with (py_repr : pyval -> string) (v : pyval) : string :=
  match v with
  | PNone => "None"
  | PBool true => "True"
  | PBool false => "False"
  | PInt z => Z_to_string z
  | PStr s => s
  | _ => py_repr v
  end.

Definition dquote : ascii := "034"%char.
Definition nl : string := String "010"%char EmptyString.
Definition quoted (s : string) : string :=
  String dquote s ++ String dquote EmptyString.

(** ** A JSON decoder for running examples

    [json.loads] belongs to the Python library and the development takes
    it as a parameter.  To run the handlers on concrete replies this
    decoder covers the fragment of JSON made of objects, arrays, strings
    without escapes, integers and the three literals, with insignificant
    whitespace; on that fragment it returns what [json.loads] returns
    (a repeated key keeps its first position and its last value), and it
    rejects every text that is not JSON.  An integer literal of more
    than 4300 digits makes it raise as [int] does; texts nested beyond
    the recursion limit are outside the fragment. *)
Inductive scanned (A : Type) : Type :=
| Scanned (a : A) (rest : string)
| Malformed
| Overlong (digits : nat).

Arguments Scanned {A} a rest.
Arguments Malformed {A}.
Arguments Overlong {A} digits.

Fixpoint skip_ws (s : string) : string :=
  match s with
  | String c r =>
      if (Ascii.eqb c " " || Ascii.eqb c "009" || Ascii.eqb c "010"
          || Ascii.eqb c "013")%char
      then skip_ws r else s
  | EmptyString => s
  end.

Fixpoint scan_string (s : string) : option (string * string) :=
  match s with
  | EmptyString => None
  | String c r =>
      if Ascii.eqb c dquote then Some (EmptyString, r)
      else if Ascii.eqb c "\" then None
      else if Nat.ltb (nat_of_ascii c) 32 then None
      else match scan_string r with
           | Some (t, r') => Some (String c t, r')
           | None => None
           end
  end.

Definition digit_of (c : ascii) : option Z :=
  let n := nat_of_ascii c in
  if (Nat.leb 48 n && Nat.leb n 57)%bool then Some (Z.of_nat (n - 48)) else None.

Fixpoint scan_digits (acc : Z) (count : nat) (s : string)
  : Z * nat * string :=
  match s with
  | String c r =>
      match digit_of c with
      | Some d => scan_digits (10 * acc + d) (S count) r
      | None => (acc, count, s)
      end
  | EmptyString => (acc, count, s)
  end.

(** The integer part of a JSON number: [0] or a non-zero digit followed
    by digits.  A fraction or an exponent after it leaves the fragment;
    more digits than [int] converts raise. *)
Definition scan_nat (s : string) : scanned Z :=
  match s with
  | String c r =>
      match digit_of c with
      | Some d =>
          let '(n, count, r') :=
            if Z.eqb d 0 then (0%Z, 1, r) else scan_digits d 1 r in
          let finish :=
            if Nat.ltb int_max_str_digits count then Overlong count
            else Scanned n r' in
          match r' with
          | String c' _ =>
              if (Ascii.eqb c' "." || Ascii.eqb c' "e" || Ascii.eqb c' "E")%char
              then Malformed else finish
          | EmptyString => finish
          end
      | None => Malformed
      end
  | EmptyString => Malformed
  end.

Definition scan_literal (lit : string) (v : pyval) (s : string)
  : scanned pyval :=
  if String.prefix lit s
  then Scanned v (substring (String.length lit) (String.length s) s)
  else Malformed.

Fixpoint parse_value (fuel : nat) (s : string) {struct fuel}
  : scanned pyval :=
  match fuel with
  | 0 => Malformed
  | S fuel' =>
      match skip_ws s with
      | String c r =>
          if Ascii.eqb c "{" then
            match skip_ws r with
            | String c2 r2 =>
                if Ascii.eqb c2 "}" then Scanned (PDict []) r2
                else parse_members fuel' r []
            | EmptyString => Malformed
            end
          else if Ascii.eqb c "[" then
            match skip_ws r with
            | String c2 r2 =>
                if Ascii.eqb c2 "]" then Scanned (PList []) r2
                else parse_elements fuel' r []
            | EmptyString => Malformed
            end
          else if Ascii.eqb c dquote then
            match scan_string r with
            | Some (t, r') => Scanned (PStr t) r'
            | None => Malformed
            end
          else if Ascii.eqb c "t" then scan_literal "true" (PBool true) (String c r)
          else if Ascii.eqb c "f" then scan_literal "false" (PBool false) (String c r)
          else if Ascii.eqb c "n" then scan_literal "null" PNone (String c r)
          else if Ascii.eqb c "-" then
            match scan_nat r with
            | Scanned n r' => Scanned (PInt (- n)) r'
            | Malformed => Malformed
            | Overlong digits => Overlong digits
            end
          else
            match scan_nat (String c r) with
            | Scanned n r' => Scanned (PInt n) r'
            | Malformed => Malformed
            | Overlong digits => Overlong digits
            end
      | EmptyString => Malformed
      end
  end
with parse_elements (fuel : nat) (s : string) (acc : list pyval) {struct fuel}
  : scanned pyval :=
  match fuel with
  | 0 => Malformed
  | S fuel' =>
      match parse_value fuel' s with
      | Scanned v r =>
          match skip_ws r with
          | String c r' =>
              if Ascii.eqb c "," then parse_elements fuel' r' (acc ++ [v])
              else if Ascii.eqb c "]" then Scanned (PList (acc ++ [v])) r'
              else Malformed
          | EmptyString => Malformed
          end
      | Malformed => Malformed
      | Overlong digits => Overlong digits
      end
  end
with parse_members (fuel : nat) (s : string) (acc : dict) {struct fuel}
  : scanned pyval :=
  match fuel with
  | 0 => Malformed
  | S fuel' =>
      match skip_ws s with
      | String q r =>
          if Ascii.eqb q dquote then
            match scan_string r with
            | Some (k, r1) =>
                match skip_ws r1 with
                | String colon r2 =>
                    if Ascii.eqb colon ":" then
                      match parse_value fuel' r2 with
                      | Scanned v r3 =>
                          match skip_ws r3 with
                          | String c r4 =>
                              if Ascii.eqb c ","
                              then parse_members fuel' r4 (dict_set k v acc)
                              else if Ascii.eqb c "}"
                              then Scanned (PDict (dict_set k v acc)) r4
                              else Malformed
                          | EmptyString => Malformed
                          end
                      | Malformed => Malformed
                      | Overlong digits => Overlong digits
                      end
                    else Malformed
                | EmptyString => Malformed
                end
            | None => Malformed
            end
          else Malformed
      | EmptyString => Malformed
      end
  end.

Definition json_decode (s : string) : json_result :=
  match parse_value (S (String.length s)) s with
  | Scanned v r =>
      match skip_ws r with
      | EmptyString => Decoded v
      | String _ _ => JSONDecodeError
      end
  | Malformed => JSONDecodeError
  | Overlong digits => Crashed (IntDigits digits)
  end.

(** Example texts are written with single quotes and turned into JSON. *)
Fixpoint json_text (s : string) : string :=
  match s with
  | String c r =>
      String (if Ascii.eqb c "'" then dquote else c) (json_text r)
  | EmptyString => EmptyString
  end.

(** ** The world: provider, sleeps and the memo store *)

(** What one [client.chat.completions.create] call yields: a reply whose
    [choices[0].message.content] is a string or [None], or an
    [OpenAIError]. *)
Inductive outcome : Type :=
| Reply (content : option string)
| Fail (e : openai_error).

(** Hashable arguments as [lru_cache] keys them.  Keys are compared with
    [==] and [True == 1], so a bool and the int it equals are one key. *)
Inductive hkey : Type :=
| HNone
| HNum (z : Z)
| HFloat (n : Z) (e : Z)
| HStr (s : string).

Definition hkey_eqb (a b : hkey) : bool :=
  match a, b with
  | HNone, HNone => true
  | HNum x, HNum y => Z.eqb x y
  | HFloat n e, HFloat n' e' => Z.eqb n n' && Z.eqb e e'
  | HStr s, HStr t => String.eqb s t
  | _, _ => false
  end.

Definition cache_key : Type := (hkey * hkey * hkey)%type.

Definition key_eqb (a b : cache_key) : bool :=
  let '(a1, a2, a3) := a in
  let '(b1, b2, b3) := b in
  hkey_eqb a1 b1 && hkey_eqb a2 b2 && hkey_eqb a3 b3.

(** A float equal to an integer is the key of that integer
    ([1.0 == 1]); any other float is keyed by its value in lowest terms,
    an odd numerator over a power of two. *)
Fixpoint strip_twos (p : positive) (k : nat) : positive * nat :=
  match k, p with
  | S k', xO p' => strip_twos p' k'
  | _, _ => (p, k)
  end.

Definition hash_number (n e : Z) : hkey :=
  if Z.leb 0 e then HNum (n * 2 ^ e)
  else
    match n with
    | Z0 => HNum 0
    | Zpos p =>
        let '(p', k) := strip_twos p (Z.to_nat (- e)) in
        match k with
        | 0 => HNum (Zpos p')
        | S _ => HFloat (Zpos p') (- Z.of_nat k)
        end
    | Zneg p =>
        let '(p', k) := strip_twos p (Z.to_nat (- e)) in
        match k with
        | 0 => HNum (Zneg p')
        | S _ => HFloat (Zneg p') (- Z.of_nat k)
        end
    end.

Definition py_hash (v : pyval) : result hkey :=
  match v with
  | PNone => Ok HNone
  | PBool b => Ok (HNum (if b then 1 else 0))
  | PInt z => Ok (HNum z)
  | PFloat f => Ok (hash_number (float_num f) (exponent f))
  | PStr s => Ok (HStr s)
  | _ => Raise (TypeError ("unhashable type: '" ++ type_name v ++ "'"))
  end.

Definition make_key (a b c : pyval) : result cache_key :=
  (x <- py_hash a ;; y <- py_hash b ;; z <- py_hash c ;; Ok (x, y, z))%result.

(** The store of [lru_cache], most recently used first. *)
Definition store : Type := list (cache_key * pyval).

Fixpoint cache_lookup (k : cache_key) (c : store) : option pyval :=
  match c with
  | [] => None
  | (k', v) :: c' => if key_eqb k k' then Some v else cache_lookup k c'
  end.

Fixpoint cache_remove (k : cache_key) (c : store) : store :=
  match c with
  | [] => []
  | (k', v) :: c' =>
      if key_eqb k k' then cache_remove k c' else (k', v) :: cache_remove k c'
  end.

Definition cache_keys (c : store) : list cache_key := map fst c.

(** [calls] counts the [create] calls made so far, [sleeps] records the
    waits requested from [time.sleep], latest first. *)
Record world : Type := mkWorld {
  calls : nat;
  sleeps : list Z;
  cache : store
}.

Definition initial_world : world := mkWorld 0 [] [].

Definition M (A : Type) : Type := world -> result A * world.

Definition mret {A : Type} (a : A) : M A := fun w => (Ok a, w).

Definition mbind {A B : Type} (m : M A) (k : A -> M B) : M B :=
  fun w =>
    match m w with
    | (Ok a, w') => k a w'
    | (Raise e, w') => (Raise e, w')
    end.

Definition lift {A : Type} (r : result A) : M A := fun w => (r, w).

Declare Scope m_scope.
Delimit Scope m_scope with M.
Notation "x <- m ;; k" := (mbind m (fun x => k))
  (at level 61, m at next level, right associativity) : m_scope.

Definition sleep (seconds : Z) : M unit :=
  fun w => (Ok tt, mkWorld (calls w) (seconds :: sleeps w) (cache w)).

(** ** tenacity *)

(** [wait_exponential(multiplier, min, max)] after attempt number
    [attempt] (counted from 1). *)
Definition wait_exponential (multiplier mn mx : Z) (attempt : nat) : Z :=
  Z.max (Z.max 0 mn) (Z.min (multiplier * 2 ^ (Z.of_nat attempt - 1)) mx).

(** A record of the data [app.py] returns from a handler: the status and
    the object given to [jsonify]. *)
Record response : Type := mkResponse {
  status : Z;
  body : pyval
}.

(** One entry of [results], the dict literal built by [get_diagnoses]. *)
Record Condition : Type := mkCondition {
  name : pyval;
  likelihood : pyval;
  explanation : pyval
}.

(** The three lists [diagnose] fills before answering, and the parsed
    reply ([None] while unassigned). *)
Record models : Type := mkModels {
  openrouter_response : pyval;
  results : list Condition;
  queried_models : list string;
  skipped_models : list string
}.

Definition str_list (l : list string) : pyval := PList (map PStr l).

Definition unavailable_phrase : string := "Model temporarily unavailable".

Definition wait_policy : nat -> Z := wait_exponential 1 2 5.
Definition max_attempts : nat := 2.
Definition maxsize : nat := 128.

(** ** Data for running the handlers

    Instances of what the program takes from its environment, used to
    evaluate the model on concrete requests. *)

Fixpoint str_repeat (c : ascii) (n : nat) : string :=
  match n with
  | 0 => EmptyString
  | S n' => String c (str_repeat c n')
  end.

(** [repr] of a float by its exact decimal expansion, which is what
    Python prints for a double whose expansion has at most 15
    significant digits and whose magnitude lies between 1e-4 and 1e16
    (70.5, 12.25, 0.5). *)
Definition float_repr (f : pyfloat) : string :=
  let sign := if negative f then "-" else EmptyString in
  let m := Z.of_N (mantissa f) in
  if Z.leb 0 (exponent f)
  then (sign ++ Z_to_string (m * 2 ^ exponent f) ++ ".0")%string
  else
    match m with
    | Zpos p =>
        let '(p', k) := strip_twos p (Z.to_nat (- exponent f)) in
        match k with
        | 0 => (sign ++ Z_to_string (Zpos p') ++ ".0")%string
        | S _ =>
            let digits := Z_to_string (Zpos p' * 5 ^ Z.of_nat k) in
            let padded :=
              (str_repeat "0" (S k - String.length digits) ++ digits)%string in
            let cut := String.length padded - k in
            (sign ++ substring 0 cut padded ++ "." ++ substring cut k padded)%string
        end
    | _ => (sign ++ "0.0")%string
    end.

(** [repr] on values whose strings need no escaping. *)
Fixpoint repr_plain (v : pyval) : string :=
  match v with
  | PNone => "None"
  | PBool true => "True"
  | PBool false => "False"
  | PInt z => Z_to_string z
  | PFloat f => float_repr f
  | PStr s => "'" ++ s ++ "'"
  | PList l => "[" ++ str_join ", " (map repr_plain l) ++ "]"
  | PDict d =>
      "{" ++ str_join ", "
               (map (fun kv : string * pyval =>
                       let '(k, x) := kv in
                       ("'" ++ k ++ "': " ++ repr_plain x)%string) d)
          ++ "}"
  end%string.

Definition ascii_upper (c : ascii) : ascii :=
  let n := nat_of_ascii c in
  if (Nat.leb 97 n && Nat.leb n 122)%bool then ascii_of_nat (n - 32) else c.

Definition ascii_lower (c : ascii) : ascii :=
  let n := nat_of_ascii c in
  if (Nat.leb 65 n && Nat.leb n 90)%bool then ascii_of_nat (n + 32) else c.

Fixpoint str_lower (s : string) : string :=
  match s with
  | String c r => String (ascii_lower c) (str_lower r)
  | EmptyString => EmptyString
  end.

(** [str.capitalize] on ASCII text. *)
Definition capitalize_ascii (s : string) : string :=
  match s with
  | String c r => String (ascii_upper c) (str_lower r)
  | EmptyString => EmptyString
  end.

Definition example_id (n : nat) : Hexadecimal.uint :=
  D7 (Df (D3 (Da (D5 (Dc (D0 Nil)))))).

Definition always_reply (text : string) (n : nat) (prompt : string) : outcome :=
  Reply (Some text).

Definition always_fail (e : openai_error) (n : nat) (prompt : string) : outcome :=
  Fail e.

Definition overloaded : openai_error :=
  mkOpenAIError InternalServerError (Some 503%Z) "Error code: 503".

Definition rate_limited : openai_error :=
  mkOpenAIError RateLimitError (Some 429%Z) "Error code: 429".

Definition otitis_reply : string :=
  json_text "{'conditions':[{'name':'Otitis','likelihood':70,'explanation':'ear infection'}], 'urgent':false, 'consult':'monitor', 'homecare':'clean ears'}".

Definition dog_profile : dict :=
  [("species", PStr "dog"); ("symptoms", PStr "scratching ears")].

Definition api_key : option string := Some "sk-or-test".

(** A reply that is no JSON but holds braces, one that holds none, and
    a JSON object wrapped in a code fence. *)
Definition prose_reply : string := "Sorry, {no json} here".
Definition plain_reply : string := "not json".
Definition fenced_reply : string :=
  ("```json" ++ nl ++ json_text "{'urgent': true}" ++ nl ++ "```")%string.

(** A reply whose only condition lacks [likelihood]. *)
Definition incomplete_reply : string :=
  json_text "{'conditions':[{'name':'Otitis'}], 'urgent':false, 'consult':'monitor', 'homecare':'clean ears'}".

Definition incomplete_conditions : dict :=
  [("conditions", PList [PDict [("name", PStr "Otitis")]]);
   ("urgent", PBool false); ("consult", PStr "monitor");
   ("homecare", PStr "clean ears")].

Definition details_reply : string :=
  json_text "{'Overview':'Inflammation of the ear canal'}".

Definition otitis_request : dict := [("diagnosis", PStr "Otitis")].
Definition no_diagnosis_request : dict := [("species", PStr "cat")].

Definition otitis_key : cache_key :=
  (HStr "Otitis", HStr "Unknown", HStr "Mixed").

(** A JSON integer of 4301 digits, and a reply that wraps an object
    holding it in prose. *)
Definition long_integer : string := str_repeat "1" 4301.

Definition long_integer_reply : string :=
  "Here you are: " ++ json_text "{'likelihood': " ++ long_integer ++ "}".

Definition long_integer_error : exn :=
  ValueError
    ("Exceeds the limit (4300 digits) for integer string conversion: "
       ++ "value has 4301 digits; use sys.set_int_max_str_digits() "
       ++ "to increase the limit").

(** 70.5 and 12.25 as floats. *)
Definition float_70_5 : pyfloat := mkFloat false 141 (-1).
Definition float_12_25 : pyfloat := mkFloat false 49 (-2).

Definition fractional_conditions : list Condition :=
  [mkCondition (PStr "Mites") (PFloat float_12_25) (PStr EmptyString);
   mkCondition (PStr "Otitis") (PFloat float_70_5) (PStr EmptyString)].

Definition mixed_number_conditions : list Condition :=
  [mkCondition (PStr "Mites") (PFloat float_12_25) (PStr EmptyString);
   mkCondition (PStr "Polyp") (PInt 12) (PStr EmptyString);
   mkCondition (PStr "Otitis") (PFloat float_70_5) (PStr EmptyString);
   mkCondition (PStr "Allergy") (PInt 70) (PStr EmptyString)].

Definition two_conditions : list Condition :=
  [mkCondition (PStr "Otitis") (PInt 40) (PStr EmptyString);
   mkCondition (PStr "Mites") (PInt 55) (PStr EmptyString)].

Definition four_conditions : list Condition :=
  [mkCondition (PStr "Otitis") (PInt 10) (PStr EmptyString);
   mkCondition (PStr "Mites") (PInt 30) (PStr EmptyString);
   mkCondition (PStr "Allergy") (PInt 30) (PStr EmptyString);
   mkCondition (PStr "Polyp") (PInt 20) (PStr EmptyString)].

(** ** Ranking and recency, as the claims word them *)

(** The likelihood of a condition as a number. *)
Definition likelihood_Z (c : Condition) : Z :=
  match num_of (likelihood c) with
  | Some z => z
  | None => 0
  end.

Definition numeric (c : Condition) : bool :=
  match num_of (likelihood c) with
  | Some _ => true
  | None => false
  end.

(** The likelihood of a condition as a number of any kind: an integer,
    a bool or a float. *)
Definition is_number (c : Condition) : bool :=
  match dyadic_of (likelihood c) with
  | Some _ => true
  | None => false
  end.

Definition rank (c : Condition) : dyadic :=
  match dyadic_of (likelihood c) with
  | Some p => p
  | None => (0%Z, 0%Z)
  end.

Definition dyadic_le (p q : dyadic) : Prop := dyadic_compare p q <> Gt.

(** [a] is at least as likely as [b]. *)
Definition at_least_as_likely (a b : Condition) : Prop :=
  dyadic_le (rank b) (rank a).


Definition other_key (k k' : cache_key) : bool := negb (key_eqb k k').

(** The distinct keys of a history of uses (latest first), each at its
    most recent use. *)
Fixpoint recent (hist : list cache_key) : list cache_key :=
  match hist with
  | [] => []
  | k :: hist' => k :: filter (other_key k) (recent hist')
  end.

(** ** The program *)

Section App.

Set Default Proof Using "Type".

(** What [app.py] takes from its environment: the JSON decoder
    [json.loads]; [repr] of containers; [str.capitalize]; the provider, as the outcome of the [n]-th [create] call on a
    prompt; the credential read by [os.getenv]; and the address of the
    attempt a [RetryError] wraps. *)
Variable json_loads : string -> json_result.
Variable py_repr : pyval -> string.
Variable str_capitalize : string -> string.
Variable provider : nat -> string -> outcome.
Variable OPENROUTER_API_KEY : option string.
Variable future_id : nat -> Hexadecimal.uint.

Definition py_str : pyval -> string := py_str_with py_repr.

(** [if OPENROUTER_API_KEY:] *)
Definition key_configured : bool :=
  match OPENROUTER_API_KEY with
  | Some k => negb (String.eqb k EmptyString)
  | None => false
  end.

(** [client.chat.completions.create(...)], reduced to the content of
    the reply. *)
Definition create (prompt : string) : M (option string) :=
  fun w =>
    let w' := mkWorld (S (calls w)) (sleeps w) (cache w) in
    match provider (calls w) prompt with
    | Reply content => (Ok content, w')
    | Fail e => (Raise (OpenAIError e), w')
    end.

(** [@retry(wait=..., stop=stop_after_attempt(n))]: every exception of
    an attempt is retried after the wait, until attempt [n] has failed;
    then the last exception is wrapped in a [RetryError].  [remaining]
    is the number of attempts left after the current one. *)
Fixpoint retry_loop {A : Type} (wait : nat -> Z) (remaining attempt : nat)
    (f : M A) (w : world) : result A * world :=
  match f w with
  | (Ok a, w') => (Ok a, w')
  | (Raise e, w') =>
      match remaining with
      | 0 => (Raise (RetryError (future_id (calls w')) e), w')
      | S remaining' =>
          match sleep (wait attempt) w' with
          | (_, w'') => retry_loop wait remaining' (S attempt) f w''
          end
      end
  end.

Definition retry {A : Type} (wait : nat -> Z) (stop_after_attempt : nat)
    (f : M A) : M A :=
  retry_loop wait (stop_after_attempt - 1) 1 f.

(** The [except OpenAIError as e] clause shared by both clients. *)
Definition except_OpenAIError (e : exn) : exn :=
  match e with
  | OpenAIError oe =>
      match status_code oe with
      | Some code =>
          if Z.eqb code 503 then PyException Exn_unavailable else e
      | None => e
      end
  | _ => e
  end.

Definition try_except {A : Type} (m : M A) (handler : exn -> exn) : M A :=
  fun w =>
    match m w with
    | (Ok a, w') => (Ok a, w')
    | (Raise e, w') => (Raise (handler e), w')
    end.

(** The text [create_prompt] builds from the items of a dict. *)
Definition prompt_text (d : dict) : string :=
  ("You are an expert veterinary diagnostic AI. Provide a JSON response with ranked possible diagnoses for this pet, their likelihood (%), explanation, urgency (true/false), veterinary consultation advice, and home care suggestions based on this data:"
     ++ nl
     ++ String.concat EmptyString
          (map (fun kv => str_capitalize (fst kv) ++ ": "
                            ++ py_str (snd kv) ++ nl) d)
     ++ nl
     ++ "Return a valid JSON object with fields: conditions (list of {name, likelihood, explanation}), urgent (bool), consult (str), homecare (str). Focus on common conditions for the specified species and breed. Ensure the response is strictly JSON, with no additional text or code blocks."
     ++ nl)%string.

(** [user_data.items()] exists only on a dict. *)
Definition create_prompt (user_data : pyval) : result string :=
  match user_data with
  | PDict d => Ok (prompt_text d)
  | _ =>
      Raise (AttributeError
               ("'" ++ type_name user_data ++ "' object has no attribute 'items'"))
  end.

Definition query_openrouter_attempt (prompt : string) : M (option string) :=
  try_except (create prompt) except_OpenAIError.

Definition query_openrouter (prompt : string) : M (option string) :=
  retry wait_policy max_attempts (query_openrouter_attempt prompt).

(** [process_response], on the content of the reply.  [None] is both
    the failure value and what the text [null] decodes to.  Only
    [JSONDecodeError] is caught, in both stages. *)
Definition process_response (content : option string) : result pyval :=
  match content with
  | None =>
      Raise (TypeError
               "the JSON object must be str, bytes or bytearray, not NoneType")
  | Some text =>
      match json_loads text with
      | Decoded v => Ok v
      | Crashed c => Raise (crash_exn c)
      | JSONDecodeError =>
          match re_search brace_re text with
          | Some json_match =>
              match json_loads json_match with
              | Decoded v => Ok v
              | Crashed c => Raise (crash_exn c)
              | JSONDecodeError => Ok PNone
              end
          | None => Ok PNone
          end
      end
  end.

Definition extract_condition (c : pyval) : result Condition :=
  (n <- py_getitem c "name" ;;
   l <- py_getitem c "likelihood" ;;
   e <- py_get c "explanation" (PStr EmptyString) ;;
   Ok (mkCondition n l e))%result.

Definition get_diagnoses (response : pyval) : result (list Condition) :=
  if truthy response then
    (has <- py_in "conditions" response ;;
     if has : bool then
       conditions <- py_getitem response "conditions" ;;
       cs <- py_iter conditions ;;
       map_result extract_condition cs
     else Ok [])%result
  else Ok [].

(** [max(results, key=lambda x: x["likelihood"])] on a non-empty list:
    a later entry replaces the current one only when its key is
    greater. *)
Fixpoint max_from (best : Condition) (l : list Condition) : result Condition :=
  match l with
  | [] => Ok best
  | x :: l' =>
      (gt <- py_gt (likelihood x) (likelihood best) ;;
       max_from (if gt : bool then x else best) l')%result
  end.

(** [sorted(results, key=..., reverse=True)]: a stable sort by [<] on
    the keys, greatest first, equal keys in their input order. *)
Fixpoint insert_desc (x : Condition) (l : list Condition)
  : result (list Condition) :=
  match l with
  | [] => Ok [x]
  | y :: l' =>
      (lt <- py_lt (likelihood x) (likelihood y) ;;
       if lt : bool then (r <- insert_desc x l' ;; Ok (y :: r)) else Ok (x :: l))%result
  end.

Fixpoint sorted_desc (l : list Condition) : result (list Condition) :=
  match l with
  | [] => Ok []
  | x :: l' => (s <- sorted_desc l' ;; insert_desc x s)%result
  end.

Definition format_diagnosis (d : Condition) : string :=
  (py_str (name d) ++ " (" ++ py_str (likelihood d) ++ "%)")%string.

Definition get_highest_ranked_diagnosis (results : list Condition)
  : result string :=
  match results with
  | [] => Ok "No diagnosis available"
  | first :: rest =>
      (top_diagnosis <- max_from first rest ;;
       if Nat.leb 3 (List.length results) then
         s <- sorted_desc results ;;
         let top_three := firstn 3 s in
         let diagnoses_str := str_join ", " (map format_diagnosis top_three) in
         Ok ("Top 3 possible diagnoses: " ++ diagnoses_str)%string
       else Ok (format_diagnosis top_diagnosis))%result
  end.

(** Lines 108-121 of [diagnose]: query the one provider and fill the
    three lists. *)
Definition diagnose_collect (prompt : string) : M models :=
  if key_configured then
    (content <- query_openrouter prompt ;;
     reply <- lift (process_response content) ;;
     if truthy reply then
       openrouter_diagnoses <- lift (get_diagnoses reply) ;;
       mret (mkModels reply ([] ++ openrouter_diagnoses) ([] ++ ["OpenRouter"]) [])
     else
       mret (mkModels reply [] [] ([] ++ ["OpenRouter (API error)"])))%M
  else
    mret (mkModels PNone [] [] ([] ++ ["OpenRouter (no API key)"])).

(** Lines 123-140: the answer computed from the lists. *)
Definition diagnose_respond (m : models) : result response :=
  match queried_models m with
  | [] =>
      Ok (mkResponse 503
            (PDict [("error", PStr "No AI models were available to process your request. Please check API configurations.");
                    ("skipped_models", str_list (skipped_models m))]))
  | _ :: _ =>
      match results m with
      | [] =>
          Ok (mkResponse 500
                (PDict [("error", PStr "Failed to parse AI response. Please try again.")]))
      | _ :: _ =>
          (final_diagnosis <- get_highest_ranked_diagnosis (results m) ;;
           conditions <- py_getitem (openrouter_response m) "conditions" ;;
           urgent <- py_getitem (openrouter_response m) "urgent" ;;
           consult <- py_getitem (openrouter_response m) "consult" ;;
           homecare <- py_getitem (openrouter_response m) "homecare" ;;
           Ok (mkResponse 200
                 (PDict [("diagnosis", PStr final_diagnosis);
                         ("conditions", conditions);
                         ("urgent", urgent);
                         ("consult", consult);
                         ("homecare", homecare);
                         ("disclaimer", PStr "This is not veterinary advice. Please consult a licensed veterinarian for accurate diagnosis and treatment.");
                         ("queried_models", str_list (queried_models m));
                         ("skipped_models", str_list (skipped_models m))])))%result
      end
  end.

(** The [except Exception as e] clause of both handlers. *)
Definition handle_exception (e : exn) : response :=
  if str_contains unavailable_phrase (exn_str e) then
    mkResponse 503
      (PDict [("error", PStr "The AI model is currently unavailable due to high demand. Please try again later.")])
  else
    mkResponse 500
      (PDict [("error", PStr "An unexpected error occurred. Please try again.")]).

Definition run_handler (m : M response) (w : world) : response * world :=
  match m w with
  | (Ok r, w') => (r, w')
  | (Raise e, w') => (handle_exception e, w')
  end.

(** [POST /diagnose] on the decoded request body. *)
Definition diagnose (user_data : pyval) : world -> response * world :=
  run_handler
    (prompt <- lift (create_prompt user_data) ;;
     m <- diagnose_collect prompt ;;
     lift (diagnose_respond m))%M.

(** [@lru_cache(maxsize)] around a function of three positional
    arguments: a hit moves the key to the front and calls nothing; a
    miss calls the function and stores what it returns, dropping the
    least recently used entry when full; an exception stores nothing. *)
Definition lru_cache (size : nat) (f : pyval -> pyval -> pyval -> M pyval)
    (a b c : pyval) : M pyval :=
  fun w =>
    match make_key a b c with
    | Raise e => (Raise e, w)
    | Ok k =>
        match cache_lookup k (cache w) with
        | Some v =>
            (Ok v,
             mkWorld (calls w) (sleeps w) ((k, v) :: cache_remove k (cache w)))
        | None =>
            match f a b c w with
            | (Ok v, w') =>
                (Ok v,
                 mkWorld (calls w') (sleeps w')
                   (firstn size ((k, v) :: cache w')))
            | (Raise e, w') => (Raise e, w')
            end
        end
    end.

Definition details_prompt (diagnosis species breed : pyval) : string :=
  ("Provide a JSON object with detailed veterinary information about "
     ++ quoted (py_str diagnosis) ++ " in " ++ py_str species
     ++ " (breed: " ++ py_str breed
     ++ ") using general veterinary knowledge. Include these fields:" ++ nl
     ++ "    - Overview (str)" ++ nl
     ++ "    - Symptoms (list or str)" ++ nl
     ++ "    - When to see a veterinarian (str)" ++ nl
     ++ "    - Causes (str)" ++ nl
     ++ "    - Risk factors (list or str)" ++ nl
     ++ "    - Complications (str)" ++ nl
     ++ "    - Prevention (str)" ++ nl
     ++ "    - Treatment options (str)" ++ nl
     ++ "    Focus on species-specific and breed-specific considerations where relevant." ++ nl
     ++ "    Return a valid JSON object, with no additional text or code blocks.")%string.

(** The body of [query_veterinary_details]: the call and the coercion
    of lines 167-180, which repeat [process_response], inside one
    [try]. *)
Definition query_veterinary_details_attempt (diagnosis species breed : pyval)
  : M pyval :=
  try_except
    (content <- create (details_prompt diagnosis species breed) ;;
     lift (process_response content))%M
    except_OpenAIError.

Definition query_veterinary_details_retrying (diagnosis species breed : pyval)
  : M pyval :=
  retry wait_policy max_attempts
    (query_veterinary_details_attempt diagnosis species breed).

Definition query_veterinary_details : pyval -> pyval -> pyval -> M pyval :=
  lru_cache maxsize query_veterinary_details_retrying.

(** [POST /veterinary-details] on the decoded request body. *)
Definition veterinary_details (data : pyval) : world -> response * world :=
  run_handler
    (diagnosis <- lift (py_get data "diagnosis" PNone) ;;
     species <- lift (py_get data "species" (PStr "Unknown")) ;;
     breed <- lift (py_get data "breed" (PStr "Mixed")) ;;
     if negb (truthy diagnosis) then
       mret (mkResponse 400 (PDict [("error", PStr "Diagnosis is required")]))
     else
       acc <- (if key_configured then
                 details <- query_veterinary_details diagnosis species breed ;;
                 mret (details, [] ++ ["OpenRouter"], @nil string)
               else
                 mret (PNone, @nil string, [] ++ ["OpenRouter (no API key)"])) ;;
       let '(details, queried, skipped) := acc in
       match queried with
       | [] =>
           mret (mkResponse 503
                   (PDict [("error", PStr "No AI models available");
                           ("skipped_models", str_list skipped)]))
       | _ :: _ =>
           if negb (truthy details) then
             mret (mkResponse 500
                     (PDict [("error", PStr "Failed to parse AI response for veterinary details. Please try again.");
                             ("skipped_models", str_list skipped)]))
           else
             mret (mkResponse 200
                     (PDict [("diagnosis", diagnosis);
                             ("species", species);
                             ("breed", breed);
                             ("veterinary_details",
                              if truthy details then details
                              else PStr "No details available");
                             ("queried_models", str_list queried);
                             ("skipped_models", str_list skipped)]))
       end)%M.

(** A run of detail lookups: the keys of those that returned, latest
    first, and the world they leave. *)
Definition lookup_step (st : list cache_key * world)
    (req : pyval * pyval * pyval) : list cache_key * world :=
  let '(hist, w) := st in
  let '(a, b, c) := req in
  match query_veterinary_details a b c w, make_key a b c with
  | (Ok _, w'), Ok k => (k :: hist, w')
  | (_, w'), _ => (hist, w')
  end.

Definition lookups (reqs : list (pyval * pyval * pyval)) (w : world)
  : list cache_key * world :=
  fold_left lookup_step reqs ([], w).

(** An attempt that makes exactly one provider call and touches
    nothing else of the world. *)
Definition one_call {A : Type} (f : M A) : Prop :=
  forall w,
    calls (snd (f w)) = S (calls w)
    /\ sleeps (snd (f w)) = sleeps w
    /\ cache (snd (f w)) = cache w.

Definition in_backoff_range (seconds : Z) : Prop := (2 <= seconds <= 5)%Z.

(** The store holds the [maxsize] most recently used distinct keys of
    a history, latest first. *)
Definition holds_most_recent (hist : list cache_key) (w : world) : Prop :=
  cache_keys (cache w) = firstn maxsize (recent hist).

(** [d.get(k, default)] on a dict. *)
Definition field (k : string) (default : pyval) (d : dict) : pyval :=
  match dict_get k d with
  | Some x => x
  | None => default
  end.

(** An entry of the conditions list that carries both required keys. *)
Definition has_name_and_likelihood (c : pyval) : bool :=
  match c with
  | PDict e => dict_mem "name" e && dict_mem "likelihood" e
  | _ => false
  end.

Definition unexpected_error : response :=
  mkResponse 500
    (PDict [("error", PStr "An unexpected error occurred. Please try again.")]).

Definition details_parse_failure : response :=
  mkResponse 500
    (PDict [("error", PStr "Failed to parse AI response for veterinary details. Please try again.");
            ("skipped_models", str_list [])]).

Definition diagnosis_required : response :=
  mkResponse 400 (PDict [("error", PStr "Diagnosis is required")]).

Definition no_models_available (skipped : list string) : response :=
  mkResponse 503
    (PDict [("error", PStr "No AI models were available to process your request. Please check API configurations.");
            ("skipped_models", str_list skipped)]).

(** The answers the handlers can give besides the ones above. *)
Definition high_demand : response :=
  mkResponse 503
    (PDict [("error", PStr "The AI model is currently unavailable due to high demand. Please try again later.")]).

Definition parse_failure : response :=
  mkResponse 500
    (PDict [("error", PStr "Failed to parse AI response. Please try again.")]).

Definition no_models_for_details (skipped : list string) : response :=
  mkResponse 503
    (PDict [("error", PStr "No AI models available");
            ("skipped_models", str_list skipped)]).

(** The entry [get_diagnoses] builds from an object of the conditions
    list. *)
Definition condition_of (c : pyval) : Condition :=
  match c with
  | PDict e =>
      mkCondition (field "name" PNone e) (field "likelihood" PNone e)
        (field "explanation" (PStr EmptyString) e)
  | _ => mkCondition PNone PNone PNone
  end.

(** [GET /health]. *)
Definition health : response :=
  let missing_keys :=
    if negb key_configured then [] ++ ["OPENROUTER_API_KEY"] else [] in
  let available_models :=
    if negb key_configured then [] else [] ++ ["OPENROUTER_API_KEY"] in
  match missing_keys with
  | _ :: _ =>
      mkResponse 503
        (PDict [("status", PStr "error");
                ("message", PStr "Service cannot function - no API key configured");
                ("missing_keys", str_list missing_keys)])
  | [] =>
      mkResponse 200
        (PDict [("status", PStr "healthy");
                ("message", PStr "Service is up and running with OpenRouter API key configured");
                ("available_models", str_list available_models)])
  end.

(** An exception the handlers answer with the generic 500. *)
Definition harmless (e : exn) : Prop :=
  str_contains unavailable_phrase (exn_str e) = false.

(** Induction on values that reaches into lists and dicts. *)
Fixpoint pyval_nested_ind (P : pyval -> Prop)
    (HNone_ : P PNone) (HBool : forall b, P (PBool b))
    (HInt : forall z, P (PInt z)) (HFloat_ : forall f, P (PFloat f))
    (HStr_ : forall s, P (PStr s))
    (HList : forall l, Forall P l -> P (PList l))
    (HDict : forall d, Forall (fun kv => P (snd kv)) d -> P (PDict d))
    (v : pyval) {struct v} : P v :=
  match v with
  | PNone => HNone_
  | PBool b => HBool b
  | PInt z => HInt z
  | PFloat f => HFloat_ f
  | PStr s => HStr_ s
  | PList l =>
      HList l
        ((fix go (l : list pyval) : Forall P l :=
            match l with
            | [] => Forall_nil P
            | x :: l' =>
                Forall_cons x
                  (pyval_nested_ind P HNone_ HBool HInt HFloat_ HStr_ HList HDict x)
                  (go l')
            end) l)
  | PDict d =>
      HDict d
        ((fix go (d : list (string * pyval))
            : Forall (fun kv => P (snd kv)) d :=
            match d with
            | [] => Forall_nil _
            | kv :: d' =>
                Forall_cons kv
                  (pyval_nested_ind P HNone_ HBool HInt HFloat_ HStr_ HList HDict
                     (snd kv))
                  (go d')
            end) d)
  end.

(** The [try] blocks of the two handlers, named for the proofs below;
    [diagnose] and [veterinary_details] are [run_handler] of them. *)
Definition diagnose_try (user_data : pyval) : M response :=
  (prompt <- lift (create_prompt user_data) ;;
   m <- diagnose_collect prompt ;;
   lift (diagnose_respond m))%M.

Definition details_answer (diagnosis species breed details : pyval)
    (queried skipped : list string) : response :=
  match queried with
  | [] => no_models_for_details skipped
  | _ :: _ =>
      if negb (truthy details) then
        mkResponse 500
          (PDict [("error", PStr "Failed to parse AI response for veterinary details. Please try again.");
                  ("skipped_models", str_list skipped)])
      else
        mkResponse 200
          (PDict [("diagnosis", diagnosis);
                  ("species", species);
                  ("breed", breed);
                  ("veterinary_details",
                   if truthy details then details
                   else PStr "No details available");
                  ("queried_models", str_list queried);
                  ("skipped_models", str_list skipped)])
  end.

(** The body of a 200 answer of [/diagnose]. *)
Definition diagnosis_body (final_diagnosis : string)
    (conditions urgent consult homecare : pyval) : pyval :=
  PDict [("diagnosis", PStr final_diagnosis);
         ("conditions", conditions);
         ("urgent", urgent);
         ("consult", consult);
         ("homecare", homecare);
         ("disclaimer", PStr "This is not veterinary advice. Please consult a licensed veterinarian for accurate diagnosis and treatment.");
         ("queried_models", str_list ["OpenRouter"]);
         ("skipped_models", str_list [])].

(** The body of a 200 answer of [/veterinary-details]. *)
Definition details_body (diagnosis species breed details : pyval) : pyval :=
  PDict [("diagnosis", diagnosis);
         ("species", species);
         ("breed", breed);
         ("veterinary_details", details);
         ("queried_models", str_list ["OpenRouter"]);
         ("skipped_models", str_list [])].

(** More data for running the handlers. *)
Definition fail_then_reply (e : openai_error) (text : string) (n : nat)
    (prompt : string) : outcome :=
  match n with
  | 0 => Fail e
  | S _ => Reply (Some text)
  end.

Definition no_content_then_reply (text : string) (n : nat) (prompt : string)
  : outcome :=
  match n with
  | 0 => Reply None
  | S _ => Reply (Some text)
  end.

Definition otitis_condition : dict :=
  [("name", PStr "Otitis"); ("likelihood", PInt 70);
   ("explanation", PStr "ear infection")].

Definition otitis_object : dict :=
  [("conditions", PList [PDict otitis_condition]);
   ("urgent", PBool false); ("consult", PStr "monitor");
   ("homecare", PStr "clean ears")].

Definition empty_conditions_reply : string :=
  json_text "{'conditions':[], 'urgent':false}".

Definition vague_reply : string :=
  json_text "{'conditions':[{'name':'Otitis','likelihood':'high'}], 'urgent':false, 'consult':'monitor', 'homecare':'clean ears'}".

Definition vague_condition : dict :=
  [("name", PStr "Otitis"); ("likelihood", PStr "high")].

Definition vague_object : dict :=
  [("conditions", PList [PDict vague_condition]);
   ("urgent", PBool false); ("consult", PStr "monitor");
   ("homecare", PStr "clean ears")].

Definition no_urgent_reply : string :=
  json_text "{'conditions':[{'name':'Otitis','likelihood':70}], 'consult':'monitor', 'homecare':'clean ears'}".

Definition no_urgent_object : dict :=
  [("conditions",
    PList [PDict [("name", PStr "Otitis"); ("likelihood", PInt 70)]]);
   ("consult", PStr "monitor"); ("homecare", PStr "clean ears")].

Definition mixed_reply : string :=
  json_text "{'conditions':[{'name':'Otitis','likelihood':70},{'name':'Mites','likelihood':'low'}], 'urgent':false, 'consult':'monitor', 'homecare':'clean ears'}".

Definition mixed_first : dict :=
  [("name", PStr "Otitis"); ("likelihood", PInt 70)].
Definition mixed_second : dict :=
  [("name", PStr "Mites"); ("likelihood", PStr "low")].

Definition mixed_object : dict :=
  [("conditions", PList [PDict mixed_first; PDict mixed_second]);
   ("urgent", PBool false); ("consult", PStr "monitor");
   ("homecare", PStr "clean ears")].

Definition empty_diagnosis_request : dict :=
  [("diagnosis", PStr EmptyString); ("species", PStr "cat")].

Definition list_species_request : dict :=
  [("diagnosis", PStr "Otitis"); ("species", PList [PStr "dog"])].

Definition details_object : dict :=
  [("Overview", PStr "Inflammation of the ear canal")].

(** * Properties *)

(** ** The fallback pattern finds the first-to-last brace substring *)

Lemma match_here_tail (t : string) :
  match_here tail_re t =
    match find_last "}" t with
    | Some j => Some (substring 0 (S j) t)
    | None => None
    end.
Proof.
  induction t as [| c t IH].
  - reflexivity.
  - change (match_here tail_re (String c t))
      with (match match_here tail_re t with
            | Some m => Some (String c m)
            | None => match_here [One (Ascii.eqb "}")] (String c t)
            end).
    rewrite IH. cbn [find_last].
    destruct (find_last "}" t) as [j |].
    + reflexivity.
    + change (match_here [One (Ascii.eqb "}")] (String c t))
        with (if Ascii.eqb "}" c
              then option_map (String c) (Some EmptyString) else None).
      rewrite (Ascii.eqb_sym c "}").
      destruct (Ascii.eqb "}" c); [| reflexivity].
      cbn [option_map substring]. destruct t; reflexivity.
Qed.

Lemma match_here_brace_cons (c : ascii) (t : string) :
  match_here brace_re (String c t) =
    if Ascii.eqb "{" c then option_map (String c) (match_here tail_re t)
    else None.
Proof. reflexivity. Qed.

Lemma match_here_brace_empty : match_here brace_re EmptyString = None.
Proof. reflexivity. Qed.

Lemma re_search_no_closing (s : string) :
  find_last "}" s = None -> re_search brace_re s = None.
Proof.
  induction s as [| c s IH]; intros H.
  - reflexivity.
  - cbn [find_last] in H.
    destruct (find_last "}" s) as [j |] eqn:E; [discriminate |].
    cbn [re_search]. rewrite match_here_brace_cons, match_here_tail, E.
    destruct (Ascii.eqb "{" c); cbn; now apply IH.
Qed.

Lemma first_to_last_brace_skip (c : ascii) (s : string) :
  Ascii.eqb c "{" = false ->
  first_to_last_brace (String c s) = first_to_last_brace s.
Proof.
  intros Hc. unfold first_to_last_brace. cbn [find_first find_last].
  rewrite Hc.
  destruct (find_first "{" s) as [i |]; cbn [option_map]; [| reflexivity].
  destruct (find_last "}" s) as [j |].
  - reflexivity.
  - destruct (Ascii.eqb c "}"); reflexivity.
Qed.

Lemma re_search_brace (s : string) :
  re_search brace_re s = first_to_last_brace s.
Proof.
  induction s as [| c s IH].
  - reflexivity.
  - cbn [re_search]. rewrite match_here_brace_cons, match_here_tail.
    destruct (Ascii.eqb "{" c) eqn:Hc.
    + apply Ascii.eqb_eq in Hc. subst c.
      unfold first_to_last_brace. cbn [find_first find_last].
      destruct (find_last "}" s) as [j |] eqn:E.
      * cbn. reflexivity.
      * cbn. now apply re_search_no_closing.
    + rewrite IH. symmetry. apply first_to_last_brace_skip.
      now rewrite Ascii.eqb_sym.
Qed.

(** C4, as the code has it.  On every text the coercer returns the
    strict decoding when [json.loads] returns one.  When [json.loads]
    raises [JSONDecodeError] it decodes exactly the substring from the
    first opening brace through the last closing brace, when there is
    one, and returns the failure value [None] when there is none or when
    that decoding raises [JSONDecodeError] too.  Whatever else
    [json.loads] raises, in either stage, is not caught and leaves the
    coercer as an exception. *)
Theorem process_response_two_stage (text : string) :
  process_response (Some text) =
    match json_loads text with
    | Decoded v => Ok v
    | Crashed c => Raise (crash_exn c)
    | JSONDecodeError =>
        match first_to_last_brace text with
        | Some sub =>
            match json_loads sub with
            | Decoded v => Ok v
            | Crashed c => Raise (crash_exn c)
            | JSONDecodeError => Ok PNone
            end
        | None => Ok PNone
        end
    end.
Proof.
  unfold process_response. rewrite re_search_brace.
  destruct (json_loads text) as [v | | c]; reflexivity.
Qed.

(** ** The retry policy *)

Lemma wait_policy_range (attempt : nat) : in_backoff_range (wait_policy attempt).
Proof.
  unfold in_backoff_range, wait_policy, wait_exponential. lia.
Qed.

Lemma wait_policy_first : wait_policy 1 = 2%Z.
Proof. reflexivity. Qed.

Lemma retry_loop_effects {A : Type} (wait : nat -> Z) (f : M A) :
  one_call f ->
  forall remaining attempt w,
    exists waits,
      calls (snd (retry_loop wait remaining attempt f w))
        = calls w + S (List.length waits)
      /\ List.length waits <= remaining
      /\ sleeps (snd (retry_loop wait remaining attempt f w))
           = waits ++ sleeps w
      /\ Forall (fun s => exists n, s = wait n) waits
      /\ cache (snd (retry_loop wait remaining attempt f w)) = cache w.
Proof.
  intros Hf remaining.
  induction remaining as [| r IH]; intros attempt w;
    cbn [retry_loop]; destruct (Hf w) as (Hc & Hs & Hk);
    destruct (f w) as [[a | e] w1]; cbn [snd] in *.
  - exists []. cbn. repeat split; auto; lia.
  - exists []. cbn. repeat split; auto; lia.
  - exists []. cbn. repeat split; auto; lia.
  - cbn [sleep].
    destruct (IH (S attempt)
                (mkWorld (calls w1) (wait attempt :: sleeps w1) (cache w1)))
      as (waits & H1 & H2 & H3 & H4 & H5).
    cbn [calls sleeps cache] in *.
    exists (waits ++ [wait attempt]).
    rewrite H1, H3, H5, Hc, Hs, Hk, length_app. cbn [List.length].
    repeat split.
    + lia.
    + lia.
    + now rewrite <- app_assoc.
    + apply Forall_app. split; [assumption |].
      constructor; [now exists attempt | constructor].
Qed.

Lemma query_openrouter_attempt_one_call (prompt : string) :
  one_call (query_openrouter_attempt prompt).
Proof.
  intros w. unfold query_openrouter_attempt, try_except, create.
  destruct (provider (calls w) prompt); cbn; auto.
Qed.

Lemma details_attempt_one_call (diagnosis species breed : pyval) :
  one_call (query_veterinary_details_attempt diagnosis species breed).
Proof.
  intros w.
  unfold query_veterinary_details_attempt, try_except, mbind, lift, create.
  destruct (provider (calls w) _) as [content | e]; cbn; auto.
  destruct (process_response content); cbn; auto.
Qed.

Lemma retry_policy_effects {A : Type} (f : M A) (w : world) :
  one_call f ->
  let w' := snd (retry wait_policy max_attempts f w) in
  calls w < calls w' <= calls w + 2
  /\ cache w' = cache w
  /\ exists waits,
       sleeps w' = waits ++ sleeps w
       /\ List.length waits = calls w' - calls w - 1
       /\ Forall in_backoff_range waits.
Proof.
  intros Hf. cbv zeta. unfold retry, max_attempts. cbn [Nat.sub].
  destruct (retry_loop_effects wait_policy f Hf 1 1 w)
    as (waits & H1 & H2 & H3 & H4 & H5).
  rewrite H1, H5. repeat split; try lia.
  exists waits. repeat split.
  - assumption.
  - lia.
  - eapply Forall_impl; [| exact H4].
    intros s [n ->]. apply wait_policy_range.
Qed.

(** C5. One invocation of the model client, on any prompt and in any
    world, makes at least one and at most two provider calls, and asks
    for one wait between consecutive attempts, each within 2 to 5
    seconds; the same holds for the client of the detail lookup, and
    the exponential wait stays in that range after any attempt. *)
Theorem model_client_at_most_two_attempts (prompt : string) (w : world) :
  (let w' := snd (query_openrouter prompt w) in
   calls w < calls w' <= calls w + 2
   /\ exists waits,
        sleeps w' = waits ++ sleeps w
        /\ List.length waits = calls w' - calls w - 1
        /\ Forall in_backoff_range waits)
  /\ (forall diagnosis species breed,
        let w' :=
          snd (query_veterinary_details_retrying diagnosis species breed w) in
        calls w < calls w' <= calls w + 2
        /\ exists waits,
             sleeps w' = waits ++ sleeps w
             /\ List.length waits = calls w' - calls w - 1
             /\ Forall in_backoff_range waits)
  /\ (forall attempt,
        wait_policy attempt
          = Z.max 2 (Z.min (2 ^ (Z.of_nat attempt - 1)) 5)
        /\ in_backoff_range (wait_policy attempt)).
Proof.
  split; [| split].
  - destruct (retry_policy_effects (query_openrouter_attempt prompt) w
                (query_openrouter_attempt_one_call prompt)) as (H1 & _ & H2).
    split; assumption.
  - intros diagnosis species breed.
    destruct (retry_policy_effects
                (query_veterinary_details_attempt diagnosis species breed) w
                (details_attempt_one_call diagnosis species breed))
      as (H1 & _ & H2).
    split; assumption.
  - intros attempt. split; [| apply wait_policy_range].
    unfold wait_policy, wait_exponential.
    rewrite Z.mul_1_l. reflexivity.
Qed.

(** ** What the handlers see of a failed client *)

Lemma str_mem_app (c : ascii) (a b : string) :
  str_mem c (a ++ b) = str_mem c a || str_mem c b.
Proof.
  induction a as [| x a IH]; cbn; [reflexivity |].
  now rewrite IH, orb_assoc.
Qed.

Lemma str_contains_needs_head (c : ascii) (p s : string) :
  str_mem c s = false -> str_contains (String c p) s = false.
Proof.
  induction s as [| a s IH]; intros H.
  - reflexivity.
  - cbn [str_mem] in H. apply orb_false_iff in H. destruct H as [Ha Hs].
    cbn [str_contains String.prefix].
    destruct (ascii_dec c a) as [-> | _].
    + now rewrite Ascii.eqb_refl in Ha.
    + now apply IH.
Qed.

Lemma hex_digits_lowercase (d : Hexadecimal.uint) :
  str_mem "M" (HexadecimalString.NilEmpty.string_of_uint d) = false.
Proof. induction d; cbn; auto. Qed.

Lemma hex_address_lowercase (d : Hexadecimal.uint) :
  str_mem "M" (HexadecimalString.NilZero.string_of_uint d) = false.
Proof.
  destruct d; try reflexivity;
    unfold HexadecimalString.NilZero.string_of_uint;
    apply hex_digits_lowercase.
Qed.

Lemma class_name_has_no_M (e : exn) : str_mem "M" (exn_class_name e) = false.
Proof.
  destruct e as [| | | | | [c code msg] | |]; try reflexivity.
  destruct c; reflexivity.
Qed.

(** The text of a [RetryError] never holds the phrase the handlers look
    for, whatever exception it wraps. *)
Lemma retry_error_hides_phrase (addr : Hexadecimal.uint) (last : exn) :
  str_contains unavailable_phrase (exn_str (RetryError addr last)) = false.
Proof.
  unfold unavailable_phrase. apply str_contains_needs_head.
  cbn [exn_str]. rewrite !str_mem_app.
  rewrite hex_address_lowercase, class_name_has_no_M. reflexivity.
Qed.

Lemma handle_retry_error (addr : Hexadecimal.uint) (last : exn) :
  handle_exception (RetryError addr last) = unexpected_error.
Proof.
  unfold handle_exception. now rewrite retry_error_hides_phrase.
Qed.

Lemma query_openrouter_reply (prompt : string) (w : world) (c : option string) :
  provider (calls w) prompt = Reply c ->
  query_openrouter prompt w
  = (Ok c, mkWorld (S (calls w)) (sleeps w) (cache w)).
Proof.
  intros H. unfold query_openrouter, retry, max_attempts.
  cbn [Nat.sub retry_loop].
  unfold query_openrouter_attempt, try_except, create. now rewrite H.
Qed.

Lemma query_openrouter_gives_up (prompt : string) (w : world)
    (e1 e2 : openai_error) :
  provider (calls w) prompt = Fail e1 ->
  provider (S (calls w)) prompt = Fail e2 ->
  query_openrouter prompt w
  = (Raise (RetryError (future_id (S (S (calls w))))
              (except_OpenAIError (OpenAIError e2))),
     mkWorld (S (S (calls w))) (2%Z :: sleeps w) (cache w)).
Proof.
  intros H1 H2. unfold query_openrouter, retry, max_attempts.
  cbn [Nat.sub retry_loop].
  unfold query_openrouter_attempt, try_except, create.
  rewrite H1. cbn [sleep calls sleeps cache]. rewrite H2. reflexivity.
Qed.

(** When both attempts fail, whatever the two errors are, [/diagnose]
    answers with the generic 500. *)
Lemma diagnose_after_giving_up (d : dict) (w : world) (e1 e2 : openai_error) :
  key_configured = true ->
  provider (calls w) (prompt_text d) = Fail e1 ->
  provider (S (calls w)) (prompt_text d) = Fail e2 ->
  diagnose (PDict d) w
  = (unexpected_error,
     mkWorld (S (S (calls w))) (2%Z :: sleeps w) (cache w)).
Proof.
  intros Hk H1 H2.
  unfold diagnose, run_handler, mbind, lift, create_prompt, diagnose_collect.
  rewrite Hk. unfold mbind.
  rewrite (query_openrouter_gives_up _ _ e1 e2 H1 H2).
  now rewrite handle_retry_error.
Qed.

(** ** [/diagnose] without a usable reply *)

Lemma process_response_failure (content : string) :
  json_loads content = JSONDecodeError ->
  (forall sub,
      first_to_last_brace content = Some sub ->
      json_loads sub = JSONDecodeError) ->
  process_response (Some content) = Ok PNone.
Proof.
  intros H1 H2. unfold process_response. rewrite H1, re_search_brace.
  destruct (first_to_last_brace content) as [sub |]; [| reflexivity].
  now rewrite (H2 sub eq_refl).
Qed.

Lemma diagnose_falsy_reply (d : dict) (w : world) (content : option string)
    (reply : pyval) :
  key_configured = true ->
  provider (calls w) (prompt_text d) = Reply content ->
  process_response content = Ok reply ->
  truthy reply = false ->
  diagnose (PDict d) w
  = (no_models_available ["OpenRouter (API error)"],
     mkWorld (S (calls w)) (sleeps w) (cache w)).
Proof.
  intros Hk Hp Hr Ht.
  unfold diagnose, run_handler, mbind, lift, create_prompt, diagnose_collect.
  rewrite Hk. unfold mbind. rewrite (query_openrouter_reply _ _ _ Hp).
  unfold lift. rewrite Hr, Ht. reflexivity.
Qed.

(** C1, on the code.  With a credential configured and a JSON object
    as body, take any reply the retrying client returns, from its first
    call or from its second, that neither decodes as a whole nor holds a
    first-to-last brace substring that decodes.  The coercer returns
    the failure value [None], and [/diagnose] answers 503 "No AI models
    were available" with ["OpenRouter (API error)"] as skipped model:
    not 500, and not the 500 "Failed to parse AI response" of line 127,
    which the handler keeps for replies it could not parse and which
    the return of line 124 comes before for this reply. *)
Theorem diagnose_failure_value_is_503 (d : dict) (w w' : world)
    (content : string) :
  key_configured = true ->
  query_openrouter (prompt_text d) w = (Ok (Some content), w') ->
  json_loads content = JSONDecodeError ->
  (forall sub,
      first_to_last_brace content = Some sub ->
      json_loads sub = JSONDecodeError) ->
  process_response (Some content) = Ok PNone
  /\ diagnose (PDict d) w
     = (no_models_available ["OpenRouter (API error)"], w')
  /\ status (fst (diagnose (PDict d) w)) = 503%Z
  /\ status (fst (diagnose (PDict d) w)) <> 500%Z
  /\ fst (diagnose (PDict d) w) <> parse_failure.
Proof.
  intros Hk Hq H1 H2.
  pose proof (process_response_failure content H1 H2) as Hr.
  assert (Hd : diagnose (PDict d) w
               = (no_models_available ["OpenRouter (API error)"], w')).
  { unfold diagnose, run_handler, mbind, lift, create_prompt, diagnose_collect.
    rewrite Hk. unfold mbind. rewrite Hq.
    unfold lift. rewrite Hr. reflexivity. }
  rewrite Hd. cbn [fst status no_models_available].
  split; [assumption |]. split; [reflexivity |]. split; [reflexivity |].
  split; discriminate.
Qed.

(** C7. Without a configured credential, [/diagnose] on any JSON object
    leaves the world as it is (no provider call), answers 503 with
    exactly ["OpenRouter (no API key)"] as skipped models, and the list
    of queried models it collected is empty. *)
Theorem diagnose_without_credential (d : dict) (w : world) :
  key_configured = false ->
  diagnose (PDict d) w = (no_models_available ["OpenRouter (no API key)"], w)
  /\ status (fst (diagnose (PDict d) w)) = 503%Z
  /\ calls (snd (diagnose (PDict d) w)) = calls w
  /\ exists m,
       diagnose_collect (prompt_text d) w = (Ok m, w)
       /\ queried_models m = []
       /\ In "OpenRouter (no API key)" (skipped_models m).
Proof.
  intros Hk.
  assert (Hd : diagnose (PDict d) w
               = (no_models_available ["OpenRouter (no API key)"], w)).
  { unfold diagnose, run_handler, mbind, lift, create_prompt, diagnose_collect.
    rewrite Hk. reflexivity. }
  rewrite Hd. repeat split.
  unfold diagnose_collect. rewrite Hk.
  eexists. split; [reflexivity |]. split; [reflexivity |].
  now left.
Qed.

(** ** Condition extraction *)

Lemma map_result_ok {A B : Type} (f : A -> result B) (l : list A) :
  is_ok (map_result f l) = true <-> Forall (fun x => is_ok (f x) = true) l.
Proof.
  induction l as [| x l IH]; cbn [map_result].
  - split; [constructor | reflexivity].
  - split.
    + intros H. destruct (f x) as [y |] eqn:Ex; [| discriminate].
      cbn [rbind] in H.
      destruct (map_result f l) as [ys |]; [| discriminate].
      constructor; [now rewrite Ex | now apply IH].
    + intros H. inversion H as [| ? ? Hx Hl]; subst.
      destruct (f x) as [y |]; [| discriminate]. cbn [rbind].
      apply IH in Hl. destruct (map_result f l); [reflexivity | discriminate].
Qed.

Lemma map_result_raise {A B : Type} (f : A -> result B) (l : list A) (e : exn) :
  map_result f l = Raise e -> exists x, In x l /\ f x = Raise e.
Proof.
  induction l as [| x l IH]; cbn [map_result]; [discriminate |].
  destruct (f x) as [y |] eqn:Ex; cbn [rbind].
  - destruct (map_result f l) as [ys |]; cbn [rbind]; [discriminate |].
    intros [= <-]. destruct (IH eq_refl) as (x' & Hin & Hx').
    exists x'. split; [now right | assumption].
  - intros [= <-]. exists x. split; [now left | assumption].
Qed.

Lemma extract_condition_ok (c : pyval) :
  is_ok (extract_condition c) = true <-> has_name_and_likelihood c = true.
Proof.
  unfold extract_condition, has_name_and_likelihood, dict_mem.
  destruct c as [| b | z | f | s | l | e]; cbn [py_getitem py_get rbind is_ok];
    try (split; discriminate).
  destruct (dict_get "name" e); cbn [rbind is_ok andb];
    [| split; discriminate].
  destruct (dict_get "likelihood" e); cbn [rbind is_ok];
    [| split; discriminate].
  destruct (dict_get "explanation" e); cbn [rbind is_ok];
    split; intros _; reflexivity.
Qed.

Lemma extract_condition_default (e : dict) (n l : pyval) :
  dict_get "name" e = Some n ->
  dict_get "likelihood" e = Some l ->
  extract_condition (PDict e)
  = Ok (mkCondition n l
          (match dict_get "explanation" e with
           | Some x => x
           | None => PStr EmptyString
           end)).
Proof.
  intros Hn Hl. unfold extract_condition.
  cbn [py_getitem py_get]. rewrite Hn, Hl. cbn [rbind].
  destruct (dict_get "explanation" e); reflexivity.
Qed.

Lemma get_diagnoses_conditions_list (d : dict) (cs : list pyval) :
  dict_get "conditions" d = Some (PList cs) ->
  get_diagnoses (PDict d) = map_result extract_condition cs.
Proof.
  intros H. unfold get_diagnoses.
  assert (Ht : truthy (PDict d) = true) by (destruct d; [discriminate | reflexivity]).
  rewrite Ht. cbn [py_in py_getitem rbind]. unfold dict_mem. rewrite H.
  reflexivity.
Qed.

(** An exception is quiet when the handlers answer it with the generic
    500: its text lacks the letter the phrase starts with. *)
Lemma quiet_is_unexpected (e : exn) :
  str_mem "M" (exn_str e) = false -> handle_exception e = unexpected_error.
Proof.
  intros H. unfold handle_exception, unavailable_phrase.
  now rewrite (str_contains_needs_head _ _ _ H).
Qed.

Lemma type_name_quiet (v : pyval) : str_mem "M" (type_name v) = false.
Proof. destruct v; reflexivity. Qed.

Lemma py_getitem_quiet (v : pyval) (k : string) (e : exn) :
  str_mem "M" k = false ->
  py_getitem v k = Raise e -> str_mem "M" (exn_str e) = false.
Proof.
  intros Hk.
  destruct v; cbn [py_getitem];
    try (intros [= <-]; reflexivity).
  destruct (dict_get k d); [discriminate |].
  intros [= <-]. cbn [exn_str]. rewrite !str_mem_app, Hk. reflexivity.
Qed.

Lemma py_get_quiet (v : pyval) (k : string) (dflt : pyval) (e : exn) :
  py_get v k dflt = Raise e -> str_mem "M" (exn_str e) = false.
Proof.
  destruct v; cbn [py_get]; try (intros [= <-]; reflexivity).
  destruct (dict_get k d); discriminate.
Qed.

Lemma py_in_quiet (v : pyval) (k : string) (e : exn) :
  py_in k v = Raise e -> str_mem "M" (exn_str e) = false.
Proof.
  destruct v; cbn [py_in]; try discriminate; intros [= <-]; reflexivity.
Qed.

Lemma py_iter_quiet (v : pyval) (e : exn) :
  py_iter v = Raise e -> str_mem "M" (exn_str e) = false.
Proof.
  destruct v; cbn [py_iter]; try discriminate; intros [= <-]; reflexivity.
Qed.

Lemma extract_condition_quiet (c : pyval) (e : exn) :
  extract_condition c = Raise e -> str_mem "M" (exn_str e) = false.
Proof.
  unfold extract_condition.
  destruct (py_getitem c "name") as [n |] eqn:En; cbn [rbind].
  - destruct (py_getitem c "likelihood") as [l |] eqn:El; cbn [rbind].
    + destruct (py_get c "explanation" (PStr EmptyString)) as [x |] eqn:Ex;
        cbn [rbind]; [discriminate |].
      intros [= <-]. eapply py_get_quiet; eassumption.
    + intros [= <-]. eapply py_getitem_quiet; [| eassumption]. reflexivity.
  - intros [= <-]. eapply py_getitem_quiet; [| eassumption]. reflexivity.
Qed.

Lemma get_diagnoses_quiet (reply : pyval) (e : exn) :
  get_diagnoses reply = Raise e -> str_mem "M" (exn_str e) = false.
Proof.
  unfold get_diagnoses. destruct (truthy reply); [| discriminate].
  destruct (py_in "conditions" reply) as [[|] |] eqn:Ein; cbn [rbind].
  - destruct (py_getitem reply "conditions") as [cs |] eqn:Eg; cbn [rbind].
    + destruct (py_iter cs) as [l |] eqn:Ei; cbn [rbind].
      * intros H. apply map_result_raise in H. destruct H as (c & _ & Hc).
        eapply extract_condition_quiet; eassumption.
      * intros [= <-]. eapply py_iter_quiet; eassumption.
    + intros [= <-]. eapply py_getitem_quiet; [| eassumption]. reflexivity.
  - discriminate.
  - intros [= <-]. eapply py_in_quiet; eassumption.
Qed.

Lemma diagnose_extraction_raises (d : dict) (w : world)
    (content : option string) (reply : pyval) (e : exn) :
  key_configured = true ->
  provider (calls w) (prompt_text d) = Reply content ->
  process_response content = Ok reply ->
  truthy reply = true ->
  get_diagnoses reply = Raise e ->
  diagnose (PDict d) w
  = (unexpected_error, mkWorld (S (calls w)) (sleeps w) (cache w)).
Proof.
  intros Hk Hp Hr Ht He.
  unfold diagnose, run_handler, mbind, lift, create_prompt, diagnose_collect.
  rewrite Hk. unfold mbind. rewrite (query_openrouter_reply _ _ _ Hp).
  unfold lift. rewrite Hr, Ht. unfold mbind. rewrite He.
  now rewrite (quiet_is_unexpected e (get_diagnoses_quiet reply e He)).
Qed.

(** C10. For a reply whose [conditions] value is a list, extraction
    returns exactly when every entry is an object carrying both [name]
    and [likelihood]; an entry that has them and lacks [explanation]
    gets the empty string; and when extraction raises, [/diagnose]
    answers with the generic 500. *)
Theorem get_diagnoses_total_iff_required_keys (d : dict) (cs : list pyval) :
  dict_get "conditions" d = Some (PList cs) ->
  (is_ok (get_diagnoses (PDict d)) = true
   <-> Forall (fun c => has_name_and_likelihood c = true) cs)
  /\ (forall e n l,
        dict_get "name" e = Some n ->
        dict_get "likelihood" e = Some l ->
        dict_get "explanation" e = None ->
        extract_condition (PDict e) = Ok (mkCondition n l (PStr EmptyString)))
  /\ (forall body w content,
        key_configured = true ->
        provider (calls w) (prompt_text body) = Reply content ->
        process_response content = Ok (PDict d) ->
        is_ok (get_diagnoses (PDict d)) = false ->
        diagnose (PDict body) w
        = (unexpected_error, mkWorld (S (calls w)) (sleeps w) (cache w))).
Proof.
  intros Hc. split; [| split].
  - rewrite (get_diagnoses_conditions_list d cs Hc), map_result_ok.
    split; intros H; (eapply Forall_impl; [| exact H]);
      intros c Hx; now apply extract_condition_ok.
  - intros e n l Hn Hl He.
    rewrite (extract_condition_default e n l Hn Hl), He. reflexivity.
  - intros body w content Hk Hp Hr Hfail.
    destruct (get_diagnoses (PDict d)) as [r | e] eqn:Eg; [discriminate |].
    eapply diagnose_extraction_raises; try eassumption.
    destruct d; [discriminate | reflexivity].
Qed.

(** ** Ranking *)






(** *** Likelihoods of any numeric type *)

Lemma dyadic_compare_scaled (p q : dyadic) (k : Z) :
  (k <= snd p)%Z -> (k <= snd q)%Z ->
  dyadic_compare p q
  = Z.compare (fst p * 2 ^ (snd p - k)) (fst q * 2 ^ (snd q - k)).
Proof.
  intros Hp Hq. unfold dyadic_compare.
  set (e := Z.min (snd p) (snd q)).
  assert (He : (k <= e)%Z) by (unfold e; lia).
  assert (Hep : (e <= snd p)%Z) by (unfold e; lia).
  assert (Heq : (e <= snd q)%Z) by (unfold e; lia).
  replace (snd p - k)%Z with ((snd p - e) + (e - k))%Z by lia.
  replace (snd q - k)%Z with ((snd q - e) + (e - k))%Z by lia.
  rewrite !Z.pow_add_r by lia.
  rewrite !Z.mul_assoc.
  apply Zmult_compare_compat_r. apply Z.lt_gt. apply Z.pow_pos_nonneg; lia.
Qed.

Lemma dyadic_le_scaled (p q : dyadic) (k : Z) :
  (k <= snd p)%Z -> (k <= snd q)%Z ->
  dyadic_le p q
  <-> (fst p * 2 ^ (snd p - k) <= fst q * 2 ^ (snd q - k))%Z.
Proof.
  intros Hp Hq. unfold dyadic_le.
  rewrite (dyadic_compare_scaled p q k Hp Hq). reflexivity.
Qed.

Lemma dyadic_ltb_scaled (p q : dyadic) (k : Z) :
  (k <= snd p)%Z -> (k <= snd q)%Z ->
  dyadic_ltb p q
  = Z.ltb (fst p * 2 ^ (snd p - k)) (fst q * 2 ^ (snd q - k)).
Proof.
  intros Hp Hq. unfold dyadic_ltb, Z.ltb.
  rewrite (dyadic_compare_scaled p q k Hp Hq). reflexivity.
Qed.

Lemma dyadic_le_refl (p : dyadic) : dyadic_le p p.
Proof.
  unfold dyadic_le, dyadic_compare. rewrite Z.compare_refl. discriminate.
Qed.

Lemma dyadic_le_trans (p q r : dyadic) :
  dyadic_le p q -> dyadic_le q r -> dyadic_le p r.
Proof.
  intros H1 H2.
  set (k := Z.min (snd p) (Z.min (snd q) (snd r))).
  assert (Hp : (k <= snd p)%Z) by (unfold k; lia).
  assert (Hq : (k <= snd q)%Z) by (unfold k; lia).
  assert (Hr : (k <= snd r)%Z) by (unfold k; lia).
  apply (dyadic_le_scaled p q k Hp Hq) in H1.
  apply (dyadic_le_scaled q r k Hq Hr) in H2.
  apply (dyadic_le_scaled p r k Hp Hr). lia.
Qed.

Lemma dyadic_ltb_true (p q : dyadic) :
  dyadic_ltb p q = true -> dyadic_le p q.
Proof.
  unfold dyadic_ltb, dyadic_le.
  destruct (dyadic_compare p q); discriminate.
Qed.

Lemma dyadic_ltb_false (p q : dyadic) :
  dyadic_ltb p q = false -> dyadic_le q p.
Proof.
  set (k := Z.min (snd p) (snd q)).
  assert (Hp : (k <= snd p)%Z) by (unfold k; lia).
  assert (Hq : (k <= snd q)%Z) by (unfold k; lia).
  rewrite (dyadic_ltb_scaled p q k Hp Hq), Z.ltb_ge.
  intros H. now apply (dyadic_le_scaled q p k Hq Hp).
Qed.

Lemma dyadic_ltb_int (a b : Z) :
  dyadic_ltb (a, 0%Z) (b, 0%Z) = Z.ltb a b.
Proof.
  rewrite (dyadic_ltb_scaled (a, 0%Z) (b, 0%Z) 0%Z) by reflexivity.
  cbn [fst snd]. now rewrite Z.sub_diag, Z.pow_0_r, !Z.mul_1_r.
Qed.

(** On integers and bools the order is the integers' own. *)
Lemma at_least_as_likely_numeric (a b : Condition) :
  numeric a = true -> numeric b = true ->
  at_least_as_likely a b <-> (likelihood_Z b <= likelihood_Z a)%Z.
Proof.
  unfold numeric, likelihood_Z, at_least_as_likely, rank.
  intros Ha Hb.
  destruct (likelihood a) as [| ba | za | | | |]; try discriminate;
    destruct (likelihood b) as [| bb | zb | | | |]; try discriminate;
    cbn [dyadic_of num_of];
    (etransitivity;
     [apply (dyadic_le_scaled _ _ 0%Z); cbn [snd]; lia |]);
    cbn [fst snd]; rewrite Z.sub_diag, Z.pow_0_r, !Z.mul_1_r; reflexivity.
Qed.

Lemma numeric_is_number (c : Condition) :
  numeric c = true -> is_number c = true.
Proof.
  unfold numeric, is_number.
  destruct (likelihood c); cbn [num_of dyadic_of]; try discriminate;
    reflexivity.
Qed.

Lemma py_gt_number (x y : Condition) :
  is_number x = true -> is_number y = true ->
  py_gt (likelihood x) (likelihood y) = Ok (dyadic_ltb (rank y) (rank x)).
Proof.
  unfold is_number, rank.
  destruct (likelihood x); destruct (likelihood y);
    cbn [dyadic_of py_gt num_of]; try discriminate; intros _ _;
    rewrite ?dyadic_ltb_int; reflexivity.
Qed.

Lemma py_lt_number (x y : Condition) :
  is_number x = true -> is_number y = true ->
  py_lt (likelihood x) (likelihood y) = Ok (dyadic_ltb (rank x) (rank y)).
Proof.
  unfold is_number, rank.
  destruct (likelihood x); destruct (likelihood y);
    cbn [dyadic_of py_lt num_of]; try discriminate; intros _ _;
    rewrite ?dyadic_ltb_int; reflexivity.
Qed.

Lemma max_from_most_likely (l : list Condition) :
  forall best,
    is_number best = true ->
    Forall (fun c => is_number c = true) l ->
    exists top,
      max_from best l = Ok top
      /\ In top (best :: l)
      /\ forall c, In c (best :: l) -> at_least_as_likely top c.
Proof.
  unfold at_least_as_likely.
  induction l as [| x l IH]; intros best Hb Hl.
  - exists best. cbn [max_from]. split; [reflexivity |].
    split; [now left |].
    intros c [<- | []]. apply dyadic_le_refl.
  - inversion Hl as [| ? ? Hx Hl']; subst.
    cbn [max_from]. rewrite (py_gt_number x best Hx Hb). cbn [rbind].
    destruct (dyadic_ltb (rank best) (rank x)) eqn:Hcmp.
    + destruct (IH x Hx Hl') as (top & Ht & Hin & Hmax).
      exists top. split; [assumption |]. split.
      * right. exact Hin.
      * intros c [<- | Hc]; [| now apply Hmax].
        eapply dyadic_le_trans; [apply dyadic_ltb_true; exact Hcmp |].
        apply Hmax. now left.
    + destruct (IH best Hb Hl') as (top & Ht & Hin & Hmax).
      exists top. split; [assumption |]. split.
      * destruct Hin as [<- | Hin]; [now left | right; now right].
      * intros c [<- | [<- | Hc]].
        -- apply Hmax. now left.
        -- eapply dyadic_le_trans; [apply dyadic_ltb_false; exact Hcmp |].
           apply Hmax. now left.
        -- apply Hmax. now right.
Qed.

Lemma insert_desc_by_rank (x : Condition) (l : list Condition) :
  is_number x = true ->
  Forall (fun c => is_number c = true) l ->
  StronglySorted at_least_as_likely l ->
  exists r,
    insert_desc x l = Ok r
    /\ Permutation r (x :: l)
    /\ StronglySorted at_least_as_likely r.
Proof.
  intros Hx. induction l as [| y l IH]; intros Hl Hs.
  - exists [x]. cbn [insert_desc]. split; [reflexivity |].
    split; [reflexivity |]. repeat constructor.
  - inversion Hl as [| ? ? Hy Hl']; subst.
    inversion Hs as [| ? ? Hs' Hfy]; subst.
    cbn [insert_desc]. rewrite (py_lt_number x y Hx Hy). cbn [rbind].
    destruct (dyadic_ltb (rank x) (rank y)) eqn:Hcmp.
    + destruct (IH Hl' Hs') as (r & Hr & Hp & Hsr).
      rewrite Hr. cbn [rbind]. exists (y :: r). split; [reflexivity |]. split.
      * rewrite Hp. apply perm_swap.
      * constructor; [assumption |].
        eapply Permutation_Forall; [symmetry; exact Hp |].
        constructor; [| assumption].
        apply dyadic_ltb_true. exact Hcmp.
    + exists (x :: y :: l). split; [reflexivity |]. split; [reflexivity |].
      constructor; [assumption |].
      constructor; [apply dyadic_ltb_false; exact Hcmp |].
      eapply Forall_impl; [| exact Hfy].
      intros c Hc. unfold at_least_as_likely in *.
      eapply dyadic_le_trans; [exact Hc |].
      apply dyadic_ltb_false. exact Hcmp.
Qed.

Lemma sorted_desc_by_rank (l : list Condition) :
  Forall (fun c => is_number c = true) l ->
  exists s,
    sorted_desc l = Ok s
    /\ Permutation s l
    /\ StronglySorted at_least_as_likely s.
Proof.
  induction l as [| x l IH]; intros Hl.
  - exists []. repeat split; constructor.
  - inversion Hl as [| ? ? Hx Hl']; subst.
    destruct (IH Hl') as (s & Hs & Hp & Hsorted).
    cbn [sorted_desc]. rewrite Hs. cbn [rbind].
    destruct (insert_desc_by_rank x s Hx) as (r & Hr & Hpr & Hsr).
    + eapply Permutation_Forall; [symmetry; exact Hp | exact Hl'].
    + assumption.
    + exists r. split; [assumption |]. split; [| assumption].
      rewrite Hpr. now constructor.
Qed.

(** C3. The summarizer returns the fixed string on the empty list.  On
    conditions whose likelihoods are numbers (integers, bools or finite
    floats, in any mixture, compared by value): for one or two of them
    it returns ["Name (X%)"] for an entry that is at least as likely as
    every entry; for three or more it returns the prefix followed by
    the comma-joined ["Name (X%)"] of the first three entries of the
    list sorted by likelihood, greatest first. *)
Theorem summarize_by_length (results : list Condition) :
  get_highest_ranked_diagnosis [] = Ok "No diagnosis available"
  /\ (forallb is_number results = true ->
      1 <= List.length results <= 2 ->
      exists top,
        In top results
        /\ (forall c, In c results -> at_least_as_likely top c)
        /\ get_highest_ranked_diagnosis results
           = Ok (py_str (name top) ++ " (" ++ py_str (likelihood top) ++ "%)")%string)
  /\ (forallb is_number results = true ->
      3 <= List.length results ->
      exists s top_three,
        Permutation s results
        /\ StronglySorted at_least_as_likely s
        /\ top_three = firstn 3 s
        /\ List.length top_three = 3
        /\ get_highest_ranked_diagnosis results
           = Ok ("Top 3 possible diagnoses: "
                   ++ str_join ", "
                        (map (fun d => py_str (name d) ++ " ("
                                         ++ py_str (likelihood d) ++ "%)")
                             top_three))%string).
Proof.
  split; [reflexivity |].
  split; intros Hnum Hlen;
    rewrite forallb_forall in Hnum;
    assert (HF : Forall (fun c => is_number c = true) results)
      by (apply Forall_forall; exact Hnum);
    destruct results as [| first rest]; cbn [List.length] in Hlen; try lia;
    inversion HF as [| ? ? Hfirst Hrest]; subst;
    destruct (max_from_most_likely rest first Hfirst Hrest)
      as (top & Htop & Hin & Hmax);
    unfold get_highest_ranked_diagnosis; rewrite Htop; cbn [rbind].
  - assert (Hle : Nat.leb 3 (List.length (first :: rest)) = false)
      by (apply Nat.leb_gt; cbn [List.length]; lia).
    rewrite Hle. exists top. repeat split; auto.
  - assert (Hle : Nat.leb 3 (List.length (first :: rest)) = true)
      by (apply Nat.leb_le; cbn [List.length]; lia).
    rewrite Hle.
    destruct (sorted_desc_by_rank (first :: rest) HF) as (s & Hs & Hp & Hsorted).
    rewrite Hs. cbn [rbind].
    exists s, (firstn 3 s). repeat split; auto.
    rewrite length_firstn, (Permutation_length Hp). cbn [List.length]. lia.
Qed.

(** ** The memo store *)

Lemma hkey_eqb_eq (a b : hkey) : hkey_eqb a b = true <-> a = b.
Proof.
  destruct a, b; cbn; try (split; [discriminate | intros [=]]);
    try (split; reflexivity).
  - rewrite Z.eqb_eq. split; [now intros -> | now intros [= ->]].
  - rewrite andb_true_iff, !Z.eqb_eq.
    split; [now intros [-> ->] | now intros [= -> ->]].
  - rewrite String.eqb_eq. split; [now intros -> | now intros [= ->]].
Qed.

Lemma key_eqb_eq (a b : cache_key) : key_eqb a b = true <-> a = b.
Proof.
  destruct a as [[a1 a2] a3], b as [[b1 b2] b3]. cbn [key_eqb].
  rewrite !andb_true_iff, !hkey_eqb_eq.
  split; [intros [[-> ->] ->]; reflexivity | intros [= -> -> ->]; auto].
Qed.

Lemma key_eqb_refl (k : cache_key) : key_eqb k k = true.
Proof. now apply key_eqb_eq. Qed.

Lemma key_eqb_neq (a b : cache_key) : key_eqb a b = false <-> a <> b.
Proof.
  rewrite <- key_eqb_eq. destruct (key_eqb a b); split; congruence.
Qed.

Lemma cache_lookup_none (k : cache_key) (c : store) :
  cache_lookup k c = None <-> ~ In k (cache_keys c).
Proof.
  induction c as [| [k' v] c IH]; cbn.
  - split; [intros _ [] | reflexivity].
  - destruct (key_eqb k k') eqn:E.
    + apply key_eqb_eq in E. subst.
      split; [discriminate | intros H; exfalso; apply H; now left].
    + apply key_eqb_neq in E. rewrite IH. split; intros H.
      * intros [H' | H']; [congruence | exact (H H')].
      * intros H'. apply H. now right.
Qed.

Lemma cache_lookup_some (k : cache_key) (c : store) (v : pyval) :
  cache_lookup k c = Some v -> In k (cache_keys c).
Proof.
  induction c as [| [k' v'] c IH]; cbn; [discriminate |].
  destruct (key_eqb k k') eqn:E.
  - apply key_eqb_eq in E. subst. now left.
  - intros H. right. now apply IH.
Qed.

Lemma cache_keys_remove (k : cache_key) (c : store) :
  cache_keys (cache_remove k c) = filter (other_key k) (cache_keys c).
Proof.
  unfold other_key, cache_keys.
  induction c as [| [k' v] c IH]; cbn; [reflexivity |].
  destruct (key_eqb k k'); cbn; now rewrite IH.
Qed.

Lemma filter_other_absent (k : cache_key) (l : list cache_key) :
  ~ In k l -> filter (other_key k) l = l.
Proof.
  unfold other_key.
  induction l as [| x l IH]; intros H; cbn; [reflexivity |].
  destruct (key_eqb k x) eqn:E.
  - apply key_eqb_eq in E. subst. exfalso. apply H. now left.
  - cbn. rewrite IH; [reflexivity |]. intros Hin. apply H. now right.
Qed.

Lemma recent_NoDup (hist : list cache_key) : NoDup (recent hist).
Proof.
  induction hist as [| k hist IH]; cbn [recent]; constructor.
  - rewrite filter_In. intros [_ H]. unfold other_key in H.
    now rewrite key_eqb_refl in H.
  - now apply NoDup_filter.
Qed.

Lemma in_firstn {A : Type} (x : A) (n : nat) (l : list A) :
  In x (firstn n l) -> In x l.
Proof.
  intros H. rewrite <- (firstn_skipn n l). apply in_or_app. now left.
Qed.

(** Using a key that is among the first [S n] moves it to the front
    and keeps the others in order. *)
Lemma firstn_filter_present (k : cache_key) (l : list cache_key) :
  NoDup l ->
  forall n,
    In k (firstn (S n) l) ->
    filter (other_key k) (firstn (S n) l) = firstn n (filter (other_key k) l).
Proof.
  induction l as [| x l IH]; intros Hnd n Hin.
  - destruct Hin.
  - inversion Hnd as [| ? ? Hx Hnd']; subst.
    cbn [firstn filter].
    destruct (other_key k x) eqn:E; unfold other_key in E.
    + apply negb_true_iff in E.
      destruct Hin as [-> | Hin]; [now rewrite key_eqb_refl in E |].
      destruct n as [| n]; [destruct Hin |].
      cbn [firstn]. f_equal. now apply IH.
    + apply negb_false_iff, key_eqb_eq in E. subst x.
      rewrite (filter_other_absent k l Hx).
      apply filter_other_absent. intros H. apply Hx.
      eapply in_firstn; exact H.
Qed.

(** Using a key that is not among the first [S n] leaves the first
    [n] as they are. *)
Lemma firstn_filter_absent (k : cache_key) (l : list cache_key) :
  forall n,
    ~ In k (firstn (S n) l) ->
    firstn n (filter (other_key k) l) = firstn n l.
Proof.
  induction l as [| x l IH]; intros n H.
  - reflexivity.
  - cbn [firstn] in H. cbn [filter].
    destruct (other_key k x) eqn:E; unfold other_key in E.
    + destruct n as [| n]; [reflexivity |].
      cbn [firstn]. f_equal. apply IH. intros Hin. apply H. now right.
    + apply negb_false_iff, key_eqb_eq in E. subst. exfalso. apply H. now left.
Qed.

Lemma details_retrying_keeps_cache (a b c : pyval) (w : world) :
  cache (snd (query_veterinary_details_retrying a b c w)) = cache w.
Proof.
  unfold query_veterinary_details_retrying.
  now destruct (retry_policy_effects
                  (query_veterinary_details_attempt a b c) w
                  (details_attempt_one_call a b c)) as (_ & H & _).
Qed.

(** A lookup whose key is resident returns the stored value, moves the
    key to the front and leaves the provider alone. *)
Lemma lookup_hit (a b c : pyval) (w : world) (k : cache_key) (v : pyval) :
  make_key a b c = Ok k ->
  cache_lookup k (cache w) = Some v ->
  query_veterinary_details a b c w
  = (Ok v, mkWorld (calls w) (sleeps w) ((k, v) :: cache_remove k (cache w))).
Proof.
  intros Hk Hv. unfold query_veterinary_details, lru_cache.
  now rewrite Hk, Hv.
Qed.

(** Every way a lookup can end, and what it does to the store. *)
Lemma lookup_outcome (a b c : pyval) (w : world) :
  match query_veterinary_details a b c w with
  | (Ok v, w') =>
      exists k,
        make_key a b c = Ok k
        /\ ((cache_lookup k (cache w) = Some v
             /\ cache w' = (k, v) :: cache_remove k (cache w)
             /\ calls w' = calls w)
            \/ (cache_lookup k (cache w) = None
                /\ cache w' = firstn maxsize ((k, v) :: cache w)))
  | (Raise _, w') => cache w' = cache w
  end.
Proof.
  unfold query_veterinary_details, lru_cache.
  destruct (make_key a b c) as [k | e]; [| reflexivity].
  destruct (cache_lookup k (cache w)) as [v |] eqn:Hl.
  - exists k. split; [reflexivity |]. left. cbn. auto.
  - pose proof (details_retrying_keeps_cache a b c w) as Hc.
    destruct (query_veterinary_details_retrying a b c w) as [[v | e] w'];
      cbn [snd] in Hc.
    + exists k. split; [reflexivity |]. right. cbn. now rewrite Hc.
    + exact Hc.
Qed.

Lemma lookup_stores_result (a b c : pyval) (w w' : world) (k : cache_key)
    (v : pyval) :
  make_key a b c = Ok k ->
  query_veterinary_details a b c w = (Ok v, w') ->
  cache_lookup k (cache w') = Some v.
Proof.
  intros Hk Hq. pose proof (lookup_outcome a b c w) as H.
  rewrite Hq in H. destruct H as (k' & Hk' & H).
  rewrite Hk in Hk'. injection Hk' as <-.
  destruct H as [(_ & -> & _) | (_ & ->)].
  - cbn. now rewrite key_eqb_refl.
  - unfold maxsize. cbn. now rewrite key_eqb_refl.
Qed.

Lemma lookup_step_keeps_most_recent (hist : list cache_key) (w : world)
    (req : pyval * pyval * pyval) :
  holds_most_recent hist w ->
  holds_most_recent (fst (lookup_step (hist, w) req))
                    (snd (lookup_step (hist, w) req)).
Proof.
  unfold holds_most_recent. intros Hinv.
  destruct req as [[a b] c]. unfold lookup_step.
  pose proof (lookup_outcome a b c w) as H.
  destruct (query_veterinary_details a b c w) as [[v | e] w'].
  - destruct H as (k & Hk & H). rewrite Hk. cbn [fst snd recent].
    unfold maxsize in *. change 128 with (S 127) in *.
    rewrite firstn_cons.
    destruct H as [(Hl & -> & _) | (Hl & ->)].
    + change (cache_keys ((k, v) :: cache_remove k (cache w)))
        with (k :: cache_keys (cache_remove k (cache w))).
      rewrite cache_keys_remove, Hinv. f_equal.
      apply firstn_filter_present; [apply recent_NoDup |].
      rewrite <- Hinv. eapply cache_lookup_some; exact Hl.
    + unfold cache_keys in *.
      rewrite firstn_cons. cbn [map fst]. f_equal.
      rewrite <- firstn_map, Hinv, firstn_firstn.
      change (Nat.min 127 (S 127)) with 127.
      symmetry. apply firstn_filter_absent.
      rewrite <- Hinv. now apply cache_lookup_none.
  - cbn [fst snd]. destruct (make_key a b c); cbn [fst snd]; now rewrite H.
Qed.

Lemma lookups_keep_most_recent (reqs : list (pyval * pyval * pyval)) :
  forall hist w,
    holds_most_recent hist w ->
    holds_most_recent (fst (fold_left lookup_step reqs (hist, w)))
                      (snd (fold_left lookup_step reqs (hist, w))).
Proof.
  induction reqs as [| req reqs IH]; intros hist w H.
  - exact H.
  - cbn [fold_left].
    pose proof (lookup_step_keeps_most_recent hist w req H) as Hstep.
    destruct (lookup_step (hist, w) req) as [hist' w'].
    now apply IH.
Qed.

(** C2. Start from an empty store and run any sequence of detail
    lookups.  The store then holds exactly the 128 most recently used
    distinct keys of the lookups that returned, latest first, so at
    most 128 entries, the least recently used dropped first.  A further
    lookup that returns leaves its key resident with the value it
    returned, and in any world where that key is resident a lookup with
    the same triple returns the stored value without a provider call or
    a wait. *)
Theorem detail_memoizer_lru (reqs : list (pyval * pyval * pyval)) (w0 : world) :
  cache w0 = [] ->
  let hist := fst (lookups reqs w0) in
  let w := snd (lookups reqs w0) in
  cache_keys (cache w) = firstn 128 (recent hist)
  /\ List.length (cache w) <= 128
  /\ forall a b c k v w1,
       make_key a b c = Ok k ->
       query_veterinary_details a b c w = (Ok v, w1) ->
       cache_lookup k (cache w1) = Some v
       /\ (exists w2,
             query_veterinary_details a b c w1 = (Ok v, w2)
             /\ calls w2 = calls w1)
       /\ forall w' v',
            cache_lookup k (cache w') = Some v' ->
            exists w'',
              query_veterinary_details a b c w' = (Ok v', w'')
              /\ calls w'' = calls w'
              /\ sleeps w'' = sleeps w'.
Proof.
  intros Hempty. cbv zeta.
  assert (Hinv : holds_most_recent (fst (lookups reqs w0))
                                   (snd (lookups reqs w0))).
  { unfold lookups. apply lookups_keep_most_recent.
    unfold holds_most_recent. now rewrite Hempty. }
  unfold holds_most_recent, maxsize in Hinv.
  split; [exact Hinv |]. split.
  - unfold cache_keys in Hinv.
    rewrite <- (length_map fst), Hinv. apply firstn_le_length.
  - intros a b c k v w1 Hk Hq.
    pose proof (lookup_stores_result a b c _ w1 k v Hk Hq) as Hres.
    split; [exact Hres |]. split.
    + eexists. split; [apply (lookup_hit a b c w1 k v Hk Hres) | reflexivity].
    + intros w' v' Hl. eexists.
      split; [apply (lookup_hit a b c w' k v' Hk Hl) |]. split; reflexivity.
Qed.

(** ** [/veterinary-details] *)

Lemma py_get_dict (d : dict) (k : string) (default : pyval) :
  py_get (PDict d) k default = Ok (field k default d).
Proof.
  unfold py_get, field. destruct (dict_get k d); reflexivity.
Qed.

Lemma handle_exception_status (e : exn) :
  status (handle_exception e) <> 200%Z.
Proof.
  unfold handle_exception.
  destruct (str_contains unavailable_phrase (exn_str e)); discriminate.
Qed.

(** C9. A detail lookup that returns the failure value [None] leaves
    it in the store under its key; and with the credential configured,
    a request whose triple has that key resident with [None] is
    answered 500 with the parse-failure message, makes no provider call
    and leaves the key resident with [None], so the next identical
    request is answered the same way. *)
Theorem memoized_failure_is_replayed (data : dict) (w : world) (k : cache_key) :
  make_key (field "diagnosis" PNone data)
           (field "species" (PStr "Unknown") data)
           (field "breed" (PStr "Mixed") data) = Ok k ->
  (forall w0 w1,
      query_veterinary_details (field "diagnosis" PNone data)
        (field "species" (PStr "Unknown") data)
        (field "breed" (PStr "Mixed") data) w0 = (Ok PNone, w1) ->
      cache_lookup k (cache w1) = Some PNone)
  /\ (key_configured = true ->
      truthy (field "diagnosis" PNone data) = true ->
      cache_lookup k (cache w) = Some PNone ->
      fst (veterinary_details (PDict data) w) = details_parse_failure
      /\ status (fst (veterinary_details (PDict data) w)) = 500%Z
      /\ calls (snd (veterinary_details (PDict data) w)) = calls w
      /\ cache_lookup k (cache (snd (veterinary_details (PDict data) w)))
         = Some PNone).
Proof.
  intros Hk. split.
  - intros w0 w1 Hq. eapply lookup_stores_result; eassumption.
  - intros Hc Ht Hl.
    assert (Hv : veterinary_details (PDict data) w
                 = (details_parse_failure,
                    mkWorld (calls w) (sleeps w)
                      ((k, PNone) :: cache_remove k (cache w)))).
    { unfold veterinary_details, run_handler, mbind, lift.
      rewrite !py_get_dict, Ht, Hc. cbn [negb]. unfold mbind.
      rewrite (lookup_hit _ _ _ w k PNone Hk Hl). reflexivity. }
    rewrite Hv. cbn [fst snd calls cache cache_lookup].
    rewrite key_eqb_refl. repeat split.
Qed.

(** C8. On a JSON object without [diagnosis] the endpoint answers 400
    and leaves the world as it is (no provider call).  Whenever it
    answers 200, the body echoes the diagnosis, the species (["Unknown"]
    when the field is missing) and the breed (["Mixed"] when missing). *)
Theorem veterinary_details_validation (data : dict) (w : world) :
  (dict_get "diagnosis" data = None ->
   veterinary_details (PDict data) w = (diagnosis_required, w)
   /\ status (fst (veterinary_details (PDict data) w)) = 400%Z
   /\ calls (snd (veterinary_details (PDict data) w)) = calls w)
  /\ (status (fst (veterinary_details (PDict data) w)) = 200%Z ->
      py_getitem (body (fst (veterinary_details (PDict data) w))) "diagnosis"
      = Ok (field "diagnosis" PNone data)
      /\ py_getitem (body (fst (veterinary_details (PDict data) w))) "species"
         = Ok (field "species" (PStr "Unknown") data)
      /\ py_getitem (body (fst (veterinary_details (PDict data) w))) "breed"
         = Ok (field "breed" (PStr "Mixed") data)
      /\ (dict_get "species" data = None ->
          py_getitem (body (fst (veterinary_details (PDict data) w))) "species"
          = Ok (PStr "Unknown"))
      /\ (dict_get "breed" data = None ->
          py_getitem (body (fst (veterinary_details (PDict data) w))) "breed"
          = Ok (PStr "Mixed"))).
Proof.
  split.
  - intros Hd.
    assert (Hv : veterinary_details (PDict data) w = (diagnosis_required, w)).
    { unfold veterinary_details, run_handler, mbind, lift.
      rewrite !py_get_dict. unfold field at 1. rewrite Hd. reflexivity. }
    rewrite Hv. repeat split.
  - unfold veterinary_details, run_handler, mbind, lift.
    rewrite !py_get_dict.
    destruct (truthy (field "diagnosis" PNone data)); cbn [negb];
      [| cbn; discriminate].
    unfold mbind.
    destruct key_configured; [| cbn; discriminate].
    unfold mbind.
    destruct (query_veterinary_details _ _ _ w) as [[details | e] w1].
    + cbn [mret]. destruct (truthy details); cbn [negb fst status body];
        [| discriminate].
      intros _. repeat split.
      * intros Hs. unfold field. rewrite Hs. reflexivity.
      * intros Hb. unfold field. rewrite Hb. reflexivity.
    + cbn [fst]. intros H. now apply handle_exception_status in H.
Qed.

(** * Further properties of the code *)

(** ** Prompts *)

Lemma prefix_app (a b : string) : String.prefix a (a ++ b) = true.
Proof.
  induction a as [| c a IH]; cbn; [now destruct b |].
  destruct (ascii_dec c c) as [_ | H]; [exact IH | now contradiction H].
Qed.

Lemma prefix_app_l (sub a b : string) :
  String.prefix sub a = true -> String.prefix sub (a ++ b) = true.
Proof.
  revert sub. induction a as [| c a IH]; intros sub H.
  - destruct sub; [now destruct b | discriminate].
  - destruct sub as [| x sub]; [reflexivity |].
    cbn in *. destruct (ascii_dec x c); [now apply IH | discriminate].
Qed.

Lemma str_contains_unfold (sub s : string) :
  str_contains sub s =
    if String.prefix sub s then true
    else match s with
         | EmptyString => false
         | String _ s' => str_contains sub s'
         end.
Proof. destruct s; reflexivity. Qed.

Lemma str_contains_app_r (sub a b : string) :
  str_contains sub b = true -> str_contains sub (a ++ b) = true.
Proof.
  intros H. induction a as [| c a IH]; [exact H |].
  cbn [append]. rewrite str_contains_unfold.
  destruct (String.prefix sub (String c (a ++ b))); [reflexivity | exact IH].
Qed.

Lemma str_contains_app_l (sub a b : string) :
  str_contains sub a = true -> str_contains sub (a ++ b) = true.
Proof.
  induction a as [| c a IH]; intros H.
  - rewrite str_contains_unfold in H.
    destruct (String.prefix sub EmptyString) eqn:E; [| discriminate].
    rewrite str_contains_unfold. now rewrite (prefix_app_l _ _ b E).
  - rewrite str_contains_unfold in H. cbn [append].
    rewrite str_contains_unfold.
    destruct (String.prefix sub (String c a)) eqn:E.
    + change (String c (a ++ b)) with (String c a ++ b)%string.
      now rewrite (prefix_app_l _ _ b E).
    + destruct (String.prefix sub (String c (a ++ b))); [reflexivity |].
      now apply IH.
Qed.

Lemma str_contains_here (sub b : string) : str_contains sub (sub ++ b) = true.
Proof. rewrite str_contains_unfold. now rewrite prefix_app. Qed.

Lemma str_contains_middle (sub a b : string) :
  str_contains sub (a ++ sub ++ b) = true.
Proof. apply str_contains_app_r, str_contains_here. Qed.

Lemma str_contains_concat (x : string) (l : list string) :
  In x l -> str_contains x (String.concat EmptyString l) = true.
Proof.
  induction l as [| y l IH]; intros H; [destruct H |].
  assert (Hc : String.concat EmptyString (y :: l)
               = (y ++ String.concat EmptyString l)%string).
  { destruct l as [| z l]; cbn [String.concat].
    - clear. induction y as [| c y IHy]; cbn; [reflexivity | now rewrite <- IHy].
    - reflexivity. }
  rewrite Hc. destruct H as [-> | H].
  - apply str_contains_here.
  - apply str_contains_app_r. now apply IH.
Qed.

(** X1. The prompt of [/diagnose] holds, for every item of the request
    object, the line made of the capitalized key, a colon and the
    value. *)
Theorem create_prompt_lists_every_attribute (d : dict) (k : string) (v : pyval) :
  In (k, v) d ->
  exists prompt,
    create_prompt (PDict d) = Ok prompt
    /\ str_contains (str_capitalize k ++ ": " ++ py_str v ++ nl) prompt = true.
Proof.
  intros Hin. exists (prompt_text d). split; [reflexivity |].
  unfold prompt_text.
  apply str_contains_app_r, str_contains_app_r, str_contains_app_l.
  apply str_contains_concat.
  apply (in_map (fun kv => (str_capitalize (fst kv) ++ ": "
                              ++ py_str (snd kv) ++ nl)%string) d (k, v) Hin).
Qed.

Lemma prefix_app_both (a x y : string) :
  String.prefix x y = true -> String.prefix (a ++ x) (a ++ y) = true.
Proof.
  intros H. induction a as [| c a IH]; [exact H |].
  cbn. destruct (ascii_dec c c) as [_ | Hc]; [exact IH | now contradiction Hc].
Qed.

Lemma str_contains_of_prefix (sub s : string) :
  String.prefix sub s = true -> str_contains sub s = true.
Proof. intros H. rewrite str_contains_unfold. now rewrite H. Qed.

(** X2. The prompt of a detail lookup holds the diagnosis between
    double quotes, followed by the species and the breed. *)
Theorem details_prompt_names_the_triple (diagnosis species breed : pyval) :
  str_contains (quoted (py_str diagnosis) ++ " in " ++ py_str species
                  ++ " (breed: " ++ py_str breed ++ ")")
    (details_prompt diagnosis species breed) = true.
Proof.
  unfold details_prompt.
  apply str_contains_app_r, str_contains_of_prefix.
  apply prefix_app_both, (prefix_app_both " in "), prefix_app_both.
  apply (prefix_app_both " (breed: "), prefix_app_both.
  reflexivity.
Qed.

(** ** The shape of the fallback match *)

Lemma find_last_none (c : ascii) (t : string) :
  find_last c t = None -> str_mem c t = false.
Proof.
  induction t as [| a t IH]; [reflexivity |].
  cbn [find_last str_mem].
  destruct (find_last c t); [discriminate |].
  destruct (Ascii.eqb a c); [discriminate |].
  intros _. now apply IH.
Qed.

Lemma find_last_split (c : ascii) (t : string) (j : nat) :
  find_last c t = Some j ->
  exists mid post,
    t = (mid ++ String c post)%string
    /\ substring 0 (S j) t = (mid ++ String c EmptyString)%string
    /\ str_mem c post = false.
Proof.
  revert j. induction t as [| a t IH]; intros j H; [discriminate |].
  cbn [find_last] in H.
  destruct (find_last c t) as [j' |] eqn:E.
  - injection H as <-.
    destruct (IH j' eq_refl) as (mid & post & Ht & Hs & Hp).
    exists (String a mid), post. repeat split.
    + cbn [append]. now rewrite <- Ht.
    + cbn [substring append]. now rewrite Hs.
    + exact Hp.
  - destruct (Ascii.eqb a c) eqn:Ea; [| discriminate].
    injection H as <-. apply Ascii.eqb_eq in Ea. subst a.
    exists EmptyString, t. repeat split.
    + cbn [substring]. now destruct t.
    + now apply find_last_none.
Qed.

Lemma find_last_app (c : ascii) (mid post : string) :
  str_mem c post = false ->
  find_last c (mid ++ String c post) = Some (String.length mid).
Proof.
  intros Hp. induction mid as [| a mid IH]; cbn [append find_last String.length].
  - assert (Hn : find_last c post = None).
    { clear -Hp. induction post as [| b post IH]; [reflexivity |].
      cbn [str_mem] in Hp. apply orb_false_iff in Hp. destruct Hp as [Hb Hp].
      cbn [find_last]. now rewrite (IH Hp), Hb. }
    now rewrite Hn, Ascii.eqb_refl.
  - now rewrite IH.
Qed.

Lemma substring_app_through (c : ascii) (mid post : string) :
  substring 0 (S (String.length mid)) (mid ++ String c post)
  = (mid ++ String c EmptyString)%string.
Proof.
  induction mid as [| a mid IH]; cbn [append String.length substring].
  - now destruct post.
  - now rewrite IH.
Qed.

Lemma match_here_tail_through (mid post : string) :
  str_mem "}" post = false ->
  match_here tail_re (mid ++ String "}" post)
  = Some (mid ++ String "}" EmptyString)%string.
Proof.
  intros Hp. rewrite match_here_tail, (find_last_app _ mid post Hp).
  now rewrite substring_app_through.
Qed.

(** X3. The pattern matches exactly when the text holds an opening
    brace with a closing brace somewhere after it, and the match then
    runs from the first opening brace of the text through its last
    closing brace. *)
Theorem fallback_match_shape (s m : string) :
  re_search brace_re s = Some m
  <-> exists pre mid post,
        s = (pre ++ String "{" (mid ++ String "}" post))%string
        /\ m = String "{" (mid ++ String "}" EmptyString)
        /\ str_mem "{" pre = false
        /\ str_mem "}" post = false.
Proof.
  split.
  - revert m. induction s as [| c s IH]; intros m H; [discriminate |].
    cbn [re_search] in H. rewrite match_here_brace_cons in H.
    destruct (Ascii.eqb "{" c) eqn:Hc.
    + apply Ascii.eqb_eq in Hc. subst c.
      rewrite match_here_tail in H.
      destruct (find_last "}" s) as [j |] eqn:E.
      * cbn [option_map] in H. injection H as <-.
        destruct (find_last_split _ _ _ E) as (mid & post & Hs & Hsub & Hp).
        exists EmptyString, mid, post. rewrite Hsub. cbn [append].
        repeat split; [now rewrite <- Hs | exact Hp].
      * cbn [option_map] in H.
        now rewrite (re_search_no_closing s E) in H.
    + destruct (IH m H) as (pre & mid & post & Hs & Hm & Hpre & Hp).
      exists (String c pre), mid, post. cbn [append str_mem].
      rewrite (Ascii.eqb_sym c "{"), Hc, <- Hs. repeat split; assumption.
  - intros (pre & mid & post & -> & -> & Hpre & Hp).
    induction pre as [| c pre IH]; cbn [append re_search].
    + rewrite match_here_brace_cons, Ascii.eqb_refl.
      now rewrite (match_here_tail_through mid post Hp).
    + cbn [str_mem] in Hpre. apply orb_false_iff in Hpre.
      destruct Hpre as [Hc Hpre].
      rewrite match_here_brace_cons, (Ascii.eqb_sym "{" c), Hc.
      now apply IH.
Qed.

(** X4. A text that starts with an opening brace and ends with a
    closing one is its own fallback match: when decoding it as a whole
    raises [JSONDecodeError], the second stage decodes the same text
    again and the coercer returns the failure value.  The coercer
    returns the decoding when there is one and raises whatever else
    [json.loads] raises. *)
Theorem brace_delimited_text_gets_no_second_chance (mid : string) :
  re_search brace_re (String "{" (mid ++ String "}" EmptyString))
  = Some (String "{" (mid ++ String "}" EmptyString))
  /\ process_response (Some (String "{" (mid ++ String "}" EmptyString)))
     = match json_loads (String "{" (mid ++ String "}" EmptyString)) with
       | Decoded v => Ok v
       | JSONDecodeError => Ok PNone
       | Crashed c => Raise (crash_exn c)
       end.
Proof.
  assert (H : re_search brace_re (String "{" (mid ++ String "}" EmptyString))
              = Some (String "{" (mid ++ String "}" EmptyString))).
  { cbn [re_search]. rewrite match_here_brace_cons, Ascii.eqb_refl.
    now rewrite (match_here_tail_through mid EmptyString eq_refl). }
  split; [exact H |].
  unfold process_response. rewrite H.
  destruct (json_loads (String "{" (mid ++ String "}" EmptyString)));
    reflexivity.
Qed.

(** ** The clients under the retry policy *)

Lemma retry_twice {A : Type} (f : M A) (w : world) :
  retry wait_policy max_attempts f w =
    match f w with
    | (Ok a, w1) => (Ok a, w1)
    | (Raise _, w1) =>
        match f (mkWorld (calls w1) (2%Z :: sleeps w1) (cache w1)) with
        | (Ok a, w2) => (Ok a, w2)
        | (Raise e2, w2) => (Raise (RetryError (future_id (calls w2)) e2), w2)
        end
    end.
Proof.
  unfold retry, max_attempts. cbn [Nat.sub retry_loop].
  destruct (f w) as [[a | e] w1]; [reflexivity |].
  cbn [sleep]. change (wait_policy 1) with 2%Z.
  destruct (f _) as [[a | e2] w2]; reflexivity.
Qed.

Lemma except_OpenAIError_harmless_or_unavailable (oe : openai_error) :
  except_OpenAIError (OpenAIError oe) = PyException Exn_unavailable
  \/ (except_OpenAIError (OpenAIError oe) = OpenAIError oe
      /\ status_code oe <> Some 503%Z).
Proof.
  unfold except_OpenAIError. destruct (status_code oe) as [code |].
  - destruct (Z.eqb_spec code 503) as [-> | Hne]; [now left | right].
    split; [reflexivity | congruence].
  - right. split; [reflexivity | discriminate].
Qed.

(** X5. Whatever error the first attempt meets, a 503 included, the
    client makes a second call after one wait of 2 seconds, and when
    that call is answered the client returns its content. *)
Theorem model_client_retries_any_error_once (prompt : string) (w : world)
    (e1 : openai_error) (c : option string) :
  provider (calls w) prompt = Fail e1 ->
  provider (S (calls w)) prompt = Reply c ->
  query_openrouter prompt w
  = (Ok c, mkWorld (S (S (calls w))) (2%Z :: sleeps w) (cache w)).
Proof.
  intros H1 H2. unfold query_openrouter. rewrite retry_twice.
  unfold query_openrouter_attempt, try_except, create.
  rewrite H1. cbn [calls sleeps cache]. now rewrite H2.
Qed.

(** X6. The client of [/diagnose] raises only after two failed calls
    and one wait of 2 seconds, and what it raises is always a
    [RetryError]: around the "temporarily unavailable" exception when
    the second error had status 503, around the provider error itself
    otherwise.  Its text never holds the phrase the handlers test for. *)
Theorem model_client_raises_only_retry_error (prompt : string) (w w' : world)
    (e : exn) :
  query_openrouter prompt w = (Raise e, w') ->
  exists e1 e2,
    provider (calls w) prompt = Fail e1
    /\ provider (S (calls w)) prompt = Fail e2
    /\ e = RetryError (future_id (S (S (calls w))))
             (except_OpenAIError (OpenAIError e2))
    /\ (except_OpenAIError (OpenAIError e2) = PyException Exn_unavailable
        \/ (except_OpenAIError (OpenAIError e2) = OpenAIError e2
            /\ status_code e2 <> Some 503%Z))
    /\ w' = mkWorld (S (S (calls w))) (2%Z :: sleeps w) (cache w)
    /\ harmless e.
Proof.
  unfold query_openrouter. rewrite retry_twice.
  unfold query_openrouter_attempt, try_except, create.
  destruct (provider (calls w) prompt) as [c1 | e1] eqn:H1; [discriminate |].
  cbn [calls sleeps cache].
  destruct (provider (S (calls w)) prompt) as [c2 | e2] eqn:H2; [discriminate |].
  intros [= <- <-]. exists e1, e2. repeat split.
  - apply except_OpenAIError_harmless_or_unavailable.
  - apply retry_error_hides_phrase.
Qed.

Lemma details_client_twice (diagnosis species breed : pyval) (w : world)
    (e : exn) (r : result pyval) :
  fst (query_veterinary_details_attempt diagnosis species breed w) = Raise e ->
  fst (query_veterinary_details_attempt diagnosis species breed
         (mkWorld (S (calls w)) (2%Z :: sleeps w) (cache w))) = r ->
  query_veterinary_details_retrying diagnosis species breed w
  = (match r with
     | Ok v => Ok v
     | Raise e2 => Raise (RetryError (future_id (S (S (calls w)))) e2)
     end,
     mkWorld (S (S (calls w))) (2%Z :: sleeps w) (cache w)).
Proof.
  intros H1 H2. unfold query_veterinary_details_retrying.
  rewrite retry_twice.
  destruct (details_attempt_one_call diagnosis species breed w)
    as (Hc & Hs & Hk).
  destruct (query_veterinary_details_attempt diagnosis species breed w)
    as [[v | e0] w1]; cbn [fst snd] in *; [discriminate |].
  rewrite Hc, Hs, Hk.
  destruct (details_attempt_one_call diagnosis species breed
              (mkWorld (S (calls w)) (2%Z :: sleeps w) (cache w)))
    as (Hc2 & Hs2 & Hk2).
  destruct (query_veterinary_details_attempt diagnosis species breed
              (mkWorld (S (calls w)) (2%Z :: sleeps w) (cache w)))
    as [r2 w2]; cbn [fst snd calls sleeps cache] in *.
  subst r2. destruct w2 as [n sl ca]. cbn [calls sleeps cache] in *.
  subst. destruct r; reflexivity.
Qed.

(** X7. A reply without content is handled differently by the two
    endpoints.  In [/diagnose] the coercion runs after the retrying
    client, so the request ends with the generic 500 after one call.
    In the detail lookup the coercion runs inside the retried body, so
    the provider is called again after 2 seconds and a decodable second
    reply is returned. *)
Theorem missing_content_is_retried_only_for_details (d : dict)
    (diagnosis species breed : pyval) (w : world) (content : string)
    (v : pyval) :
  (key_configured = true ->
   provider (calls w) (prompt_text d) = Reply None ->
   diagnose (PDict d) w
   = (unexpected_error, mkWorld (S (calls w)) (sleeps w) (cache w)))
  /\ (provider (calls w) (details_prompt diagnosis species breed) = Reply None ->
      provider (S (calls w)) (details_prompt diagnosis species breed)
      = Reply (Some content) ->
      process_response (Some content) = Ok v ->
      query_veterinary_details_retrying diagnosis species breed w
      = (Ok v, mkWorld (S (S (calls w))) (2%Z :: sleeps w) (cache w))).
Proof.
  split.
  - intros Hk Hp.
    unfold diagnose, run_handler, mbind, lift, create_prompt, diagnose_collect.
    rewrite Hk. unfold mbind. rewrite (query_openrouter_reply _ _ _ Hp).
    unfold lift. reflexivity.
  - intros H1 H2 Hv.
    rewrite (details_client_twice diagnosis species breed w
               (TypeError "the JSON object must be str, bytes or bytearray, not NoneType")
               (Ok v)); [reflexivity | |].
    + unfold query_veterinary_details_attempt, try_except, mbind, lift, create.
      rewrite H1. reflexivity.
    + unfold query_veterinary_details_attempt, try_except, mbind, lift, create.
      cbn [calls]. rewrite H2, Hv. reflexivity.
Qed.

(** ** Extraction and ranking *)

Lemma diagnose_no_results (d : dict) (w : world) (content : option string)
    (reply : pyval) :
  key_configured = true ->
  provider (calls w) (prompt_text d) = Reply content ->
  process_response content = Ok reply ->
  truthy reply = true ->
  get_diagnoses reply = Ok [] ->
  diagnose (PDict d) w
  = (parse_failure, mkWorld (S (calls w)) (sleeps w) (cache w)).
Proof.
  intros Hk Hp Hr Ht He.
  unfold diagnose, run_handler, mbind, lift, create_prompt, diagnose_collect.
  rewrite Hk. unfold mbind. rewrite (query_openrouter_reply _ _ _ Hp).
  unfold lift. rewrite Hr, Ht. unfold mbind. rewrite He. reflexivity.
Qed.

(** X8. A reply that decodes to a non-empty object without a
    [conditions] key, or with an empty conditions list, yields no
    results, and [/diagnose] answers 500 with the parse-failure message
    after one provider call. *)
Theorem diagnose_reply_without_conditions (d r : dict) (w : world)
    (content : option string) :
  key_configured = true ->
  provider (calls w) (prompt_text d) = Reply content ->
  process_response content = Ok (PDict r) ->
  r <> [] ->
  dict_get "conditions" r = None \/ dict_get "conditions" r = Some (PList []) ->
  get_diagnoses (PDict r) = Ok []
  /\ diagnose (PDict d) w
     = (parse_failure, mkWorld (S (calls w)) (sleeps w) (cache w)).
Proof.
  intros Hk Hp Hr Hne Hc.
  assert (Ht : truthy (PDict r) = true) by (destruct r; [congruence | reflexivity]).
  assert (He : get_diagnoses (PDict r) = Ok []).
  { destruct Hc as [Hc | Hc].
    - unfold get_diagnoses. rewrite Ht. cbn [py_in rbind]. unfold dict_mem.
      now rewrite Hc.
    - now rewrite (get_diagnoses_conditions_list r [] Hc). }
  split; [exact He |].
  eapply diagnose_no_results; eassumption.
Qed.

Lemma extract_condition_of (c : pyval) :
  has_name_and_likelihood c = true ->
  extract_condition c = Ok (condition_of c).
Proof.
  destruct c as [| | | | | | e]; try discriminate.
  unfold has_name_and_likelihood, dict_mem. intros H.
  destruct (dict_get "name" e) as [n |] eqn:En; [| discriminate].
  destruct (dict_get "likelihood" e) as [l |] eqn:El; [| discriminate].
  rewrite (extract_condition_default e n l En El).
  unfold condition_of, field. now rewrite En, El.
Qed.

Lemma extract_all_conditions (cs : list pyval) :
  Forall (fun c => has_name_and_likelihood c = true) cs ->
  map_result extract_condition cs = Ok (map condition_of cs).
Proof.
  induction 1 as [| c cs Hx _ IH]; [reflexivity |].
  cbn [map_result map]. rewrite (extract_condition_of c Hx), IH.
  reflexivity.
Qed.

(** X9. When every entry of the conditions list is an object with
    [name] and [likelihood], extraction returns one entry per
    condition, in the order of the reply, holding the reply's name and
    likelihood unchanged and nothing of the entry's other keys. *)
Theorem get_diagnoses_copies_entries (d : dict) (cs : list pyval) :
  dict_get "conditions" d = Some (PList cs) ->
  Forall (fun c => has_name_and_likelihood c = true) cs ->
  get_diagnoses (PDict d) = Ok (map condition_of cs)
  /\ forall rs, get_diagnoses (PDict d) = Ok rs ->
       List.length rs = List.length cs.
Proof.
  intros Hc Hall.
  assert (H : get_diagnoses (PDict d) = Ok (map condition_of cs)).
  { rewrite (get_diagnoses_conditions_list d cs Hc).
    now apply extract_all_conditions. }
  split; [exact H |].
  intros rs Hrs. rewrite H in Hrs. injection Hrs as <-. apply length_map.
Qed.

(** A single condition is reported whatever its likelihood is: no
    comparison is made. *)
Lemma single_condition_any_likelihood (c : Condition) :
  get_highest_ranked_diagnosis [c]
  = Ok (py_str (name c) ++ " (" ++ py_str (likelihood c) ++ "%)")%string.
Proof. reflexivity. Qed.

(** As soon as the second condition has a string where the first has a
    number as likelihood, the summarizer raises a [TypeError], whatever
    follows. *)
Lemma mixed_likelihoods_raise (a b : Condition) (rest : list Condition)
    (z : Z) (s : string) :
  likelihood a = PInt z ->
  likelihood b = PStr s ->
  get_highest_ranked_diagnosis (a :: b :: rest)
  = Raise (TypeError "'>' not supported between instances of 'str' and 'int'").
Proof.
  intros Ha Hb. unfold get_highest_ranked_diagnosis.
  cbn [max_from]. rewrite Ha, Hb. reflexivity.
Qed.








(** ** No exception of the handlers carries the phrase *)

Lemma not_supported_quiet (op : string) (a b : pyval) :
  str_mem "M" op = false ->
  str_mem "M" (exn_str (not_supported op a b)) = false.
Proof.
  intros Hop. unfold not_supported. cbn [exn_str].
  rewrite !str_mem_app, Hop, !type_name_quiet. reflexivity.
Qed.

Lemma py_lt_quiet (a : pyval) :
  forall b e, py_lt a b = Raise e -> str_mem "M" (exn_str e) = false.
Proof.
  induction a as [| b0 | z | f | s | l IH | d IH] using pyval_nested_ind;
    intros b e; destruct b as [| b1 | z1 | f1 | s1 | m | d1]; cbn [py_lt num_of dyadic_of];
    try discriminate;
    try (intros [= <-]; now apply not_supported_quiet).
  revert m. induction IH as [| x l Hx _ IHl]; intros m; destruct m as [| y m];
    try discriminate.
  destruct (py_eq x y); [apply IHl | apply Hx].
Qed.

Lemma py_gt_quiet (a : pyval) :
  forall b e, py_gt a b = Raise e -> str_mem "M" (exn_str e) = false.
Proof.
  induction a as [| b0 | z | f | s | l IH | d IH] using pyval_nested_ind;
    intros b e; destruct b as [| b1 | z1 | f1 | s1 | m | d1]; cbn [py_gt num_of dyadic_of];
    try discriminate;
    try (intros [= <-]; now apply not_supported_quiet).
  revert m. induction IH as [| x l Hx _ IHl]; intros m; destruct m as [| y m];
    try discriminate.
  destruct (py_eq x y); [apply IHl | apply Hx].
Qed.

Lemma quiet_harmless (e : exn) :
  str_mem "M" (exn_str e) = false -> harmless e.
Proof.
  intros H. unfold harmless, unavailable_phrase.
  now apply str_contains_needs_head.
Qed.

Lemma harmless_unexpected (e : exn) :
  harmless e -> handle_exception e = unexpected_error.
Proof. intros H. unfold handle_exception. now rewrite H. Qed.

Lemma mbind_inv {A B : Type} (m : M A) (k : A -> M B) (w w' : world)
    (r : result B) :
  mbind m k w = (r, w') ->
  (exists e, m w = (Raise e, w') /\ r = Raise e)
  \/ (exists a w1, m w = (Ok a, w1) /\ k a w1 = (r, w')).
Proof.
  unfold mbind. destruct (m w) as [[a | e] w1]; intros H.
  - right. now exists a, w1.
  - left. injection H as <- <-. now exists e.
Qed.

Lemma lift_inv {A : Type} (x : result A) (w w' : world) (r : result A) :
  lift x w = (r, w') -> r = x /\ w' = w.
Proof. unfold lift. now intros [= <- <-]. Qed.

Lemma max_from_quiet (l : list Condition) :
  forall best e, max_from best l = Raise e -> str_mem "M" (exn_str e) = false.
Proof.
  induction l as [| x l IH]; intros best e; cbn [max_from]; [discriminate |].
  destruct (py_gt (likelihood x) (likelihood best)) as [gt |] eqn:E;
    cbn [rbind].
  - apply IH.
  - intros [= <-]. eapply py_gt_quiet; exact E.
Qed.

Lemma insert_desc_quiet (x : Condition) (l : list Condition) (e : exn) :
  insert_desc x l = Raise e -> str_mem "M" (exn_str e) = false.
Proof.
  induction l as [| y l IH]; cbn [insert_desc]; [discriminate |].
  destruct (py_lt (likelihood x) (likelihood y)) as [[|] |] eqn:E;
    cbn [rbind]; try discriminate.
  - destruct (insert_desc x l); cbn [rbind]; [discriminate |].
    intros [= <-]. now apply IH.
  - intros [= <-]. eapply py_lt_quiet; exact E.
Qed.

Lemma sorted_desc_quiet (l : list Condition) (e : exn) :
  sorted_desc l = Raise e -> str_mem "M" (exn_str e) = false.
Proof.
  induction l as [| x l IH]; cbn [sorted_desc]; [discriminate |].
  destruct (sorted_desc l) as [s |]; cbn [rbind].
  - apply insert_desc_quiet.
  - intros [= <-]. now apply IH.
Qed.

Lemma summarizer_quiet (l : list Condition) (e : exn) :
  get_highest_ranked_diagnosis l = Raise e -> str_mem "M" (exn_str e) = false.
Proof.
  unfold get_highest_ranked_diagnosis.
  destruct l as [| first rest]; [discriminate |].
  destruct (max_from first rest) as [top |] eqn:Em; cbn [rbind].
  - destruct (Nat.leb 3 (List.length (first :: rest))); [| discriminate].
    destruct (sorted_desc (first :: rest)) as [s |] eqn:Es; cbn [rbind];
      [discriminate |].
    intros [= <-]. eapply sorted_desc_quiet; exact Es.
  - intros [= <-]. eapply max_from_quiet; exact Em.
Qed.

Lemma diagnose_respond_outcome (m : models) :
  match diagnose_respond m with
  | Ok r =>
      r = no_models_available (skipped_models m)
      \/ r = parse_failure
      \/ status r = 200%Z
  | Raise e => str_mem "M" (exn_str e) = false
  end.
Proof.
  unfold diagnose_respond.
  destruct (queried_models m); [now left |].
  destruct (results m) as [| c cs]; [right; now left |].
  destruct (get_highest_ranked_diagnosis (c :: cs)) as [final |] eqn:Ef;
    cbn [rbind]; [| eapply summarizer_quiet; exact Ef].
  destruct (py_getitem (openrouter_response m) "conditions") eqn:E1;
    cbn [rbind]; [| eapply py_getitem_quiet; [| exact E1]; reflexivity].
  destruct (py_getitem (openrouter_response m) "urgent") eqn:E2;
    cbn [rbind]; [| eapply py_getitem_quiet; [| exact E2]; reflexivity].
  destruct (py_getitem (openrouter_response m) "consult") eqn:E3;
    cbn [rbind]; [| eapply py_getitem_quiet; [| exact E3]; reflexivity].
  destruct (py_getitem (openrouter_response m) "homecare") eqn:E4;
    cbn [rbind]; [| eapply py_getitem_quiet; [| exact E4]; reflexivity].
  right. now right.
Qed.

Lemma decimal_digits_quiet (d : Decimal.uint) :
  str_mem "M" (DecimalString.NilEmpty.string_of_uint d) = false.
Proof. induction d; cbn; auto. Qed.

Lemma nat_to_string_quiet (n : nat) : str_mem "M" (nat_to_string n) = false.
Proof.
  unfold nat_to_string.
  destruct (Nat.to_uint n); try reflexivity;
    unfold DecimalString.NilZero.string_of_uint;
    apply decimal_digits_quiet.
Qed.

Lemma crash_exn_quiet (c : json_crash) :
  str_mem "M" (exn_str (crash_exn c)) = false.
Proof.
  destruct c as [[|] | n]; cbn [crash_exn exn_str]; try reflexivity.
  rewrite !str_mem_app, nat_to_string_quiet. reflexivity.
Qed.

Lemma process_response_quiet (content : option string) (e : exn) :
  process_response content = Raise e -> str_mem "M" (exn_str e) = false.
Proof.
  unfold process_response. destruct content as [text |].
  - destruct (json_loads text) as [v | | c]; [discriminate | |].
    + destruct (re_search brace_re text) as [m |]; [| discriminate].
      destruct (json_loads m) as [v | | c]; try discriminate.
      intros [= <-]. apply crash_exn_quiet.
    + intros [= <-]. apply crash_exn_quiet.
  - intros [= <-]. reflexivity.
Qed.

Lemma create_prompt_quiet (user_data : pyval) (e : exn) :
  create_prompt user_data = Raise e -> str_mem "M" (exn_str e) = false.
Proof.
  destruct user_data; cbn [create_prompt]; try discriminate;
    intros [= <-]; reflexivity.
Qed.

Lemma retry_raises_retry_error {A : Type} (f : M A) (w w' : world) (e : exn) :
  retry wait_policy max_attempts f w = (Raise e, w') ->
  exists addr last, e = RetryError addr last.
Proof.
  rewrite retry_twice.
  destruct (f w) as [[a | e1] w1]; [discriminate |].
  destruct (f _) as [[a | e2] w2]; [discriminate |].
  intros [= <- <-]. now eexists _, _.
Qed.

Lemma retry_raise_harmless {A : Type} (f : M A) (w w' : world) (e : exn) :
  retry wait_policy max_attempts f w = (Raise e, w') -> harmless e.
Proof.
  intros H. destruct (retry_raises_retry_error f w w' e H) as (addr & last & ->).
  apply retry_error_hides_phrase.
Qed.

Lemma diagnose_collect_raise (prompt : string) (w w' : world) (e : exn) :
  diagnose_collect prompt w = (Raise e, w') -> harmless e.
Proof.
  unfold diagnose_collect. destruct key_configured; [| discriminate].
  intros H. apply mbind_inv in H.
  destruct H as [(e0 & H & [= <-]) | (content & w1 & _ & H)].
  { eapply retry_raise_harmless. exact H. }
  apply mbind_inv in H.
  destruct H as [(e0 & H & [= <-]) | (reply & w2 & _ & H)].
  { apply lift_inv in H. destruct H as [H _].
    apply quiet_harmless. eapply process_response_quiet. symmetry. exact H. }
  destruct (truthy reply); [| discriminate].
  apply mbind_inv in H.
  destruct H as [(e0 & H & [= <-]) | (ds & w3 & _ & H)]; [| discriminate].
  apply lift_inv in H. destruct H as [H _].
  apply quiet_harmless. eapply get_diagnoses_quiet. symmetry. exact H.
Qed.

Lemma diagnose_try_outcome (user_data : pyval) (w : world) :
  match diagnose_try user_data w with
  | (Ok r, _) =>
      (exists skipped, r = no_models_available skipped)
      \/ r = parse_failure
      \/ status r = 200%Z
  | (Raise e, _) => harmless e
  end.
Proof.
  destruct (diagnose_try user_data w) as [r w'] eqn:H.
  unfold diagnose_try in H. apply mbind_inv in H.
  destruct H as [(e0 & H & ->) | (prompt & w1 & _ & H)].
  { apply lift_inv in H. destruct H as [H _].
    apply quiet_harmless. eapply create_prompt_quiet. symmetry. exact H. }
  apply mbind_inv in H.
  destruct H as [(e0 & H & ->) | (m & w2 & _ & H)].
  { eapply diagnose_collect_raise. exact H. }
  apply lift_inv in H. destruct H as [-> _].
  pose proof (diagnose_respond_outcome m) as Hm.
  destruct (diagnose_respond m) as [r | e].
  - destruct Hm as [-> | [-> | Hm]]; [left; now eexists | right; now left |].
    right. now right.
  - now apply quiet_harmless.
Qed.

(** ** The answers of [/diagnose] *)

Lemma diagnose_is_run_handler (user_data : pyval) (w : world) :
  diagnose user_data w = run_handler (diagnose_try user_data) w.
Proof. reflexivity. Qed.

Lemma diagnose_with_results (d : dict) (w : world) (content : option string)
    (reply : pyval) (c : Condition) (cs : list Condition) :
  key_configured = true ->
  provider (calls w) (prompt_text d) = Reply content ->
  process_response content = Ok reply ->
  truthy reply = true ->
  get_diagnoses reply = Ok (c :: cs) ->
  diagnose (PDict d) w
  = (match diagnose_respond (mkModels reply (c :: cs) ["OpenRouter"] []) with
     | Ok r => r
     | Raise e => handle_exception e
     end,
     mkWorld (S (calls w)) (sleeps w) (cache w)).
Proof.
  intros Hk Hp Hr Ht He.
  unfold diagnose, run_handler, mbind, lift, create_prompt, diagnose_collect.
  rewrite Hk. unfold mbind. rewrite (query_openrouter_reply _ _ _ Hp).
  unfold lift. rewrite Hr, Ht. unfold mbind. rewrite He. unfold mret.
  cbn [app]. destruct (diagnose_respond _); reflexivity.
Qed.


Lemma dict_with_key_is_truthy (r : dict) (k : string) (v : pyval) :
  dict_get k r = Some v -> truthy (PDict r) = true.
Proof. destruct r; [discriminate | reflexivity]. Qed.


(** X14. A reply with a single condition is answered 200 whatever its
    likelihood is: with one entry the summarizer compares nothing, so a
    string such as ["high"] is printed as it stands. *)
Theorem diagnose_single_condition_any_likelihood (d r e : dict) (w : world)
    (content : option string) (n l urgent consult homecare : pyval) :
  key_configured = true ->
  provider (calls w) (prompt_text d) = Reply content ->
  process_response content = Ok (PDict r) ->
  dict_get "conditions" r = Some (PList [PDict e]) ->
  dict_get "name" e = Some n ->
  dict_get "likelihood" e = Some l ->
  dict_get "urgent" r = Some urgent ->
  dict_get "consult" r = Some consult ->
  dict_get "homecare" r = Some homecare ->
  diagnose (PDict d) w
  = (mkResponse 200
       (diagnosis_body (py_str n ++ " (" ++ py_str l ++ "%)")
          (PList [PDict e]) urgent consult homecare),
     mkWorld (S (calls w)) (sleeps w) (cache w)).
Proof.
  intros Hk Hp Hr Hc Hn Hl Hu Hco Hh.
  assert (Hg : get_diagnoses (PDict r)
               = Ok [mkCondition n l (field "explanation" (PStr EmptyString) e)]).
  { rewrite (get_diagnoses_conditions_list r _ Hc). cbn [map_result].
    rewrite (extract_condition_default e n l Hn Hl). reflexivity. }
  rewrite (diagnose_with_results d w content (PDict r) _ _ Hk Hp Hr
             (dict_with_key_is_truthy r _ _ Hc) Hg).
  unfold diagnose_respond.
  cbn [queried_models results openrouter_response skipped_models].
  cbn [get_highest_ranked_diagnosis max_from rbind List.length Nat.leb
         py_getitem].
  rewrite Hc, Hu, Hco, Hh. reflexivity.
Qed.

(** X15. When the reply yields conditions but lacks one of [urgent],
    [consult] and [homecare], building the answer raises [KeyError] and
    [/diagnose] answers with the generic 500. *)
Theorem diagnose_reply_missing_field (d r : dict) (w : world)
    (content : option string) (c : Condition) (cs : list Condition) :
  key_configured = true ->
  provider (calls w) (prompt_text d) = Reply content ->
  process_response content = Ok (PDict r) ->
  get_diagnoses (PDict r) = Ok (c :: cs) ->
  dict_get "urgent" r = None \/ dict_get "consult" r = None
  \/ dict_get "homecare" r = None ->
  diagnose (PDict d) w
  = (unexpected_error, mkWorld (S (calls w)) (sleeps w) (cache w)).
Proof.
  intros Hk Hp Hr Hg Hmiss.
  assert (Ht : truthy (PDict r) = true).
  { destruct r; [| reflexivity]. discriminate Hg. }
  rewrite (diagnose_with_results d w content (PDict r) c cs Hk Hp Hr Ht Hg).
  f_equal.
  pose proof (diagnose_respond_outcome
                (mkModels (PDict r) (c :: cs) ["OpenRouter"] [])) as Hout.
  destruct (diagnose_respond (mkModels (PDict r) (c :: cs) ["OpenRouter"] []))
    as [resp | e] eqn:E.
  - exfalso. unfold diagnose_respond in E.
    cbn [queried_models results openrouter_response skipped_models] in E.
    destruct (get_highest_ranked_diagnosis (c :: cs)); cbn [rbind] in E;
      [| discriminate].
    cbn [py_getitem] in E.
    destruct (dict_get "conditions" r); cbn [rbind] in E; [| discriminate].
    destruct (dict_get "urgent" r) eqn:Eu; cbn [rbind] in E; [| discriminate].
    destruct (dict_get "consult" r) eqn:Ec; cbn [rbind] in E; [| discriminate].
    destruct (dict_get "homecare" r) eqn:Eh; cbn [rbind] in E; [| discriminate].
    destruct Hmiss as [H | [H | H]]; discriminate H.
  - apply harmless_unexpected, quiet_harmless. exact Hout.
Qed.

(** X16. When the first condition has a number and the second a string
    as likelihood, ranking raises [TypeError] and [/diagnose] answers
    with the generic 500, however many conditions follow. *)
Theorem diagnose_mixed_likelihoods (d r e1 e2 : dict) (w : world)
    (content : option string) (cs : list pyval) (z : Z) (s : string) :
  key_configured = true ->
  provider (calls w) (prompt_text d) = Reply content ->
  process_response content = Ok (PDict r) ->
  dict_get "conditions" r = Some (PList (PDict e1 :: PDict e2 :: cs)) ->
  Forall (fun c => has_name_and_likelihood c = true)
         (PDict e1 :: PDict e2 :: cs) ->
  dict_get "likelihood" e1 = Some (PInt z) ->
  dict_get "likelihood" e2 = Some (PStr s) ->
  diagnose (PDict d) w
  = (unexpected_error, mkWorld (S (calls w)) (sleeps w) (cache w)).
Proof.
  intros Hk Hp Hr Hc Hall H1 H2.
  assert (Hg : get_diagnoses (PDict r)
               = Ok (condition_of (PDict e1)
                       :: condition_of (PDict e2) :: map condition_of cs)).
  { rewrite (get_diagnoses_conditions_list r _ Hc).
    now apply (extract_all_conditions (PDict e1 :: PDict e2 :: cs)). }
  rewrite (diagnose_with_results d w content (PDict r) _ _ Hk Hp Hr
             (dict_with_key_is_truthy r _ _ Hc) Hg).
  unfold diagnose_respond.
  cbn [queried_models results openrouter_response skipped_models].
  rewrite (mixed_likelihoods_raise (condition_of (PDict e1))
             (condition_of (PDict e2)) (map condition_of cs) z s).
  - reflexivity.
  - cbn [condition_of likelihood]. unfold field. now rewrite H1.
  - cbn [condition_of likelihood]. unfold field. now rewrite H2.
Qed.

(** X17. Whatever the request and the provider do, [/diagnose] answers
    200, 500 or 503; a 503 is always the "no models" answer with its
    skipped list, never the "high demand" answer the handler holds
    ready. *)
Theorem diagnose_never_answers_high_demand (user_data : pyval) (w : world) :
  fst (diagnose user_data w) <> high_demand
  /\ (status (fst (diagnose user_data w)) = 200%Z
      \/ status (fst (diagnose user_data w)) = 500%Z
      \/ status (fst (diagnose user_data w)) = 503%Z)
  /\ (status (fst (diagnose user_data w)) = 503%Z ->
      exists skipped, fst (diagnose user_data w) = no_models_available skipped).
Proof.
  rewrite diagnose_is_run_handler. unfold run_handler.
  pose proof (diagnose_try_outcome user_data w) as H.
  destruct (diagnose_try user_data w) as [[r | e] w']; cbn [fst].
  - destruct H as [(skipped & ->) | [-> | H]].
    + split; [discriminate |]. split; [right; now right |].
      intros _. now exists skipped.
    + split; [discriminate |]. split; [right; now left |]. discriminate.
    + split; [intros ->; discriminate |]. split; [now left |].
      rewrite H. discriminate.
  - rewrite (harmless_unexpected e H).
    split; [discriminate |]. split; [right; now left | discriminate].
Qed.

(** ** The answers of [/veterinary-details] *)

Lemma veterinary_details_cases (data : dict) (w : world) :
  veterinary_details (PDict data) w =
    if negb (truthy (field "diagnosis" PNone data)) then (diagnosis_required, w)
    else if key_configured then
      match query_veterinary_details (field "diagnosis" PNone data)
              (field "species" (PStr "Unknown") data)
              (field "breed" (PStr "Mixed") data) w with
      | (Ok details, w1) =>
          (if truthy details
           then mkResponse 200
                  (details_body (field "diagnosis" PNone data)
                     (field "species" (PStr "Unknown") data)
                     (field "breed" (PStr "Mixed") data) details)
           else details_parse_failure, w1)
      | (Raise e, w1) => (handle_exception e, w1)
      end
    else (no_models_for_details ["OpenRouter (no API key)"], w).
Proof.
  unfold veterinary_details, run_handler, mbind, lift.
  rewrite !py_get_dict.
  destruct (truthy (field "diagnosis" PNone data)); cbn [negb];
    [| reflexivity].
  unfold mbind. destruct key_configured; [| reflexivity].
  unfold mbind.
  destruct (query_veterinary_details _ _ _ w) as [[details | e] w1];
    [| reflexivity].
  cbn [mret]. destruct (truthy details); reflexivity.
Qed.

Lemma py_hash_quiet (v : pyval) (e : exn) :
  py_hash v = Raise e -> str_mem "M" (exn_str e) = false.
Proof.
  destruct v; cbn [py_hash]; try discriminate; intros [= <-]; reflexivity.
Qed.

Lemma make_key_quiet (a b c : pyval) (e : exn) :
  make_key a b c = Raise e -> str_mem "M" (exn_str e) = false.
Proof.
  unfold make_key.
  destruct (py_hash a) eqn:Ea; cbn [rbind];
    [| intros [= <-]; eapply py_hash_quiet; exact Ea].
  destruct (py_hash b) eqn:Eb; cbn [rbind];
    [| intros [= <-]; eapply py_hash_quiet; exact Eb].
  destruct (py_hash c) eqn:Ec; cbn [rbind];
    [discriminate | intros [= <-]; eapply py_hash_quiet; exact Ec].
Qed.

Lemma lookup_raise (a b c : pyval) (w w' : world) (e : exn) :
  query_veterinary_details a b c w = (Raise e, w') ->
  harmless e
  /\ cache w' = cache w
  /\ (is_ok (make_key a b c) = false -> w' = w)
  /\ (is_ok (make_key a b c) = true ->
      exists addr last, e = RetryError addr last).
Proof.
  unfold query_veterinary_details, lru_cache.
  destruct (make_key a b c) as [k | e0] eqn:Ek.
  - destruct (cache_lookup k (cache w)); [discriminate |].
    pose proof (details_retrying_keeps_cache a b c w) as Hc.
    destruct (query_veterinary_details_retrying a b c w) as [[v | e1] w1] eqn:Eq;
      [discriminate |].
    intros [= <- <-]. cbn [snd] in Hc. cbn [is_ok].
    unfold query_veterinary_details_retrying in Eq.
    repeat split.
    + eapply retry_raise_harmless. exact Eq.
    + exact Hc.
    + discriminate.
    + intros _. eapply retry_raises_retry_error. exact Eq.
  - intros [= <- <-]. cbn [is_ok]. repeat split.
    + apply quiet_harmless. eapply make_key_quiet. exact Ek.
    + discriminate.
Qed.

Lemma lookup_miss_calls (a b c : pyval) (w : world) (k : cache_key) :
  make_key a b c = Ok k ->
  cache_lookup k (cache w) = None ->
  calls w < calls (snd (query_veterinary_details a b c w)).
Proof.
  intros Hk Hl. unfold query_veterinary_details, lru_cache.
  rewrite Hk, Hl.
  destruct (retry_policy_effects
              (query_veterinary_details_attempt a b c) w
              (details_attempt_one_call a b c)) as ((Hlt & _) & _).
  fold (query_veterinary_details_retrying a b c w) in Hlt.
  destruct (query_veterinary_details_retrying a b c w) as [[v | e] w1];
    cbn [snd calls] in *; exact Hlt.
Qed.

(** X18. The diagnosis is checked before anything else: a request
    object whose diagnosis is missing or falsy (an empty string, [null],
    0, [false], an empty list or object) is answered 400 whether or not
    a credential is configured, and the world is left as it is. *)
Theorem veterinary_details_checks_diagnosis_first (data : dict) (w : world) :
  truthy (field "diagnosis" PNone data) = false ->
  veterinary_details (PDict data) w = (diagnosis_required, w).
Proof.
  intros H. rewrite veterinary_details_cases, H. reflexivity.
Qed.

(** X19. Without a credential a request with a diagnosis is answered
    503 with the message "No AI models available" and
    ["OpenRouter (no API key)"] as skipped model; neither the provider
    nor the store is touched. *)
Theorem veterinary_details_without_credential (data : dict) (w : world) :
  key_configured = false ->
  truthy (field "diagnosis" PNone data) = true ->
  veterinary_details (PDict data) w
  = (no_models_for_details ["OpenRouter (no API key)"], w).
Proof.
  intros Hk Ht. rewrite veterinary_details_cases, Ht, Hk. reflexivity.
Qed.

(** X20. With a credential, the answer follows the truth value of what
    the lookup returns: a truthy object is answered 200 with the triple
    and the details; every falsy value, the empty object as much as
    [None], is answered 500 with the parse-failure message.  A fresh
    lookup that returns leaves its result in the store either way. *)
Theorem veterinary_details_answer_follows_details (data : dict) (w w1 : world)
    (details : pyval) (k : cache_key) :
  key_configured = true ->
  truthy (field "diagnosis" PNone data) = true ->
  make_key (field "diagnosis" PNone data)
           (field "species" (PStr "Unknown") data)
           (field "breed" (PStr "Mixed") data) = Ok k ->
  query_veterinary_details (field "diagnosis" PNone data)
    (field "species" (PStr "Unknown") data)
    (field "breed" (PStr "Mixed") data) w = (Ok details, w1) ->
  veterinary_details (PDict data) w
  = (if truthy details
     then mkResponse 200
            (details_body (field "diagnosis" PNone data)
               (field "species" (PStr "Unknown") data)
               (field "breed" (PStr "Mixed") data) details)
     else details_parse_failure, w1)
  /\ cache_lookup k (cache w1) = Some details.
Proof.
  intros Hk Ht Hkey Hq. split.
  - rewrite veterinary_details_cases, Ht, Hk. cbn [negb]. now rewrite Hq.
  - eapply lookup_stores_result; eassumption.
Qed.

(** X21. A field of the triple that is a list or an object cannot be
    hashed: with a credential and a truthy diagnosis the lookup raises
    before any provider call, the endpoint answers with the generic 500
    and the world is left as it is. *)
Theorem veterinary_details_unhashable_field (data : dict) (w : world) :
  key_configured = true ->
  truthy (field "diagnosis" PNone data) = true ->
  is_ok (make_key (field "diagnosis" PNone data)
                  (field "species" (PStr "Unknown") data)
                  (field "breed" (PStr "Mixed") data)) = false ->
  veterinary_details (PDict data) w = (unexpected_error, w).
Proof.
  intros Hk Ht Hu. rewrite veterinary_details_cases, Ht, Hk. cbn [negb].
  destruct (query_veterinary_details _ _ _ w) as [[details | e] w1] eqn:Eq.
  - exfalso. pose proof (lookup_outcome (field "diagnosis" PNone data)
                           (field "species" (PStr "Unknown") data)
                           (field "breed" (PStr "Mixed") data) w) as H.
    rewrite Eq in H. destruct H as (k & Hkey & _).
    rewrite Hkey in Hu. discriminate.
  - destruct (lookup_raise _ _ _ _ _ _ Eq) as (Hh & _ & Hw & _).
    rewrite (Hw Hu), (harmless_unexpected e Hh). reflexivity.
Qed.

(** X22. A lookup that raises stores nothing: the store is as before,
    the exception is a [RetryError] the endpoint answers with the
    generic 500, and as the key is still absent the next lookup for the
    same triple calls the provider again. *)
Theorem failed_lookup_is_not_cached (a b c : pyval) (w w1 : world)
    (k : cache_key) (e : exn) :
  make_key a b c = Ok k ->
  cache_lookup k (cache w) = None ->
  query_veterinary_details a b c w = (Raise e, w1) ->
  cache w1 = cache w
  /\ (exists addr last, e = RetryError addr last)
  /\ handle_exception e = unexpected_error
  /\ calls w1 = calls w + 2
  /\ calls w1 < calls (snd (query_veterinary_details a b c w1)).
Proof.
  intros Hk Hl Hq.
  destruct (lookup_raise a b c w w1 e Hq) as (Hh & Hc & _ & Hr).
  split; [exact Hc |]. split; [apply Hr; now rewrite Hk |].
  split; [now apply harmless_unexpected |]. split.
  - unfold query_veterinary_details, lru_cache in Hq. rewrite Hk, Hl in Hq.
    unfold query_veterinary_details_retrying in Hq.
    rewrite retry_twice in Hq.
    destruct (details_attempt_one_call a b c w) as (Hc1 & _ & _).
    destruct (query_veterinary_details_attempt a b c w) as [[v | e1] w2];
      [discriminate |].
    cbn [snd] in Hc1.
    destruct (details_attempt_one_call a b c
                (mkWorld (calls w2) (2%Z :: sleeps w2) (cache w2)))
      as (Hc2 & _ & _).
    destruct (query_veterinary_details_attempt a b c
                (mkWorld (calls w2) (2%Z :: sleeps w2) (cache w2)))
      as [[v | e2] w3]; [discriminate |].
    cbn [snd calls] in Hc2. injection Hq as _ <-. lia.
  - apply (lookup_miss_calls a b c w1 k Hk). now rewrite Hc.
Qed.

(** X23. Whatever the request and the provider do,
    [/veterinary-details] on a request object never gives the "high
    demand" answer; it answers 200, 400, 500 or 503, and a 503 only
    when no credential is configured. *)
Theorem veterinary_details_never_answers_high_demand (data : dict) (w : world) :
  fst (veterinary_details (PDict data) w) <> high_demand
  /\ (status (fst (veterinary_details (PDict data) w)) = 200%Z
      \/ status (fst (veterinary_details (PDict data) w)) = 400%Z
      \/ status (fst (veterinary_details (PDict data) w)) = 500%Z
      \/ status (fst (veterinary_details (PDict data) w)) = 503%Z)
  /\ (status (fst (veterinary_details (PDict data) w)) = 503%Z ->
      key_configured = false).
Proof.
  rewrite veterinary_details_cases.
  destruct (truthy (field "diagnosis" PNone data)); cbn [negb fst].
  2: { split; [discriminate |]. split; [right; now left | discriminate]. }
  destruct key_configured.
  2: { split; [discriminate |]. split; [right; right; now right | reflexivity]. }
  destruct (query_veterinary_details _ _ _ w) as [[details | e] w1] eqn:Eq;
    cbn [fst].
  - destruct (truthy details).
    + split; [discriminate |]. split; [now left | discriminate].
    + split; [discriminate |]. split; [right; right; now left | discriminate].
  - destruct (lookup_raise _ _ _ _ _ _ Eq) as (Hh & _).
    rewrite (harmless_unexpected e Hh).
    split; [discriminate |]. split; [right; right; now left | discriminate].
Qed.

(** ** What the handlers do to the world *)

Lemma run_handler_world (m : M response) (w : world) :
  snd (run_handler m w) = snd (m w).
Proof. unfold run_handler. now destruct (m w) as [[r | e] w']. Qed.

Lemma diagnose_collect_world (prompt : string) (w : world) :
  cache (snd (diagnose_collect prompt w)) = cache w
  /\ calls w <= calls (snd (diagnose_collect prompt w)) <= calls w + 2
  /\ (key_configured = true -> calls w < calls (snd (diagnose_collect prompt w)))
  /\ (key_configured = false -> snd (diagnose_collect prompt w) = w).
Proof.
  unfold diagnose_collect. destruct key_configured.
  2: { cbn [mret snd].
       repeat split; intros; try lia; try discriminate; reflexivity. }
  destruct (retry_policy_effects (query_openrouter_attempt prompt) w
              (query_openrouter_attempt_one_call prompt))
    as ((Hlt & Hle) & Hc & _).
  fold (query_openrouter prompt w) in Hlt, Hle, Hc.
  assert (Hw : forall w1 : world,
             cache w1 = cache w -> calls w < calls w1 <= calls w + 2 ->
             cache w1 = cache w
             /\ calls w <= calls w1 <= calls w + 2
             /\ (true = true -> calls w < calls w1)
             /\ (true = false -> w1 = w)).
  { intros w1 H1 H2. repeat split; intros; try lia; try discriminate.
    exact H1. }
  unfold mbind.
  destruct (query_openrouter prompt w) as [[content | e] w1];
    cbn [snd] in *; [| now apply Hw].
  unfold lift. destruct (process_response content) as [reply | e];
    cbn [snd]; [| now apply Hw].
  destruct (truthy reply); [| cbn [mret snd]; now apply Hw].
  unfold mbind. destruct (get_diagnoses reply); cbn [mret snd];
    now apply Hw.
Qed.

Lemma diagnose_world (user_data : pyval) (w : world) :
  snd (diagnose user_data w)
  = match create_prompt user_data with
    | Ok prompt => snd (diagnose_collect prompt w)
    | Raise _ => w
    end.
Proof.
  rewrite diagnose_is_run_handler, run_handler_world.
  unfold diagnose_try, mbind, lift.
  destruct (create_prompt user_data) as [prompt |]; [| reflexivity].
  destruct (diagnose_collect prompt w) as [[m | e] w1]; [| reflexivity].
  reflexivity.
Qed.

Lemma length_cache_remove (k : cache_key) (c : store) (v : pyval) :
  cache_lookup k c = Some v ->
  S (List.length (cache_remove k c)) <= List.length c.
Proof.
  induction c as [| [k' v'] c IH]; cbn [cache_lookup cache_remove];
    [discriminate |].
  destruct (key_eqb k k').
  - intros _. cbn [List.length].
    assert (H : List.length (cache_remove k c) <= List.length c).
    { clear. induction c as [| [k2 v2] c IHc]; cbn [cache_remove];
        [constructor |].
      destruct (key_eqb k k2); cbn [List.length]; lia. }
    lia.
  - intros H. cbn [List.length]. specialize (IH H). lia.
Qed.

Lemma lookup_world (a b c : pyval) (w : world) :
  calls w <= calls (snd (query_veterinary_details a b c w)) <= calls w + 2
  /\ (List.length (cache w) <= maxsize ->
      List.length (cache (snd (query_veterinary_details a b c w))) <= maxsize).
Proof.
  unfold query_veterinary_details, lru_cache.
  destruct (make_key a b c) as [k | e]; [| cbn; split; [lia | auto]].
  destruct (cache_lookup k (cache w)) as [v |] eqn:Hl.
  - cbn [snd calls cache]. split; [lia |].
    intros Hb. cbn [List.length].
    pose proof (length_cache_remove k (cache w) v Hl). lia.
  - destruct (retry_policy_effects
                (query_veterinary_details_attempt a b c) w
                (details_attempt_one_call a b c)) as ((Hlt & Hle) & Hc & _).
    fold (query_veterinary_details_retrying a b c w) in Hlt, Hle, Hc.
    destruct (query_veterinary_details_retrying a b c w) as [[v | e] w1];
      cbn [snd calls cache] in *.
    + split; [lia |]. intros _. apply firstn_le_length.
    + split; [lia |]. now rewrite Hc.
Qed.

(** X24. [/diagnose] never touches the memo store and makes at most two
    provider calls per request; [/veterinary-details] makes at most two
    as well and never lets the store grow beyond 128 entries. *)
Theorem handlers_bound_calls_and_store (body : pyval) (w : world) :
  cache (snd (diagnose body w)) = cache w
  /\ calls w <= calls (snd (diagnose body w)) <= calls w + 2
  /\ calls w <= calls (snd (veterinary_details body w)) <= calls w + 2
  /\ (List.length (cache w) <= 128 ->
      List.length (cache (snd (veterinary_details body w))) <= 128).
Proof.
  split; [| split].
  - rewrite diagnose_world. destruct (create_prompt body); [| reflexivity].
    apply diagnose_collect_world.
  - rewrite diagnose_world. destruct (create_prompt body); [| lia].
    apply diagnose_collect_world.
  - assert (H : snd (veterinary_details body w) = w
                \/ exists a b c,
                     snd (veterinary_details body w)
                     = snd (query_veterinary_details a b c w)).
    { destruct body as [| | | | | | data]; try (left; reflexivity).
      rewrite veterinary_details_cases.
      destruct (truthy (field "diagnosis" PNone data)); cbn [negb];
        [| now left].
      destruct key_configured; [| now left].
      right.
      exists (field "diagnosis" PNone data),
             (field "species" (PStr "Unknown") data),
             (field "breed" (PStr "Mixed") data).
      destruct (query_veterinary_details _ _ _ w) as [[details | e] w1];
        reflexivity. }
    destruct H as [-> | (a & b & c & ->)].
    + split; [lia | auto].
    + apply lookup_world.
Qed.

(** X25. A request body that is not a JSON object is answered with the
    generic 500 by both endpoints, before any provider call and whether
    or not a credential is configured. *)
Theorem non_object_body_is_500 (body : pyval) (w : world) :
  (forall d, body <> PDict d) ->
  diagnose body w = (unexpected_error, w)
  /\ veterinary_details body w = (unexpected_error, w).
Proof.
  intros H. destruct body as [| | | | | | d];
    try (split; reflexivity).
  now contradiction (H d).
Qed.

(** X26. [/health] answers 200 exactly when the credential is set and
    not empty, and 503 otherwise.  It agrees with [/diagnose]: when
    health reports 503 a diagnosis request is answered 503 without a
    provider call, and when it reports 200 a diagnosis request reaches
    the provider. *)
Theorem health_agrees_with_diagnose (d : dict) (w : world) :
  (status health = 200%Z <-> key_configured = true)
  /\ (status health = 503%Z <-> key_configured = false)
  /\ (OPENROUTER_API_KEY = None \/ OPENROUTER_API_KEY = Some EmptyString ->
      health
      = mkResponse 503
          (PDict [("status", PStr "error");
                  ("message", PStr "Service cannot function - no API key configured");
                  ("missing_keys", str_list ["OPENROUTER_API_KEY"])]))
  /\ (status health = 503%Z ->
      diagnose (PDict d) w
      = (no_models_available ["OpenRouter (no API key)"], w))
  /\ (status health = 200%Z -> calls w < calls (snd (diagnose (PDict d) w))).
Proof.
  assert (H200 : status health = 200%Z <-> key_configured = true).
  { unfold health. destruct key_configured; cbn; split; intros H;
      try reflexivity; discriminate. }
  assert (H503 : status health = 503%Z <-> key_configured = false).
  { unfold health. destruct key_configured; cbn; split; intros H;
      try reflexivity; discriminate. }
  split; [exact H200 |]. split; [exact H503 |]. split; [| split].
  - unfold health, key_configured. intros [-> | ->]; reflexivity.
  - intros H. apply H503 in H.
    unfold diagnose, run_handler, mbind, lift, create_prompt, diagnose_collect.
    rewrite H. reflexivity.
  - intros H. apply H200 in H. rewrite diagnose_world. cbn [create_prompt].
    now apply diagnose_collect_world.
Qed.

End App.

(** * The handlers on concrete requests *)

Local Abbreviation run_diagnose provider key :=
  (diagnose json_decode repr_plain capitalize_ascii provider key example_id).
Local Abbreviation run_details provider key :=
  (veterinary_details json_decode repr_plain provider key example_id).
Local Abbreviation run_lookups provider :=
  (lookups json_decode repr_plain provider example_id).
Local Abbreviation summarize := (get_highest_ranked_diagnosis repr_plain).

(** The sample reply of the spec yields the diagnosis ["Otitis (70%)"]. *)
Example diagnose_otitis :
  exists rest,
    run_diagnose (always_reply otitis_reply) api_key (PDict dog_profile)
      initial_world
    = (mkResponse 200 (PDict (("diagnosis", PStr "Otitis (70%)") :: rest)),
       mkWorld 1 [] []).
Proof. eexists. vm_compute. reflexivity. Qed.

(** A reply wrapped in a code fence decodes through the fallback. *)
Example process_response_fenced :
  json_decode fenced_reply = JSONDecodeError
  /\ process_response json_decode (Some fenced_reply)
     = Ok (PDict [("urgent", PBool true)]).
Proof. split; vm_compute; reflexivity. Qed.

Example summarize_two : summarize two_conditions = Ok "Mites (55%)".
Proof. vm_compute. reflexivity. Qed.

Example summarize_four :
  summarize four_conditions
  = Ok "Top 3 possible diagnoses: Mites (30%), Allergy (30%), Polyp (20%)".
Proof. vm_compute. reflexivity. Qed.

(** A provider error of another kind is retried once and then answered
    with the generic 500 as well. *)
Example rate_limit_is_answered_500 :
  run_diagnose (always_fail rate_limited) api_key (PDict dog_profile)
    initial_world
  = (unexpected_error, mkWorld 2 [2%Z] []).
Proof. vm_compute. reflexivity. Qed.

(** A body that is not a JSON object has no [items]. *)
Example diagnose_list_body :
  run_diagnose (always_reply otitis_reply) api_key (PList []) initial_world
  = (unexpected_error, initial_world).
Proof. vm_compute. reflexivity. Qed.

(** The reply ["not json"], as the answer to the first call and as the
    answer to the second; [/veterinary-details] answers the same reply
    with its 500. *)
Lemma diagnose_failure_value_witness :
  key_configured api_key = true
  /\ json_decode plain_reply = JSONDecodeError
  /\ first_to_last_brace plain_reply = None
  /\ run_diagnose (always_reply plain_reply) api_key (PDict dog_profile)
       initial_world
     = (no_models_available ["OpenRouter (API error)"], mkWorld 1 [] [])
  /\ run_diagnose (fail_then_reply rate_limited plain_reply) api_key
       (PDict dog_profile) initial_world
     = (no_models_available ["OpenRouter (API error)"], mkWorld 2 [2%Z] [])
  /\ fst (run_diagnose (always_reply plain_reply) api_key
            (PDict dog_profile) initial_world) <> parse_failure
  /\ first_to_last_brace prose_reply = Some "{no json}"
  /\ run_diagnose (always_reply prose_reply) api_key (PDict dog_profile)
       initial_world
     = (no_models_available ["OpenRouter (API error)"], mkWorld 1 [] [])
  /\ fst (run_details (always_reply plain_reply) api_key
            (PDict otitis_request) initial_world) = details_parse_failure.
Proof.
  split; [reflexivity |]. split; [vm_compute; reflexivity |].
  split; [vm_compute; reflexivity |].
  destruct (diagnose_failure_value_is_503 json_decode repr_plain
              capitalize_ascii (always_reply plain_reply) api_key example_id
              dog_profile initial_world (mkWorld 1 [] []) plain_reply)
    as (_ & H1 & _ & _ & H1').
  { reflexivity. }
  { vm_compute. reflexivity. }
  { vm_compute. reflexivity. }
  { intros sub H. vm_compute in H. discriminate. }
  destruct (diagnose_failure_value_is_503 json_decode repr_plain
              capitalize_ascii (fail_then_reply rate_limited plain_reply)
              api_key example_id dog_profile initial_world
              (mkWorld 2 [2%Z] []) plain_reply)
    as (_ & H2 & _).
  { reflexivity. }
  { vm_compute. reflexivity. }
  { vm_compute. reflexivity. }
  { intros sub H. vm_compute in H. discriminate. }
  destruct (diagnose_failure_value_is_503 json_decode repr_plain
              capitalize_ascii (always_reply prose_reply) api_key example_id
              dog_profile initial_world (mkWorld 1 [] []) prose_reply)
    as (_ & H3 & _).
  { reflexivity. }
  { vm_compute. reflexivity. }
  { vm_compute. reflexivity. }
  { intros sub H. vm_compute in H. injection H as <-. vm_compute. reflexivity. }
  split; [exact H1 |]. split; [exact H2 |]. split; [exact H1' |].
  split; [vm_compute; reflexivity |]. split; [exact H3 |].
  vm_compute. reflexivity.
Defined.

(** C4, where the claim fails.  An integer of 4301 digits is valid
    JSON, and [json.loads] raises [ValueError] on it, which is no
    [JSONDecodeError]: the coercer returns neither the decoding nor the
    failure value, it raises.  The same happens in the second stage,
    when the integer sits in an object wrapped in prose. *)
Lemma long_integer_leaves_the_coercer_as_an_exception :
  json_decode long_integer = Crashed (IntDigits 4301)
  /\ process_response json_decode (Some long_integer)
     = Raise long_integer_error
  /\ json_decode long_integer_reply = JSONDecodeError
  /\ (exists sub,
        first_to_last_brace long_integer_reply = Some sub
        /\ json_decode sub = Crashed (IntDigits 4301))
  /\ process_response json_decode (Some long_integer_reply)
     = Raise long_integer_error
  /\ ~ (forall text,
          is_ok (process_response json_decode (Some text)) = true).
Proof.
  assert (H : process_response json_decode (Some long_integer)
              = Raise long_integer_error) by (vm_compute; reflexivity).
  split; [vm_compute; reflexivity |]. split; [exact H |].
  split; [vm_compute; reflexivity |]. split.
  - eexists. split; vm_compute; reflexivity.
  - split; [vm_compute; reflexivity |].
    intros Hall. specialize (Hall long_integer).
    rewrite H in Hall. discriminate.
Qed.

Lemma detail_memoizer_witness :
  cache initial_world = []
  /\ cache_keys
       (cache (snd (run_lookups (always_reply details_reply)
                      [(PStr "Otitis", PStr "dog", PStr "Beagle");
                       (PStr "Otitis", PStr "dog", PStr "Beagle")]
                      initial_world)))
     = [(HStr "Otitis", HStr "dog", HStr "Beagle")]
  /\ calls (snd (run_lookups (always_reply details_reply)
                   [(PStr "Otitis", PStr "dog", PStr "Beagle");
                    (PStr "Otitis", PStr "dog", PStr "Beagle")]
                   initial_world)) = 1.
Proof.
  split; [reflexivity |]. split; [| vm_compute; reflexivity].
  destruct (detail_memoizer_lru json_decode repr_plain
              (always_reply details_reply) example_id
              [(PStr "Otitis", PStr "dog", PStr "Beagle");
               (PStr "Otitis", PStr "dog", PStr "Beagle")]
              initial_world eq_refl) as (H & _).
  rewrite H. vm_compute. reflexivity.
Defined.

Lemma summarize_witness :
  forallb is_number fractional_conditions = true
  /\ forallb is_number mixed_number_conditions = true
  /\ summarize fractional_conditions = Ok "Otitis (70.5%)"
  /\ (exists top,
        In top fractional_conditions
        /\ (forall c, In c fractional_conditions -> at_least_as_likely top c)
        /\ summarize fractional_conditions
           = Ok (py_str repr_plain (name top) ++ " ("
                   ++ py_str repr_plain (likelihood top) ++ "%)")%string)
  /\ summarize mixed_number_conditions
     = Ok "Top 3 possible diagnoses: Otitis (70.5%), Allergy (70%), Mites (12.25%)"
  /\ (exists s,
        Permutation s mixed_number_conditions
        /\ StronglySorted at_least_as_likely s
        /\ summarize mixed_number_conditions
           = Ok ("Top 3 possible diagnoses: "
                   ++ str_join ", "
                        (map (fun d => py_str repr_plain (name d) ++ " ("
                                         ++ py_str repr_plain (likelihood d)
                                         ++ "%)")
                             (firstn 3 s)))%string).
Proof.
  split; [reflexivity |]. split; [reflexivity |].
  split; [vm_compute; reflexivity |]. split; [| split].
  - destruct (summarize_by_length repr_plain fractional_conditions)
      as (_ & H & _).
    destruct (H eq_refl) as (top & Hin & Hmax & Hout).
    + cbn. lia.
    + exists top. split; [assumption |]. split; assumption.
  - vm_compute. reflexivity.
  - destruct (summarize_by_length repr_plain mixed_number_conditions)
      as (_ & _ & H).
    destruct (H eq_refl) as (s & top_three & Hp & Hs & -> & _ & Hout).
    + cbn. lia.
    + exists s. repeat split; assumption.
Defined.

Lemma diagnose_without_credential_witness :
  key_configured None = false
  /\ run_diagnose (always_reply otitis_reply) None (PDict dog_profile)
       initial_world
     = (no_models_available ["OpenRouter (no API key)"], initial_world).
Proof.
  split; [reflexivity |].
  apply (diagnose_without_credential json_decode repr_plain capitalize_ascii
           (always_reply otitis_reply) None example_id dog_profile
           initial_world eq_refl).
Defined.

Lemma veterinary_details_validation_witness :
  dict_get "diagnosis" no_diagnosis_request = None
  /\ run_details (always_reply details_reply) api_key
       (PDict no_diagnosis_request) initial_world
     = (diagnosis_required, initial_world)
  /\ status (fst (run_details (always_reply details_reply) api_key
                    (PDict otitis_request) initial_world)) = 200%Z
  /\ py_getitem
       (body (fst (run_details (always_reply details_reply) api_key
                     (PDict otitis_request) initial_world))) "species"
     = Ok (PStr "Unknown")
  /\ py_getitem
       (body (fst (run_details (always_reply details_reply) api_key
                     (PDict otitis_request) initial_world))) "breed"
     = Ok (PStr "Mixed").
Proof.
  split; [reflexivity |]. split.
  - apply (veterinary_details_validation json_decode repr_plain
             (always_reply details_reply) api_key example_id
             no_diagnosis_request initial_world).
    reflexivity.
  - assert (H200 : status (fst (run_details (always_reply details_reply)
                                  api_key (PDict otitis_request)
                                  initial_world)) = 200%Z)
      by (vm_compute; reflexivity).
    split; [exact H200 |].
    destruct (veterinary_details_validation json_decode repr_plain
                (always_reply details_reply) api_key example_id
                otitis_request initial_world) as (_ & H).
    destruct (H H200) as (_ & _ & _ & Hs & Hb).
    split; [apply Hs | apply Hb]; reflexivity.
Defined.

Lemma memoized_failure_witness :
  make_key (field "diagnosis" PNone otitis_request)
           (field "species" (PStr "Unknown") otitis_request)
           (field "breed" (PStr "Mixed") otitis_request) = Ok otitis_key
  /\ key_configured api_key = true
  /\ cache_lookup otitis_key
       (cache (snd (run_details (always_reply plain_reply) api_key
                      (PDict otitis_request) initial_world)))
     = Some PNone
  /\ status (fst (run_details (always_reply plain_reply) api_key
                    (PDict otitis_request)
                    (snd (run_details (always_reply plain_reply) api_key
                            (PDict otitis_request) initial_world))))
     = 500%Z
  /\ calls (snd (run_details (always_reply plain_reply) api_key
                   (PDict otitis_request)
                   (snd (run_details (always_reply plain_reply) api_key
                           (PDict otitis_request) initial_world))))
     = 1.
Proof.
  assert (Hres : cache_lookup otitis_key
                   (cache (snd (run_details (always_reply plain_reply) api_key
                                  (PDict otitis_request) initial_world)))
                 = Some PNone) by (vm_compute; reflexivity).
  split; [reflexivity |]. split; [reflexivity |]. split; [exact Hres |].
  destruct (memoized_failure_is_replayed json_decode repr_plain
              (always_reply plain_reply) api_key example_id otitis_request
              (snd (run_details (always_reply plain_reply) api_key
                      (PDict otitis_request) initial_world))
              otitis_key eq_refl) as (_ & H).
  destruct (H eq_refl eq_refl Hres) as (_ & Hs & Hc & _).
  split; [exact Hs |]. rewrite Hc. vm_compute. reflexivity.
Defined.

Lemma get_diagnoses_witness :
  json_decode incomplete_reply = Decoded (PDict incomplete_conditions)
  /\ dict_get "conditions" incomplete_conditions
     = Some (PList [PDict [("name", PStr "Otitis")]])
  /\ is_ok (get_diagnoses (PDict incomplete_conditions)) = false
  /\ run_diagnose (always_reply incomplete_reply) api_key (PDict dog_profile)
       initial_world
     = (unexpected_error, mkWorld 1 [] []).
Proof.
  split; [vm_compute; reflexivity |]. split; [reflexivity |].
  split; [vm_compute; reflexivity |].
  destruct (get_diagnoses_total_iff_required_keys json_decode repr_plain
              capitalize_ascii (always_reply incomplete_reply) api_key
              example_id incomplete_conditions
              [PDict [("name", PStr "Otitis")]] eq_refl) as (_ & _ & H).
  apply (H dog_profile initial_world (Some incomplete_reply)).
  - reflexivity.
  - reflexivity.
  - vm_compute. reflexivity.
  - vm_compute. reflexivity.
Defined.

(** C6, on the code.  When the provider answers both attempts with a
    503 error, each attempt raises the "temporarily unavailable"
    exception, the retry wrapper gives up with a [RetryError] around
    it, whose text lacks the phrase, and both endpoints answer with the
    generic 500 instead of the 503 their handlers reserve for it. *)
Theorem overload_is_answered_500 :
  fst (query_openrouter_attempt (always_fail overloaded) "prompt" initial_world)
  = Raise (PyException Exn_unavailable)
  /\ fst (query_openrouter (always_fail overloaded) example_id "prompt"
            initial_world)
     = Raise (RetryError (example_id 2) (PyException Exn_unavailable))
  /\ handle_exception (PyException Exn_unavailable)
     = mkResponse 503
         (PDict [("error", PStr "The AI model is currently unavailable due to high demand. Please try again later.")])
  /\ run_diagnose (always_fail overloaded) api_key (PDict dog_profile)
       initial_world
     = (unexpected_error, mkWorld 2 [2%Z] [])
  /\ run_details (always_fail overloaded) api_key (PDict otitis_request)
       initial_world
     = (unexpected_error, mkWorld 2 [2%Z] []).
Proof. repeat split; vm_compute; reflexivity. Qed.

(** * The further properties on concrete requests *)

Lemma create_prompt_witness :
  In ("species", PStr "dog") dog_profile
  /\ exists prompt,
       create_prompt repr_plain capitalize_ascii (PDict dog_profile) = Ok prompt
       /\ str_contains ("Species: dog" ++ nl) prompt = true.
Proof.
  split; [now left |].
  exact (create_prompt_lists_every_attribute repr_plain capitalize_ascii
           dog_profile "species" (PStr "dog") (or_introl eq_refl)).
Defined.

Lemma fallback_match_witness :
  re_search brace_re fenced_reply = Some (json_text "{'urgent': true}").
Proof.
  apply (proj2 (fallback_match_shape fenced_reply
                  (json_text "{'urgent': true}"))).
  exists ("```json" ++ nl)%string, (json_text "'urgent': true"),
         (nl ++ "```")%string.
  repeat split; reflexivity.
Defined.

Lemma model_client_retry_witness :
  fail_then_reply overloaded otitis_reply 0 "prompt" = Fail overloaded
  /\ query_openrouter (fail_then_reply overloaded otitis_reply) example_id
       "prompt" initial_world
     = (Ok (Some otitis_reply), mkWorld 2 [2%Z] []).
Proof.
  split; [reflexivity |].
  apply (model_client_retries_any_error_once
           (fail_then_reply overloaded otitis_reply) example_id "prompt"
           initial_world overloaded (Some otitis_reply)); reflexivity.
Defined.

Lemma model_client_raise_witness :
  query_openrouter (always_fail overloaded) example_id "prompt" initial_world
  = (Raise (RetryError (example_id 2) (PyException Exn_unavailable)),
     mkWorld 2 [2%Z] [])
  /\ harmless (RetryError (example_id 2) (PyException Exn_unavailable)).
Proof.
  assert (H : query_openrouter (always_fail overloaded) example_id "prompt"
                initial_world
              = (Raise (RetryError (example_id 2) (PyException Exn_unavailable)),
                 mkWorld 2 [2%Z] [])) by (vm_compute; reflexivity).
  split; [exact H |].
  destruct (model_client_raises_only_retry_error (always_fail overloaded)
              example_id "prompt" initial_world _ _ H)
    as (e1 & e2 & _ & _ & _ & _ & _ & Hh).
  exact Hh.
Defined.

Lemma missing_content_witness :
  run_diagnose (no_content_then_reply details_reply) api_key
    (PDict dog_profile) initial_world
  = (unexpected_error, mkWorld 1 [] [])
  /\ query_veterinary_details_retrying json_decode repr_plain
       (no_content_then_reply details_reply) example_id
       (PStr "Otitis") (PStr "Unknown") (PStr "Mixed") initial_world
     = (Ok (PDict details_object), mkWorld 2 [2%Z] []).
Proof.
  destruct (missing_content_is_retried_only_for_details json_decode repr_plain
              capitalize_ascii (no_content_then_reply details_reply) api_key
              example_id dog_profile (PStr "Otitis") (PStr "Unknown")
              (PStr "Mixed") initial_world details_reply
              (PDict details_object)) as (H1 & H2).
  split.
  - apply H1; reflexivity.
  - apply H2; [reflexivity | reflexivity | vm_compute; reflexivity].
Defined.

Lemma diagnose_without_conditions_witness :
  process_response json_decode (Some empty_conditions_reply)
  = Ok (PDict [("conditions", PList []); ("urgent", PBool false)])
  /\ run_diagnose (always_reply empty_conditions_reply) api_key
       (PDict dog_profile) initial_world
     = (parse_failure, mkWorld 1 [] []).
Proof.
  assert (Hr : process_response json_decode (Some empty_conditions_reply)
               = Ok (PDict [("conditions", PList []); ("urgent", PBool false)]))
    by (vm_compute; reflexivity).
  split; [exact Hr |].
  apply (diagnose_reply_without_conditions json_decode repr_plain
           capitalize_ascii (always_reply empty_conditions_reply) api_key
           example_id dog_profile
           [("conditions", PList []); ("urgent", PBool false)]
           initial_world (Some empty_conditions_reply)).
  - reflexivity.
  - reflexivity.
  - exact Hr.
  - discriminate.
  - right. reflexivity.
Defined.

Lemma get_diagnoses_copies_witness :
  get_diagnoses (PDict otitis_object)
  = Ok [mkCondition (PStr "Otitis") (PInt 70) (PStr "ear infection")].
Proof.
  apply (get_diagnoses_copies_entries otitis_object [PDict otitis_condition]).
  - reflexivity.
  - repeat constructor.
Defined.





Lemma diagnose_single_condition_witness :
  run_diagnose (always_reply vague_reply) api_key (PDict dog_profile)
    initial_world
  = (mkResponse 200
       (diagnosis_body "Otitis (high%)" (PList [PDict vague_condition])
          (PBool false) (PStr "monitor") (PStr "clean ears")),
     mkWorld 1 [] []).
Proof.
  apply (diagnose_single_condition_any_likelihood json_decode repr_plain
           capitalize_ascii (always_reply vague_reply) api_key example_id
           dog_profile vague_object vague_condition initial_world
           (Some vague_reply) (PStr "Otitis") (PStr "high"));
    vm_compute; reflexivity.
Defined.

Lemma diagnose_missing_field_witness :
  dict_get "urgent" no_urgent_object = None
  /\ run_diagnose (always_reply no_urgent_reply) api_key (PDict dog_profile)
       initial_world
     = (unexpected_error, mkWorld 1 [] []).
Proof.
  split; [reflexivity |].
  apply (diagnose_reply_missing_field json_decode repr_plain capitalize_ascii
           (always_reply no_urgent_reply) api_key example_id dog_profile
           no_urgent_object initial_world (Some no_urgent_reply)
           (mkCondition (PStr "Otitis") (PInt 70) (PStr EmptyString)) []).
  - reflexivity.
  - reflexivity.
  - vm_compute. reflexivity.
  - vm_compute. reflexivity.
  - left. reflexivity.
Defined.

Lemma diagnose_mixed_likelihoods_witness :
  run_diagnose (always_reply mixed_reply) api_key (PDict dog_profile)
    initial_world
  = (unexpected_error, mkWorld 1 [] []).
Proof.
  apply (diagnose_mixed_likelihoods json_decode repr_plain capitalize_ascii
           (always_reply mixed_reply) api_key example_id dog_profile
           mixed_object mixed_first mixed_second initial_world
           (Some mixed_reply) [] 70%Z "low").
  - reflexivity.
  - reflexivity.
  - vm_compute. reflexivity.
  - reflexivity.
  - repeat constructor.
  - reflexivity.
  - reflexivity.
Defined.

Lemma falsy_diagnosis_witness :
  truthy (field "diagnosis" PNone empty_diagnosis_request) = false
  /\ run_details (always_reply details_reply) api_key
       (PDict empty_diagnosis_request) initial_world
     = (diagnosis_required, initial_world).
Proof.
  split; [reflexivity |].
  apply (veterinary_details_checks_diagnosis_first json_decode repr_plain
           (always_reply details_reply) api_key example_id
           empty_diagnosis_request initial_world eq_refl).
Defined.

Lemma details_without_credential_witness :
  key_configured None = false
  /\ run_details (always_reply details_reply) None (PDict otitis_request)
       initial_world
     = (no_models_for_details ["OpenRouter (no API key)"], initial_world).
Proof.
  split; [reflexivity |].
  apply (veterinary_details_without_credential json_decode repr_plain
           (always_reply details_reply) None example_id otitis_request
           initial_world eq_refl eq_refl).
Defined.

Lemma details_answer_witness :
  run_details (always_reply details_reply) api_key (PDict otitis_request)
    initial_world
  = (mkResponse 200
       (details_body (PStr "Otitis") (PStr "Unknown") (PStr "Mixed")
          (PDict details_object)),
     mkWorld 1 [] [(otitis_key, PDict details_object)])
  /\ cache_lookup otitis_key [(otitis_key, PDict details_object)]
     = Some (PDict details_object).
Proof.
  apply (veterinary_details_answer_follows_details json_decode repr_plain
           (always_reply details_reply) api_key example_id otitis_request
           initial_world (mkWorld 1 [] [(otitis_key, PDict details_object)])
           (PDict details_object) otitis_key).
  - reflexivity.
  - reflexivity.
  - reflexivity.
  - vm_compute. reflexivity.
Defined.

Lemma unhashable_field_witness :
  make_key (PStr "Otitis") (PList [PStr "dog"]) (PStr "Mixed")
  = Raise (TypeError "unhashable type: 'list'")
  /\ run_details (always_reply details_reply) api_key
       (PDict list_species_request) initial_world
     = (unexpected_error, initial_world).
Proof.
  split; [reflexivity |].
  apply (veterinary_details_unhashable_field json_decode repr_plain
           (always_reply details_reply) api_key example_id
           list_species_request initial_world); reflexivity.
Defined.

Lemma failed_lookup_witness :
  query_veterinary_details json_decode repr_plain (always_fail overloaded)
    example_id (PStr "Otitis") (PStr "Unknown") (PStr "Mixed") initial_world
  = (Raise (RetryError (example_id 2) (PyException Exn_unavailable)),
     mkWorld 2 [2%Z] [])
  /\ calls (mkWorld 2 [2%Z] [])
     < calls (snd (query_veterinary_details json_decode repr_plain
                     (always_fail overloaded) example_id (PStr "Otitis")
                     (PStr "Unknown") (PStr "Mixed") (mkWorld 2 [2%Z] []))).
Proof.
  assert (H : query_veterinary_details json_decode repr_plain
                (always_fail overloaded) example_id (PStr "Otitis")
                (PStr "Unknown") (PStr "Mixed") initial_world
              = (Raise (RetryError (example_id 2) (PyException Exn_unavailable)),
                 mkWorld 2 [2%Z] [])) by (vm_compute; reflexivity).
  split; [exact H |].
  destruct (failed_lookup_is_not_cached json_decode repr_plain
              (always_fail overloaded) example_id (PStr "Otitis")
              (PStr "Unknown") (PStr "Mixed") initial_world
              (mkWorld 2 [2%Z] []) otitis_key _ eq_refl eq_refl H)
    as (_ & _ & _ & _ & Hlt).
  exact Hlt.
Defined.

Lemma handlers_bound_witness :
  List.length (cache initial_world) <= 128
  /\ List.length
       (cache (snd (run_details (always_reply details_reply) api_key
                      (PDict otitis_request) initial_world))) <= 128
  /\ cache (snd (run_diagnose (always_reply otitis_reply) api_key
                   (PDict dog_profile) initial_world))
     = cache initial_world.
Proof.
  assert (H0 : List.length (cache initial_world) <= 128) by (cbn; lia).
  split; [exact H0 |]. split.
  - destruct (handlers_bound_calls_and_store json_decode repr_plain
                capitalize_ascii (always_reply details_reply) api_key
                example_id (PDict otitis_request) initial_world)
      as (_ & _ & _ & H).
    exact (H H0).
  - destruct (handlers_bound_calls_and_store json_decode repr_plain
                capitalize_ascii (always_reply otitis_reply) api_key
                example_id (PDict dog_profile) initial_world)
      as (H & _).
    exact H.
Defined.

Lemma non_object_body_witness :
  run_diagnose (always_reply otitis_reply) api_key (PList [PStr "dog"])
    initial_world
  = (unexpected_error, initial_world)
  /\ run_details (always_reply details_reply) api_key (PList [PStr "dog"])
       initial_world
     = (unexpected_error, initial_world).
Proof.
  apply (non_object_body_is_500 json_decode repr_plain capitalize_ascii
           (always_reply otitis_reply) api_key example_id
           (PList [PStr "dog"]) initial_world).
  discriminate.
Defined.

Lemma health_witness :
  status (health (Some EmptyString)) = 503%Z
  /\ run_diagnose (always_reply otitis_reply) (Some EmptyString)
       (PDict dog_profile) initial_world
     = (no_models_available ["OpenRouter (no API key)"], initial_world)
  /\ status (health api_key) = 200%Z
  /\ calls initial_world
     < calls (snd (run_diagnose (always_reply otitis_reply) api_key
                     (PDict dog_profile) initial_world)).
Proof.
  destruct (health_agrees_with_diagnose json_decode repr_plain
              capitalize_ascii (always_reply otitis_reply)
              (Some EmptyString) example_id dog_profile initial_world)
    as (_ & _ & _ & H503 & _).
  destruct (health_agrees_with_diagnose json_decode repr_plain
              capitalize_ascii (always_reply otitis_reply) api_key
              example_id dog_profile initial_world)
    as (_ & _ & _ & _ & H200).
  split; [reflexivity |]. split; [exact (H503 eq_refl) |].
  split; [reflexivity |]. exact (H200 eq_refl).
Defined.
